(** * Safe smart-account adapter of permissionless.js: a shallow embedding

    The development follows the TypeScript sources

      - [src/accounts/privateKeyToSafeSmartAccount.ts]
      - [packages/permissionless/errors/estimateUserOperationGas.ts]
      - [packages/permissionless/clients/createSmartAccountClient.ts]

    JavaScript strings are [string]s of 8-bit code units, [bigint]s and the
    integral [number]s that occur are [Z], [NaN] is [None], a thrown value is
    the left injection of [Result].  Asynchronous functions that talk to the
    chain or to the owner's signer are functions in the monad [M], which
    threads the list of requests made so far and asks an environment
    [Env] for the answers. *)

From Stdlib Require Import ZArith List String Ascii Bool Lia.
From Stdlib Require Import Sorting.Sorted Sorting.Permutation DecimalString.
Import ListNotations.

Open Scope string_scope.
Open Scope list_scope.
Open Scope Z_scope.

(** String concatenation, the [+] of JavaScript on strings. *)
Infix "+:+" := String.append (at level 60, right associativity).

(* ------------------------------------------------------------------ *)
(** ** JavaScript built-ins used by the sources *)

Module JS.

(** Thrown values.  [Error] is the plain [new Error(message)]; the others
    are the classes the sources and the libraries they call throw. *)
Inductive Exn : Type :=
| Error (message : string)
| TypeError (message : string)
| SyntaxError (message : string)
| SignTransactionNotSupportedBySafeSmartAccount
    (shortMessage : string) (docsPath : option string) (docsSlug : string)
| IntegerOutOfRangeError (value : Z)
| BytesSizeMismatchError (expectedSize givenSize : Z)
| LibraryError (what : string).

Definition Result (A : Type) : Type := (Exn + A)%type.

Definition ok {A} (a : A) : Result A := inr a.
Definition throw {A} (e : Exn) : Result A := inl e.

Definition rbind {A B} (r : Result A) (k : A -> Result B) : Result B :=
  match r with
  | inl e => inl e
  | inr a => k a
  end.

Definition code (c : ascii) : Z := Z.of_N (N_of_ascii c).

(** [String.prototype.slice(start, end)], [end] optional. *)
Definition slice (s : string) (start : Z) (end_ : option Z) : string :=
  let len := Z.of_nat (String.length s) in
  let from := if start <? 0 then Z.max (len + start) 0 else Z.min start len in
  let e := match end_ with Some e => e | None => len end in
  let to := if e <? 0 then Z.max (len + e) 0 else Z.min e len in
  substring (Z.to_nat from) (Z.to_nat (Z.max (to - from) 0)) s.

(** White space and line terminators among the code units below 256. *)
Definition isWhiteSpace (c : ascii) : bool :=
  let n := code c in
  ((9 <=? n) && (n <=? 13)) || (n =? 32) || (n =? 160).

Fixpoint trimStart (s : string) : string :=
  match s with
  | String c r => if isWhiteSpace c then trimStart r else s
  | EmptyString => EmptyString
  end.

(** Value of a digit in radix 16, either case. *)
Definition hexDigitValue (c : ascii) : option Z :=
  let n := code c in
  if (48 <=? n) && (n <=? 57) then Some (n - 48)
  else if (97 <=? n) && (n <=? 102) then Some (n - 87)
  else if (65 <=? n) && (n <=? 70) then Some (n - 55)
  else None.

(** The longest prefix of radix-16 digits, as a number; [None] when the
    prefix is empty. *)
Fixpoint parseDigits (s : string) (acc : option Z) : option Z :=
  match s with
  | String c r =>
      match hexDigitValue c with
      | Some d =>
          parseDigits r
            (Some (16 * match acc with Some a => a | None => 0 end + d))
      | None => acc
      end
  | EmptyString => acc
  end.

Definition stripHexPrefix (s : string) : string :=
  match s with
  | String "0" (String "x" r) => r
  | String "0" (String "X" r) => r
  | _ => s
  end.

(** [parseInt(s, 16)]: leading white space, a sign, an optional [0x], then
    the longest run of digits; [None] is [NaN].  Exact as long as the value
    is a safe integer, which two characters always are. *)
Definition parseInt16 (s : string) : option Z :=
  let s1 := trimStart s in
  let '(sign, s2) :=
    match s1 with
    | String "-" r => (-1, r)
    | String "+" r => (1, r)
    | _ => (1, s1)
    end in
  match parseDigits (stripHexPrefix s2) None with
  | Some m => Some (sign * m)
  | None => None
  end.

(** [Array.prototype.includes] on an array of numbers. *)
Definition includes (l : list Z) (v : option Z) : bool :=
  match v with
  | Some n => existsb (Z.eqb n) l
  | None => false
  end.

Definition hexDigit (d : Z) : ascii :=
  if d <? 10 then ascii_of_N (Z.to_N (48 + d)) else ascii_of_N (Z.to_N (87 + d)).

Fixpoint hexDigitsAux (fuel : nat) (n : Z) (acc : string) : string :=
  match fuel with
  | O => acc
  | S f =>
      let acc' := String (hexDigit (n mod 16)) acc in
      if n / 16 =? 0 then acc' else hexDigitsAux f (n / 16) acc'
  end.

(** Digits of a non-negative integer in radix 16, lower case, no leading
    zero; the fuel [1 + log2 n] bounds the number of digits. *)
Definition hexDigits (n : Z) : string :=
  hexDigitsAux (S (Z.to_nat (Z.log2 n))) n EmptyString.

(** [n.toString(16)] for an integral number or a bigint. *)
Definition toString16 (n : Z) : string :=
  if n <? 0 then String "-" (hexDigits (- n)) else hexDigits n.

Fixpoint repeat0 (k : nat) : string :=
  match k with
  | O => EmptyString
  | S k' => String "0" (repeat0 k')
  end.

(** [s.padStart(target, "0")]. *)
Definition padStart0 (target : nat) (s : string) : string :=
  repeat0 (target - String.length s) +:+ s.

(** [String.prototype.toLowerCase] on code units below 256. *)
Definition lowerChar (c : ascii) : ascii :=
  let n := code c in
  if ((65 <=? n) && (n <=? 90))
     || ((192 <=? n) && (n <=? 222) && negb (n =? 215))
  then ascii_of_N (Z.to_N (n + 32)) else c.

Fixpoint toLowerCase (s : string) : string :=
  match s with
  | String c r => String (lowerChar c) (toLowerCase r)
  | EmptyString => EmptyString
  end.

(** [a.localeCompare(b)], negative, zero or positive.  The comparison is the
    collation of the default locale of the runtime: the language leaves the
    order to the implementation and requires a consistent comparison
    function.  The engines compute it with ICU, where comparing two strings
    is comparing their sort keys unit by unit; [sortKey] is the key of the
    default locale, which differs from one runtime to the next. *)
Definition localeCompare (sortKey : string -> string) (a b : string) : Z :=
  match String.compare (sortKey a) (sortKey b) with
  | Lt => -1
  | Eq => 0
  | Gt => 1
  end.

(** [s.replace("0x", "")]: the first occurrence of the pattern is removed. *)
Fixpoint replace0x (s : string) : string :=
  match s with
  | String "0" (String "x" r) => r
  | String c r => String c (replace0x r)
  | EmptyString => EmptyString
  end.

(** [Array.prototype.filter(Boolean)] on strings: the empty string is the
    only falsy one. *)
Definition truthy (s : string) : bool := negb (String.eqb s EmptyString).

(** Insertion of [x] before the first element it does not follow. *)
Fixpoint insertBy {A} (cmp : A -> A -> Z) (x : A) (l : list A) : list A :=
  match l with
  | [] => [x]
  | y :: l' => if cmp x y <=? 0 then x :: l else y :: insertBy cmp x l'
  end.

(** [Array.prototype.sort(cmp)].  The language fixes the result for a
    consistent comparator (sorted, and stable); insertion from the right
    computes it. *)
Fixpoint sort {A} (cmp : A -> A -> Z) (l : list A) : list A :=
  match l with
  | [] => []
  | x :: l' => insertBy cmp x (sort cmp l')
  end.

End JS.

Import JS.

Definition Hex : Type := string.
Definition Address : Type := string.

(* ------------------------------------------------------------------ *)
(** ** The signature normalizer *)

Inductive SigningMethod : Type := eth_sign | eth_signTypedData.

Definition ETHEREUM_V_VALUES : list Z := [0; 1; 27; 28].
Definition MIN_VALID_V_VALUE_FOR_SAFE_ECDSA : Z := 27.

(** [adjustVInSignature(signingMethod, signature)]. *)
Definition adjustVInSignature (signingMethod : SigningMethod)
    (signature : string) : Result Hex :=
  let parsed := parseInt16 (slice signature (-2) None) in
  if negb (includes ETHEREUM_V_VALUES parsed) then
    throw (Error "Invalid signature")
  else
    let signatureV := match parsed with Some v => v | None => 0 end in
    let signatureV :=
      match signingMethod with
      | eth_sign =>
          (if signatureV <? MIN_VALID_V_VALUE_FOR_SAFE_ECDSA
           then signatureV + MIN_VALID_V_VALUE_FOR_SAFE_ECDSA
           else signatureV) + 4
      | eth_signTypedData => signatureV
      end in
    let signatureV :=
      match signingMethod with
      | eth_signTypedData =>
          if signatureV <? MIN_VALID_V_VALUE_FOR_SAFE_ECDSA
          then signatureV + MIN_VALID_V_VALUE_FOR_SAFE_ECDSA
          else signatureV
      | eth_sign => signatureV
      end in
    ok (slice signature 0 (Some (-2)) +:+ toString16 signatureV).


(* ------------------------------------------------------------------ *)
(** ** The library boundary: viem *)

Module Viem.

(** The type [Hex] is the template [`0x${string}`]: a value of it starts with
    [0x]. *)
Definition isHex (h : Hex) : bool :=
  match h with
  | String "0" (String "x" _) => true
  | _ => false
  end.

(** [concatHex(values)]: [0x] followed by every value without its [0x]. *)
Definition concatHex (values : list Hex) : Hex :=
  "0x" +:+ fold_left (fun acc x => acc +:+ replace0x x) values EmptyString.

Definition maxUint256 : Z := 2 ^ 256 - 1.

(** [numberToHex(value, { size: 32 })]: range check, then the digits padded
    on the left to 64 characters. *)
Definition numberToHex32 (value : Z) : Result Hex :=
  if (maxUint256 <? value) || (value <? 0) then
    throw (IntegerOutOfRangeError value)
  else ok ("0x" +:+ padStart0 64 (replace0x ("0x" +:+ toString16 value))).

Fixpoint allHexDigits (s : string) : bool :=
  match s with
  | String c r =>
      match hexDigitValue c with
      | Some _ => allHexDigits r
      | None => false
      end
  | EmptyString => true
  end.

(** [hexToBigInt(hex)], that is [BigInt(hex)] on a [0x] string: a
    [SyntaxError] unless at least one digit follows the prefix and only
    digits do.  (White space around the literal is not modelled.) *)
Definition hexToBigInt (hex : Hex) : Result Z :=
  match hex with
  | String "0" (String x digits) =>
      if ((Ascii.eqb x "x") || (Ascii.eqb x "X"))
         && negb (String.eqb digits EmptyString) && allHexDigits digits
      then match parseDigits digits None with
           | Some n => ok n
           | None => throw (SyntaxError hex)
           end
      else throw (SyntaxError hex)
  | _ => throw (SyntaxError hex)
  end.

(** The (type, value) pairs given to [encodePacked] by the sources. *)
Inductive PackedArg : Type :=
| P_bytes (value : Hex)
| P_bytes32 (value : Hex)
| P_uint256 (value : Z).

Definition encodePackedArg (a : PackedArg) : Result Hex :=
  match a with
  | P_bytes value => ok value
  | P_bytes32 value =>
      let given := Z.of_nat (String.length value) - 2 in
      if given =? 64 then ok value
      else throw (BytesSizeMismatchError 32 (given / 2))
  | P_uint256 value => numberToHex32 value
  end.

Fixpoint encodeAll (args : list PackedArg) : Result (list Hex) :=
  match args with
  | [] => ok []
  | a :: rest =>
      rbind (encodePackedArg a) (fun h =>
      rbind (encodeAll rest) (fun hs => ok (h :: hs)))
  end.

(** [encodePacked(types, values)]. *)
Definition encodePacked (args : list PackedArg) : Result Hex :=
  rbind (encodeAll args) (fun hs => ok (concatHex hs)).

(** ABI items and values, as the sources write them. *)
Record AbiParameter : Type := mkAbiParameter {
  internalType : string;
  name : string;
  type : string
}.

Record AbiFunction : Type := mkAbiFunction {
  inputs : list AbiParameter;
  fname : string;
  outputs : list AbiParameter;
  stateMutability : string
}.

Inductive AbiValue : Type :=
| V_address (a : Address)
| V_uint (n : Z)
| V_bytes (h : Hex)
| V_address_array (l : list Address).

(** EIP-712 typed data. *)
Record TypedDataDomain : Type := mkDomain {
  chainId : Z;
  verifyingContract : Address
}.

Record TypedDataField : Type := mkField {
  field_type : string;
  field_name : string
}.

Record TypedDataDefinition : Type := mkTypedData {
  domain : TypedDataDomain;
  types : list (string * list TypedDataField);
  primaryType : string;
  message : list (string * AbiValue)
}.

(** A [SignableMessage]: a string, or [{ raw }]. *)
Inductive SignableMessage : Type :=
| M_string (s : string)
| M_raw (raw : Hex).

Record GetContractAddressOptions : Type := mkCreate2 {
  from : Address;
  salt : Hex;
  bytecode : Hex;
  opcode : string
}.

(** What the sources take from outside and that stays abstract: the
    primitives they import (hashing, ABI encoding, CREATE2 address
    derivation, the address of a private key) and, from the runtime, the
    sort key of its default collation, which [localeCompare] compares.  The
    encoders validate their arguments and may throw.  What they return has
    the type the library declares: a digest is a [Hex] of 32 bytes, encoded
    call data is a [Hex]. *)
Class Primitives : Type := {
  keccak256 : Hex -> Hex;
  encodeFunctionData : AbiFunction -> string -> list AbiValue -> Result Hex;
  getContractAddress : GetContractAddressOptions -> Result Address;
  hashMessage : SignableMessage -> Hex;
  hashTypedData : TypedDataDefinition -> Result Hex;
  toBytes : Hex -> Hex;
  privateKeyToAccount : Hex -> Result Address;
  sortKey : string -> string;
  keccak256_bytes32 :
    forall h, isHex (keccak256 h) = true /\ String.length (keccak256 h) = 66%nat;
  encodeFunctionData_hex :
    forall f functionName args h,
      encodeFunctionData f functionName args = inr h -> isHex h = true
}.

Definition zeroAddress : Address := "0x0000000000000000000000000000000000000000".

End Viem.

Import Viem.

(* ------------------------------------------------------------------ *)
(** ** Requests to the chain and to the owner's signer *)

Inductive Request : Type :=
| GetChainId
| ReadContract (address : Address) (functionName : string)
| GetBytecode (address : Address)
| GetAccountNonce (sender entryPoint : Address)
| SignMessage (privateKey : Hex) (raw : Hex)
| SignTypedData (privateKey : Hex) (typedData : TypedDataDefinition).

(** Requests answered by the chain client, as opposed to the local signer. *)
Definition isChainIO (r : Request) : bool :=
  match r with
  | SignMessage _ _ | SignTypedData _ _ => false
  | _ => true
  end.

(** The environment answers a request knowing the requests made before it,
    so that a read may change from one call to the next. *)
Record Env : Type := mkEnv {
  chainIdOf : list Request -> Result Z;
  readContractOf : list Request -> Address -> string -> Result Hex;
  bytecodeOf : list Request -> Address -> Result (option Hex);
  accountNonceOf : list Request -> Address -> Address -> Result Z;
  signMessageOf : list Request -> Hex -> Hex -> Result Hex;
  signTypedDataOf : list Request -> Hex -> TypedDataDefinition -> Result Hex
}.

Definition M (A : Type) : Type := Env -> list Request -> Result A * list Request.

Definition ret {A} (a : A) : M A := fun _ h => (inr a, h).
Definition raise {A} (e : Exn) : M A := fun _ h => (inl e, h).
Definition lift {A} (r : Result A) : M A := fun _ h => (r, h).

Definition bind {A B} (m : M A) (k : A -> M B) : M B :=
  fun env h =>
    match m env h with
    | (inl e, h') => (inl e, h')
    | (inr a, h') => k a env h'
    end.

Notation "x <- m ;; k" := (bind m (fun x => k))
  (at level 100, m at next level, right associativity).

(** One request: it is recorded, and answered from the history before it. *)
Definition request {A} (r : Request) (answer : Env -> list Request -> Result A)
  : M A :=
  fun env h => (answer env h, h ++ [r]).

Definition getChainId : M Z :=
  request GetChainId chainIdOf.
Definition readContract (address : Address) (functionName : string) : M Hex :=
  request (ReadContract address functionName)
    (fun env h => readContractOf env h address functionName).
Definition getBytecode (address : Address) : M (option Hex) :=
  request (GetBytecode address) (fun env h => bytecodeOf env h address).
(** Modelled from the spec: [getAccountNonce] of [actions/public] is not among
    the sources; the specification has it as an external nonce lookup keyed
    by the sender and the entry point, so it is one request. *)
Definition getAccountNonce (sender entryPoint : Address) : M Z :=
  request (GetAccountNonce sender entryPoint)
    (fun env h => accountNonceOf env h sender entryPoint).
Definition account_signMessage (privateKey raw : Hex) : M Hex :=
  request (SignMessage privateKey raw)
    (fun env h => signMessageOf env h privateKey raw).
Definition account_signTypedData (privateKey : Hex) (td : TypedDataDefinition)
  : M Hex :=
  request (SignTypedData privateKey td)
    (fun env h => signTypedDataOf env h privateKey td).

(* ------------------------------------------------------------------ *)
(** ** privateKeyToSafeSmartAccount.ts *)

Inductive SafeVersion : Type := v1_4_1.

Definition EIP712_SAFE_OPERATION_TYPE : list (string * list TypedDataField) :=
  [ ("SafeOp",
     [ mkField "address" "safe";
       mkField "bytes" "callData";
       mkField "uint256" "nonce";
       mkField "uint256" "preVerificationGas";
       mkField "uint256" "verificationGasLimit";
       mkField "uint256" "callGasLimit";
       mkField "uint256" "maxFeePerGas";
       mkField "uint256" "maxPriorityFeePerGas";
       mkField "address" "entryPoint" ]) ].

Record NetworkAddresses : Type := mkNetworkAddresses {
  ADD_MODULES_LIB_ADDRESS : Address;
  SAFE_4337_MODULE_ADDRESS : Address;
  SAFE_PROXY_FACTORY_ADDRESS : Address;
  SAFE_SINGLETON_ADDRESS : Address
}.

(** The object literal, keyed by version and then by the chain id as a
    string, entries in source order. *)
Definition SAFE_ADDRESSES_MAP (v : SafeVersion)
  : list (string * NetworkAddresses) :=
  match v with
  | v1_4_1 =>
      [ ("11155111",
         mkNetworkAddresses
           "0x191EFDC03615B575922289DC339F4c70aC5C30Af"
           "0x39E54Bb2b3Aa444b4B39DEe15De3b7809c36Fc38"
           "0x4e1DCf7AD4e460CfD30791CCC4F9c8a4f820ec67"
           "0x41675C099F32341bf84BFc5382aF534df5C7461a");
        ("5",
         mkNetworkAddresses
           "0x191EFDC03615B575922289DC339F4c70aC5C30Af"
           "0x39E54Bb2b3Aa444b4B39DEe15De3b7809c36Fc38"
           "0x4e1DCf7AD4e460CfD30791CCC4F9c8a4f820ec67"
           "0x41675C099F32341bf84BFc5382aF534df5C7461a") ]
  end.

(** Property access [obj[key]]; [None] is [undefined]. *)
Fixpoint lookup {A} (key : string) (obj : list (string * A)) : option A :=
  match obj with
  | [] => None
  | (k, a) :: rest => if String.eqb key k then Some a else lookup key rest
  end.

(** [new SignTransactionNotSupportedBySafeSmartAccount({ docsPath })]. *)
Definition newSignTransactionNotSupportedBySafeSmartAccount
    (docsPath : option string) : Exn :=
  SignTransactionNotSupportedBySafeSmartAccount
    (String.concat (String "010"%char EmptyString)
       [ "A smart account cannot sign or send transaction, it can only sign message or userOperation.";
         "Please send user operation instead." ])
    docsPath "account".

(** What [signMessage] and [signTypedData] are given: a signable message or
    a typed-data definition. *)
Inductive SafeMessageInput : Type :=
| In_message (m : SignableMessage)
| In_typedData (td : TypedDataDefinition).

Record UserOperation : Type := mkUserOperation {
  sender : Address;
  nonce : Z;
  initCode : Hex;
  callData : Hex;
  callGasLimit : Z;
  verificationGasLimit : Z;
  preVerificationGas : Z;
  maxFeePerGas : Z;
  maxPriorityFeePerGas : Z;
  paymasterAndData : Hex;
  signature : Hex
}.

Record SignerSignature : Type := mkSignerSignature {
  signer : Address;
  data : Hex
}.

(** Lines 524-540 of [signUserOperation]: the array is sorted by lower-cased
    signer, then the signatures are appended without their [0x]. *)
Definition compareSigners `{P : Primitives} (left right : SignerSignature) : Z :=
  localeCompare sortKey (toLowerCase (signer left)) (toLowerCase (signer right)).

Definition appendSignatures (signatures : list SignerSignature) : Hex :=
  fold_left (fun signatureBytes sig => signatureBytes +:+ slice (data sig) 2 None)
    signatures "0x".

Definition sortAndConcat `{P : Primitives} (signatures : list SignerSignature)
  : Hex :=
  appendSignatures (sort compareSigners signatures).

(** [contractCode?.length ?? 0]. *)
Definition optionalLength (contractCode : option Hex) : Z :=
  match contractCode with
  | Some code => Z.of_nat (String.length code)
  | None => 0
  end.

(** Values of no interest to the callee ([_], [__]). *)
Inductive JsValue : Type :=
| J_undefined
| J_null
| J_string (s : string)
| J_number (n : Z)
| J_bigint (n : Z)
| J_object (fields : list (string * string)).

Record CallArgs : Type := mkCallArgs {
  to : Address;
  value : Z;
  call_data : Hex
}.

(** The object returned by [privateKeyToSafeSmartAccount]. *)
Record SmartAccount : Type := mkSmartAccount {
  address : Address;
  publicKey : Address;
  entryPoint : Address;
  source : string;
  signMessage : SignableMessage -> M Hex;
  signTransaction : JsValue -> JsValue -> M Hex;
  signTypedData : SafeMessageInput -> M Hex;
  getNonce : M Z;
  signUserOperation : UserOperation -> M Hex;
  getInitCode : M Hex;
  encodeDeployCallData : JsValue -> M Hex;
  encodeCallData : CallArgs -> M Hex;
  getDummySignature : M Hex
}.

(** The argument object of [privateKeyToSafeSmartAccount]; [None] is a field
    left out. *)
Record SafeParameters : Type := mkSafeParameters {
  p_privateKey : Hex;
  p_safeVersion : SafeVersion;
  p_entryPoint : Address;
  p_addModuleLibAddress : option Address;
  p_safe4337ModuleAddress : option Address;
  p_safeProxyFactoryAddress : option Address;
  p_safeSingletonAddress : option Address;
  p_saltNonce : option Z
}.

(** The variables the methods of the account close over. *)
Record Closure : Type := mkClosure {
  c_privateKey : Hex;
  c_owner : Address;
  c_chainId : Z;
  c_accountAddress : Address;
  c_entryPoint : Address;
  c_addModuleLibAddress : Address;
  c_safe4337ModuleAddress : Address;
  c_safeProxyFactoryAddress : Address;
  c_safeSingletonAddress : Address;
  c_saltNonce : Z
}.

(** [n.toString()] for an integral number. *)
Definition numberToString (n : Z) : string :=
  DecimalString.NilZero.string_of_int (Z.to_int n).

Definition setupAbi : AbiFunction :=
  mkAbiFunction
    [ mkAbiParameter "address[]" "_owners" "address[]";
      mkAbiParameter "uint256" "_threshold" "uint256";
      mkAbiParameter "address" "to" "address";
      mkAbiParameter "bytes" "data" "bytes";
      mkAbiParameter "address" "fallbackHandler" "address";
      mkAbiParameter "address" "paymentToken" "address";
      mkAbiParameter "uint256" "payment" "uint256";
      mkAbiParameter "address payable" "paymentReceiver" "address" ]
    "setup" [] "nonpayable".

Definition enableModulesAbi : AbiFunction :=
  mkAbiFunction
    [ mkAbiParameter "address[]" "modules" "address[]" ]
    "enableModules" [] "nonpayable".

Definition createProxyWithNonceAbi : AbiFunction :=
  mkAbiFunction
    [ mkAbiParameter "address" "_singleton" "address";
      mkAbiParameter "bytes" "initializer" "bytes";
      mkAbiParameter "uint256" "saltNonce" "uint256" ]
    "createProxyWithNonce"
    [ mkAbiParameter "contract SafeProxy" "proxy" "address" ]
    "nonpayable".

Definition executeUserOpAbi : AbiFunction :=
  mkAbiFunction
    [ mkAbiParameter "address" "to" "address";
      mkAbiParameter "uint256" "value" "uint256";
      mkAbiParameter "bytes" "data" "bytes";
      mkAbiParameter "uint8" "operation" "uint8" ]
    "executeUserOp" [] "nonpayable".

Definition SafeMessageTypes : list (string * list TypedDataField) :=
  [ ("SafeMessage", [ mkField "bytes" "message" ]) ].

Definition dummySignature : Hex :=
  "0xfffffffffffffffffffffffffffffff0000000000000000000000000000000007aaaaaaaaaaaaaaaaaaaaaaaaaaaaaaaaaaaaaaaaaaaaaaaaaaaaaaaaaaaaaaa1c".

Section Safe.

Context {P : Primitives}.

(** [generateSafeMessageMessage(message)].  [raw] is a [Hex] or a byte
    array, never falsy, so a signable message always takes the first
    branch. *)
Definition generateSafeMessageMessage (message : SafeMessageInput)
  : Result Hex :=
  match message with
  | In_message signableMessage => ok (hashMessage signableMessage)
  | In_typedData td => hashTypedData td
  end.

(** [getInitializerCode({ owner, addModuleLibAddress, safe4337ModuleAddress })]. *)
Definition getInitializerCode
    (owner addModuleLibAddress safe4337ModuleAddress : Address)
  : Result Hex :=
  rbind
    (encodeFunctionData enableModulesAbi "enableModules"
       [ V_address_array [ safe4337ModuleAddress ] ])
    (fun enableModulesData =>
       encodeFunctionData setupAbi "setup"
         [ V_address_array [ owner ];
           V_uint 1;
           V_address addModuleLibAddress;
           V_bytes enableModulesData;
           V_address safe4337ModuleAddress;
           V_address zeroAddress;
           V_uint 0;
           V_address zeroAddress ]).

(** [getAccountInitCode({ ..., saltNonce = 0n })]. *)
Definition getAccountInitCode
    (owner addModuleLibAddress safe4337ModuleAddress
       safeProxyFactoryAddress safeSingletonAddress : Address)
    (saltNonce_ : option Z) : Result Hex :=
  let saltNonce := match saltNonce_ with Some n => n | None => 0 end in
  if String.eqb owner EmptyString then
    throw (Error "Owner account not found")
  else
    rbind (getInitializerCode owner addModuleLibAddress safe4337ModuleAddress)
      (fun initializer =>
    rbind
      (encodeFunctionData createProxyWithNonceAbi "createProxyWithNonce"
         [ V_address safeSingletonAddress; V_bytes initializer;
           V_uint saltNonce ])
      (fun initCodeCallData =>
    ok (concatHex [ safeProxyFactoryAddress; initCodeCallData ]))).

(** [getAccountAddress({ client, ..., saltNonce = 0n })]. *)
Definition getAccountAddress
    (owner addModuleLibAddress safe4337ModuleAddress
       safeProxyFactoryAddress safeSingletonAddress : Address)
    (saltNonce_ : option Z) : M Address :=
  let saltNonce := match saltNonce_ with Some n => n | None => 0 end in
  proxyCreationCode <- readContract safeProxyFactoryAddress "proxyCreationCode" ;;
  lift
    (rbind (hexToBigInt safeSingletonAddress) (fun singleton =>
     rbind (encodePacked [ P_bytes proxyCreationCode; P_uint256 singleton ])
       (fun deploymentCode =>
     rbind (getInitializerCode owner addModuleLibAddress safe4337ModuleAddress)
       (fun initializer =>
     rbind (encodePacked [ P_bytes initializer ]) (fun packedInitializer =>
     rbind
       (encodePacked
          [ P_bytes32 (keccak256 packedInitializer); P_uint256 saltNonce ])
       (fun packedSalt =>
     let salt := keccak256 packedSalt in
     getContractAddress
       (mkCreate2 safeProxyFactoryAddress salt deploymentCode "CREATE2"))))))).

(** The typed data signed for a user operation. *)
Definition safeOpTypedData (c : Closure) (userOperation : UserOperation)
  : TypedDataDefinition :=
  mkTypedData
    (mkDomain (c_chainId c) (c_safe4337ModuleAddress c))
    EIP712_SAFE_OPERATION_TYPE
    "SafeOp"
    [ ("safe", V_address (c_accountAddress c));
      ("callData", V_bytes (callData userOperation));
      ("nonce", V_uint (nonce userOperation));
      ("preVerificationGas", V_uint (preVerificationGas userOperation));
      ("verificationGasLimit", V_uint (verificationGasLimit userOperation));
      ("callGasLimit", V_uint (callGasLimit userOperation));
      ("maxFeePerGas", V_uint (maxFeePerGas userOperation));
      ("maxPriorityFeePerGas", V_uint (maxPriorityFeePerGas userOperation));
      ("entryPoint", V_address (c_entryPoint c)) ].

(** The [SafeMessage] wrapper of [signMessage] and [signTypedData]. *)
Definition safeMessageTypedData (c : Closure) (messageHash : Hex)
  : TypedDataDefinition :=
  mkTypedData
    (mkDomain (c_chainId c) (c_accountAddress c))
    SafeMessageTypes
    "SafeMessage"
    [ ("message", V_bytes messageHash) ].

Definition safe_signMessage (c : Closure) (message : SignableMessage)
  : M Hex :=
  inner <- lift (generateSafeMessageMessage (In_message message)) ;;
  messageHash <- lift (hashTypedData (safeMessageTypedData c inner)) ;;
  raw <- account_signMessage (c_privateKey c) (toBytes messageHash) ;;
  lift (adjustVInSignature eth_sign raw).

Definition safe_signTransaction (c : Closure) (_ __ : JsValue) : M Hex :=
  raise (newSignTransactionNotSupportedBySafeSmartAccount None).

Definition safe_signTypedData (c : Closure) (typedData : SafeMessageInput)
  : M Hex :=
  inner <- lift (generateSafeMessageMessage typedData) ;;
  raw <- account_signTypedData (c_privateKey c) (safeMessageTypedData c inner) ;;
  lift (adjustVInSignature eth_signTypedData raw).

Definition safe_getNonce (c : Closure) : M Z :=
  getAccountNonce (c_accountAddress c) (c_entryPoint c).

Definition safe_signUserOperation (c : Closure)
    (userOperation : UserOperation) : M Hex :=
  signed <- account_signTypedData (c_privateKey c)
              (safeOpTypedData c userOperation) ;;
  let signatures := [ mkSignerSignature (c_owner c) signed ] in
  ret (sortAndConcat signatures).

Definition safe_getInitCode (c : Closure) : M Hex :=
  contractCode <- getBytecode (c_accountAddress c) ;;
  if 2 <? optionalLength contractCode then ret "0x"
  else
    lift (getAccountInitCode (c_owner c) (c_addModuleLibAddress c)
            (c_safe4337ModuleAddress c) (c_safeProxyFactoryAddress c)
            (c_safeSingletonAddress c) (Some (c_saltNonce c))).

Definition safe_encodeDeployCallData (c : Closure) (_ : JsValue) : M Hex :=
  raise (Error "Safe account doesn't support account deployment").

Definition safe_encodeCallData (c : Closure) (args : CallArgs) : M Hex :=
  lift (encodeFunctionData executeUserOpAbi "executeUserOp"
          [ V_address (to args); V_uint (value args);
            V_bytes (call_data args); V_uint 0 ]).

Definition safe_getDummySignature (c : Closure) : M Hex :=
  ret dummySignature.

(** The object assembled from [toAccount({ address, signMessage,
    signTransaction, signTypedData })] and the remaining methods.  viem's
    [toAccount] hands the three methods through; its check that [address] is
    an address always passes on what [getContractAddress] returns and is not
    modelled. *)
Definition accountObject (c : Closure) : SmartAccount :=
  mkSmartAccount
    (c_accountAddress c)
    (c_accountAddress c)
    (c_entryPoint c)
    "privateKeySafeSmartAccount"
    (safe_signMessage c)
    (safe_signTransaction c)
    (safe_signTypedData c)
    (safe_getNonce c)
    (safe_signUserOperation c)
    (safe_getInitCode c)
    (safe_encodeDeployCallData c)
    (safe_encodeCallData c)
    (safe_getDummySignature c).

(** [_override ?? SAFE_ADDRESSES_MAP[safeVersion][chainIdString].FIELD]:
    the table is only read when the override is missing, and reading a
    field of a missing entry is a [TypeError]. *)
Definition overrideOrTable (override : option Address)
    (safeVersion : SafeVersion) (chainIdString : string)
    (field : NetworkAddresses -> Address) (fieldName : string)
  : Result Address :=
  match override with
  | Some a => ok a
  | None =>
      match lookup chainIdString (SAFE_ADDRESSES_MAP safeVersion) with
      | Some entry => ok (field entry)
      | None =>
          throw (TypeError
                   ("Cannot read properties of undefined (reading '"
                    +:+ fieldName +:+ "')"))
      end
  end.

(** [privateKeyToSafeSmartAccount(client, { ... })]. *)
Definition privateKeyToSafeSmartAccount (params : SafeParameters)
  : M SmartAccount :=
  let saltNonce := match p_saltNonce params with Some n => n | None => 0 end in
  owner <- lift (privateKeyToAccount (p_privateKey params)) ;;
  chainId <- getChainId ;;
  let chainIdString := numberToString chainId in
  addModuleLibAddress <-
    lift (overrideOrTable (p_addModuleLibAddress params)
            (p_safeVersion params) chainIdString
            ADD_MODULES_LIB_ADDRESS "ADD_MODULES_LIB_ADDRESS") ;;
  safe4337ModuleAddress <-
    lift (overrideOrTable (p_safe4337ModuleAddress params)
            (p_safeVersion params) chainIdString
            SAFE_4337_MODULE_ADDRESS "SAFE_4337_MODULE_ADDRESS") ;;
  safeProxyFactoryAddress <-
    lift (overrideOrTable (p_safeProxyFactoryAddress params)
            (p_safeVersion params) chainIdString
            SAFE_PROXY_FACTORY_ADDRESS "SAFE_PROXY_FACTORY_ADDRESS") ;;
  safeSingletonAddress <-
    lift (overrideOrTable (p_safeSingletonAddress params)
            (p_safeVersion params) chainIdString
            SAFE_SINGLETON_ADDRESS "SAFE_SINGLETON_ADDRESS") ;;
  accountAddress <-
    getAccountAddress owner addModuleLibAddress safe4337ModuleAddress
      safeProxyFactoryAddress safeSingletonAddress (Some saltNonce) ;;
  if String.eqb accountAddress EmptyString then
    raise (Error "Account address not found")
  else
    ret (accountObject
           (mkClosure (p_privateKey params) owner chainId accountAddress
              (p_entryPoint params) addModuleLibAddress safe4337ModuleAddress
              safeProxyFactoryAddress safeSingletonAddress saltNonce)).

End Safe.

(* ------------------------------------------------------------------ *)
(** ** errors/estimateUserOperationGas.ts *)

Module Errors.

(** viem's [BaseError], as far as the constructor below determines it: the
    name, the short message, the meta messages, the documentation path and
    the cause.  The long [message] viem assembles from them is left out. *)
#[warnings="-register-all"]
Inductive BaseError : Type := mkBaseError {
  name : string;
  shortMessage : string;
  metaMessages : option (list string);
  docsPath : option string;
  cause : option BaseError
}.

Record BaseErrorParameters : Type := mkBaseErrorParameters {
  arg_cause : option BaseError;
  arg_docsPath : option string;
  arg_metaMessages : option (list string)
}.

(** [a || b] on optional strings. *)
Definition orElse (a b : option string) : option string :=
  match a with
  | Some s => if truthy s then a else b
  | None => b
  end.

(** [super(shortMessage, args)]: viem stores what it is given; the
    documentation path of a [BaseError] cause takes precedence. *)
Definition newBaseError (shortMessage : string) (args : BaseErrorParameters)
  : BaseError :=
  mkBaseError "ViemError" shortMessage (arg_metaMessages args)
    (match arg_cause args with
     | Some c => orElse (docsPath c) (arg_docsPath args)
     | None => arg_docsPath args
     end)
    (arg_cause args).

(** The user operation of [EstimateUserOperationGasParameters]; its type is
    declared outside the sources at hand, so every field may be missing. *)
Record EstimateUserOperation : Type := mkEstimateUserOperation {
  sender : option Address;
  nonce : option Z;
  initCode : option Hex;
  callData : option Hex;
  callGasLimit : option Z;
  verificationGasLimit : option Z;
  preVerificationGas : option Z;
  maxFeePerGas : option Z;
  maxPriorityFeePerGas : option Z;
  paymasterAndData : option Hex;
  signature : option Hex
}.

Definition jsString (v : option string) : JsValue :=
  match v with Some s => J_string s | None => J_undefined end.
Definition jsBigint (v : option Z) : JsValue :=
  match v with Some n => J_bigint n | None => J_undefined end.

(** The object literal handed to [prettyPrint], keys in source order. *)
Definition estimateGasArguments (userOperation : EstimateUserOperation)
    (entryPoint : Address) : list (string * JsValue) :=
  [ ("sender", jsString (sender userOperation));
    ("nonce", jsBigint (nonce userOperation));
    ("initCode", jsString (initCode userOperation));
    ("callData", jsString (callData userOperation));
    ("callGasLimit", jsBigint (callGasLimit userOperation));
    ("verificationGasLimit", jsBigint (verificationGasLimit userOperation));
    ("preVerificationGas", jsBigint (preVerificationGas userOperation));
    ("maxFeePerGas", jsBigint (maxFeePerGas userOperation));
    ("maxPriorityFeePerGas", jsBigint (maxPriorityFeePerGas userOperation));
    ("paymasterAndData", jsString (paymasterAndData userOperation));
    ("signature", jsString (signature userOperation));
    ("entryPoint", J_string entryPoint) ].

(** Modelled from the spec: [prettyPrint] of [errors/utils] is not among
    the sources, and the spec only calls its result a dump of the fields.
    One line per defined field, its name and its value. *)
Definition dumpValue (v : JsValue) : option string :=
  match v with
  | J_undefined => None
  | J_null => Some "null"
  | J_string s => Some s
  | J_number n => Some (numberToString n)
  | J_bigint n => Some (numberToString n)
  | J_object _ => Some "[object Object]"
  end.

Fixpoint dumpLines (args : list (string * JsValue)) : list string :=
  match args with
  | [] => []
  | (key, v) :: rest =>
      match dumpValue v with
      | Some s => ("  " +:+ key +:+ ":  " +:+ s) :: dumpLines rest
      | None => dumpLines rest
      end
  end.

Definition fieldDump (args : list (string * JsValue)) : string :=
  String.concat (String "010"%char EmptyString) (dumpLines args).

Section Estimate.

(** [prettyPrint] of [./utils]. *)
Variable prettyPrint : list (string * JsValue) -> string.

(** [new EstimateUserOperationGasError(cause, { userOperation, entryPoint,
    docsPath })]. *)
Definition EstimateUserOperationGasError (cause_ : BaseError)
    (userOperation : EstimateUserOperation) (entryPoint : Address)
    (docsPath_ : option string) : BaseError :=
  let prettyArgs := prettyPrint (estimateGasArguments userOperation entryPoint) in
  let super :=
    newBaseError (shortMessage cause_)
      (mkBaseErrorParameters (Some cause_) docsPath_
         (Some
            (filter truthy
               ((match metaMessages cause_ with
                 | Some ms => ms ++ [ " " ]
                 | None => []
                 end)
                ++ [ "Estimate Gas Arguments:"; prettyArgs ])))) in
  mkBaseError "EstimateUserOperationGasError" (shortMessage super)
    (metaMessages super) (docsPath super) (Some cause_).

End Estimate.

End Errors.

(* ------------------------------------------------------------------ *)
(** ** clients/createSmartAccountClient.ts *)

Module Client.

(** The options a transport is called with. *)
Record TransportOptions : Type := mkTransportOptions {
  opt_chain : option JsValue;
  opt_pollingInterval : option Z;
  opt_retryCount : option Z;
  opt_timeout : option Z
}.

(** [{ ...opts, retryCount: 0 }]. *)
Definition withRetryCount0 (opts : TransportOptions) : TransportOptions :=
  mkTransportOptions (opt_chain opts) (opt_pollingInterval opts) (Some 0)
    (opt_timeout opts).

Section Create.

(** What a transport returns, the middleware, viem's client and the
    actions of [./decorators/smartAccount] stay abstract. *)
Variables TransportValue Middleware ViemClient Actions SmartAccountClient : Type.

Record ClientConfig : Type := mkClientConfig {
  cacheTime : option Z;
  chain : option JsValue;
  key : option string;
  name : option string;
  pollingInterval : option Z;
  transport : TransportOptions -> TransportValue;
  account : option SmartAccount;
  sponsorUserOperation : option Middleware;
  type : option string
}.

Variable createClient : ClientConfig -> ViemClient.
Variable smartAccountActions : option Middleware -> Actions.
Variable extend : ViemClient -> Actions -> SmartAccountClient.

(** The object given to [createClient]: the parameters, then [key],
    [name], [transport] and [type] on top of them. *)
Definition clientConfig (parameters : ClientConfig) : ClientConfig :=
  let key_ := match key parameters with Some k => k | None => "Account" end in
  let name_ :=
    match name parameters with
    | Some n => n
    | None => "Smart Account Client"
    end in
  let transport_ := transport parameters in
  mkClientConfig
    (cacheTime parameters)
    (chain parameters)
    (Some key_)
    (Some name_)
    (pollingInterval parameters)
    (fun opts => transport_ (withRetryCount0 opts))
    (account parameters)
    (sponsorUserOperation parameters)
    (Some "smartAccountClient").

(** [createSmartAccountClient(parameters)]. *)
Definition createSmartAccountClient (parameters : ClientConfig)
  : SmartAccountClient :=
  let client := createClient (clientConfig parameters) in
  extend client (smartAccountActions (sponsorUserOperation parameters)).

End Create.

End Client.

(* ------------------------------------------------------------------ *)
(** ** Vocabulary of the specification *)

(** A byte written as two lower-case hexadecimal digits. *)
Definition byteHex (v : Z) : string :=
  String (hexDigit (v / 16)) (String (hexDigit (v mod 16)) EmptyString).

(** The error taxonomy of the specification, and the class of each value
    the sources throw.  The sources have no class of their own for an
    unknown network. *)
Inductive ErrorClass : Type :=
| InvalidSignatureError
| UnsupportedOperationError
| MissingOwnerError
| UnknownNetworkConfigurationError
| Unclassified.

Definition errorClass (e : Exn) : ErrorClass :=
  match e with
  | SignTransactionNotSupportedBySafeSmartAccount _ _ _ =>
      UnsupportedOperationError
  | Error message =>
      if String.eqb message "Invalid signature" then InvalidSignatureError
      else if String.eqb message "Safe account doesn't support account deployment"
      then UnsupportedOperationError
      else if String.eqb message "Owner account not found" then MissingOwnerError
      else Unclassified
  | _ => Unclassified
  end.

(** Two byte strings one after the other: [0x], then the digits of both. *)
Definition hexBody (h : Hex) : string :=
  match h with
  | String _ (String _ body) => body
  | _ => EmptyString
  end.

Definition concatBytes (a b : Hex) : Hex := "0x" +:+ hexBody a +:+ hexBody b.

(** [k] digits of [n], most significant first. *)
Fixpoint fixedHex (k : nat) (n : Z) : string :=
  match k with
  | O => EmptyString
  | S k' => fixedHex k' (n / 16) +:+ String (hexDigit (n mod 16)) EmptyString
  end.

(** A number as a 256-bit word: 32 bytes, 64 digits. *)
Definition uint256Word (n : Z) : Hex := "0x" +:+ fixedHex 64 n.

(** The number a run of hexadecimal digits writes, after the digits [acc]. *)
Fixpoint hexValue (digits : string) (acc : Z) : Z :=
  match digits with
  | String c rest =>
      hexValue rest
        (16 * acc + match hexDigitValue c with Some d => d | None => 0 end)
  | EmptyString => acc
  end.

(** An address read as a number, most significant digit first. *)
Definition addressNumber (a : Address) : Z := hexValue (hexBody a) 0.

(** An address: [0x] and 40 digits. *)
Definition isAddress (a : Address) : bool :=
  isHex a && (String.length a =? 42)%nat && allHexDigits (hexBody a).

(** The signatures of a list of pairs one after the other, each without its
    [0x]. *)
Fixpoint signatureBodies (l : list SignerSignature) : string :=
  match l with
  | [] => EmptyString
  | s :: rest => slice (data s) 2 None +:+ signatureBodies rest
  end.

(** The key the pairs are ordered by: the sort key, in the collation of the
    runtime, of the lower-cased signer.  [signerLe] is the order the
    comparison induces on the pairs. *)
Definition signerKey `{P : Primitives} (s : SignerSignature) : string :=
  sortKey (toLowerCase (signer s)).

Definition signerLe `{P : Primitives} (a b : SignerSignature) : Prop :=
  String.leb (signerKey a) (signerKey b) = true.



(** ** Stand-ins to run the embedding

    Concrete primitives and a concrete chain, used where a statement is
    evaluated on an example.  They have the shape of the real ones (a digest
    is 32 bytes, an address 20) and none of their cryptography; the
    collation of the first orders strings as their code units do. *)

Definition exampleDigest (h : Hex) : Hex :=
  uint256Word (Z.of_nat (String.length h)).

Definition exampleAddress : Address :=
  "0x00000000000000000000000000000000000000aa".

Definition examplePrimitives : Primitives := {|
  keccak256 := exampleDigest;
  encodeFunctionData := fun f _ args =>
    ok ("0x" +:+ fixedHex 8 (Z.of_nat (String.length (fname f)))
             +:+ fixedHex 8 (Z.of_nat (List.length args)));
  getContractAddress := fun o =>
    ok ("0x" +:+ fixedHex 40 (Z.of_nat (String.length (bytecode o))));
  hashMessage := fun m =>
    match m with
    | M_string s => exampleDigest s
    | M_raw raw => exampleDigest raw
    end;
  hashTypedData := fun td => ok (exampleDigest (primaryType td));
  toBytes := fun h => h;
  privateKeyToAccount := fun _ => ok exampleAddress;
  sortKey := fun s => s;
  keccak256_bytes32 := fun h => conj eq_refl eq_refl;
  encodeFunctionData_hex := fun f functionName args h e =>
    match e in _ = r return match r with inr x => isHex x = true | inl _ => True end
    with eq_refl => eq_refl end
|}.

(** The sort key of a collation in which the digraphs [dd] and [ff] are
    letters of their own, placed after [d] and after [f], as they are in the
    Welsh collation: the digraph gets the letter followed by the largest
    code unit, every other character stands for itself. *)
Fixpoint welshSortKey (s : string) : string :=
  match s with
  | String "d" (String "d" r) => String "d" (String "255" (welshSortKey r))
  | String "f" (String "f" r) => String "f" (String "255" (welshSortKey r))
  | String c r => String c (welshSortKey r)
  | EmptyString => EmptyString
  end.

(** The stand-ins on a runtime with that collation. *)
Definition welshPrimitives : Primitives := {|
  keccak256 := keccak256 (Primitives := examplePrimitives);
  encodeFunctionData := encodeFunctionData (Primitives := examplePrimitives);
  getContractAddress := getContractAddress (Primitives := examplePrimitives);
  hashMessage := hashMessage (Primitives := examplePrimitives);
  hashTypedData := hashTypedData (Primitives := examplePrimitives);
  toBytes := toBytes (Primitives := examplePrimitives);
  privateKeyToAccount := privateKeyToAccount (Primitives := examplePrimitives);
  sortKey := welshSortKey;
  keccak256_bytes32 := keccak256_bytes32 (Primitives := examplePrimitives);
  encodeFunctionData_hex := encodeFunctionData_hex (Primitives := examplePrimitives)
|}.

Definition exampleSignature : Hex :=
  "0x11111111111111111111111111111111111111111111111111111111111111112222222222222222222222222222222222222222222222222222222222222222" +:+ "00".

Definition isGetBytecode (r : Request) : bool :=
  match r with
  | GetBytecode _ => true
  | _ => false
  end.

(** A chain with the given id, on which code appears at every address after
    the first bytecode read, and a signer that answers with
    [exampleSignature]. *)
Definition exampleEnv (id : Z) : Env :=
  mkEnv
    (fun _ => ok id)
    (fun _ _ _ => ok "0x6080")
    (fun h _ => ok (if existsb isGetBytecode h then Some "0x6080" else None))
    (fun _ _ _ => ok 0)
    (fun _ _ _ => ok exampleSignature)
    (fun _ _ _ => ok exampleSignature).

Definition exampleClosure : Closure :=
  mkClosure "0x01" exampleAddress 11155111
    "0x00000000000000000000000000000000000000bb"
    "0x00000000000000000000000000000000000000ee"
    "0x191EFDC03615B575922289DC339F4c70aC5C30Af"
    "0x39E54Bb2b3Aa444b4B39DEe15De3b7809c36Fc38"
    "0x4e1DCf7AD4e460CfD30791CCC4F9c8a4f820ec67"
    "0x41675C099F32341bf84BFc5382aF534df5C7461a"
    0.

Definition exampleUserOperation : UserOperation :=
  mkUserOperation "0x00000000000000000000000000000000000000bb" 7 "0x"
    "0xdeadbeef" 100000 200000 50000 30 2 "0x" "0x".

Definition exampleParameters : SafeParameters :=
  mkSafeParameters "0x01" v1_4_1 "0x00000000000000000000000000000000000000ee"
    None None None None None.

Definition exampleEstimateUserOperation : Errors.EstimateUserOperation :=
  Errors.mkEstimateUserOperation
    (Some "0x00000000000000000000000000000000000000bb") (Some 7) (Some "0x")
    (Some "0xdeadbeef") None None None (Some 30) (Some 2) (Some "0x")
    (Some dummySignature).

(** A cause whose first meta message is the empty string. *)
Definition exampleCause : Errors.BaseError :=
  Errors.mkBaseError "RpcRequestError" "RPC Request failed."
    (Some [ ""; "URL: http://localhost" ]) None None.

(** The meta messages of an error, none when the field is missing. *)
Definition metaMessageList (e : Errors.BaseError) : list string :=
  match Errors.metaMessages e with
  | Some ms => ms
  | None => []
  end.

(** The fields of a user operation that the SafeOp message carries. *)
Definition sameSignedFields (a b : UserOperation) : Prop :=
  callData a = callData b
  /\ nonce a = nonce b
  /\ preVerificationGas a = preVerificationGas b
  /\ verificationGasLimit a = verificationGasLimit b
  /\ callGasLimit a = callGasLimit b
  /\ maxFeePerGas a = maxFeePerGas b
  /\ maxPriorityFeePerGas a = maxPriorityFeePerGas b.

(** The four addresses as the constructor resolves them, one after the
    other: the override when there is one, the table entry otherwise. *)
Definition resolveAddresses (params : SafeParameters) (chainIdString : string)
  : Result (Address * Address * Address * Address) :=
  rbind (overrideOrTable (p_addModuleLibAddress params) (p_safeVersion params)
           chainIdString ADD_MODULES_LIB_ADDRESS "ADD_MODULES_LIB_ADDRESS")
    (fun lib =>
  rbind (overrideOrTable (p_safe4337ModuleAddress params) (p_safeVersion params)
           chainIdString SAFE_4337_MODULE_ADDRESS "SAFE_4337_MODULE_ADDRESS")
    (fun module =>
  rbind (overrideOrTable (p_safeProxyFactoryAddress params) (p_safeVersion params)
           chainIdString SAFE_PROXY_FACTORY_ADDRESS "SAFE_PROXY_FACTORY_ADDRESS")
    (fun factory =>
  rbind (overrideOrTable (p_safeSingletonAddress params) (p_safeVersion params)
           chainIdString SAFE_SINGLETON_ADDRESS "SAFE_SINGLETON_ADDRESS")
    (fun singleton => ok (lib, module, factory, singleton))))).

(** The name of the first address, in the order the constructor resolves
    them, for which no override is given. *)
Definition firstMissingOverride (params : SafeParameters) : option string :=
  match p_addModuleLibAddress params with
  | None => Some "ADD_MODULES_LIB_ADDRESS"
  | Some _ =>
  match p_safe4337ModuleAddress params with
  | None => Some "SAFE_4337_MODULE_ADDRESS"
  | Some _ =>
  match p_safeProxyFactoryAddress params with
  | None => Some "SAFE_PROXY_FACTORY_ADDRESS"
  | Some _ =>
  match p_safeSingletonAddress params with
  | None => Some "SAFE_SINGLETON_ADDRESS"
  | Some _ => None
  end end end end.

(** The closure of the account the constructor builds from what it
    resolved. *)
Definition closureOf (params : SafeParameters) (owner : Address) (id : Z)
    (accountAddress : Address)
    (addresses : Address * Address * Address * Address) : Closure :=
  let '(lib, module, factory, singleton) := addresses in
  mkClosure (p_privateKey params) owner id accountAddress (p_entryPoint params)
    lib module factory singleton
    (match p_saltNonce params with Some n => n | None => 0 end).

(** A chain client and a signer that fail with [e] at every request. *)
Definition failingEnv (e : Exn) : Env :=
  mkEnv (fun _ => inl e) (fun _ _ _ => inl e) (fun _ _ => inl e)
    (fun _ _ _ => inl e) (fun _ _ _ => inl e) (fun _ _ _ => inl e).

(* ------------------------------------------------------------------ *)
(** * Properties *)

(** ** Strings *)

Lemma length_append (s1 s2 : string) :
  String.length (s1 +:+ s2) = (String.length s1 + String.length s2)%nat.
Proof. induction s1 as [|c s1 IH]; simpl; [reflexivity | now rewrite IH]. Qed.

Lemma append_nil_r (s : string) : s +:+ EmptyString = s.
Proof. induction s as [|c s IH]; simpl; [reflexivity | now rewrite IH]. Qed.

Lemma append_assoc (s1 s2 s3 : string) :
  (s1 +:+ s2) +:+ s3 = s1 +:+ (s2 +:+ s3).
Proof. induction s1 as [|c s1 IH]; simpl; [reflexivity | now rewrite IH]. Qed.

Lemma substring_full (s : string) : substring 0 (String.length s) s = s.
Proof. induction s as [|c s IH]; simpl; [reflexivity | now rewrite IH]. Qed.

Lemma substring_skip (p s : string) (n : nat) :
  substring (String.length p) n (p +:+ s) = substring 0 n s.
Proof. induction p as [|c p IH]; simpl; [reflexivity | exact IH]. Qed.

Lemma substring_take (p s : string) :
  substring 0 (String.length p) (p +:+ s) = p.
Proof.
  induction p as [|c p IH]; simpl.
  - destruct s; reflexivity.
  - now rewrite IH.
Qed.

(** [slice(-2)] of a string that ends in two characters is these two. *)
Lemma slice_last2 (p : string) (c1 c2 : ascii) :
  slice (p +:+ String c1 (String c2 EmptyString)) (-2) None
  = String c1 (String c2 EmptyString).
Proof.
  unfold slice. rewrite length_append. cbn [String.length].
  change (-2 <? 0) with true. cbv iota.
  set (len := Z.of_nat (String.length p + 2)).
  assert (Hlen : len = Z.of_nat (String.length p) + 2) by (unfold len; lia).
  replace (len <? 0) with false by (symmetry; apply Z.ltb_ge; lia).
  replace (Z.to_nat (Z.max (len + -2) 0)) with (String.length p) by lia.
  replace (Z.to_nat (Z.max (Z.min len len - Z.max (len + -2) 0) 0)) with 2%nat by lia.
  rewrite substring_skip. reflexivity.
Qed.

(** [slice(0, -2)] drops them. *)
Lemma slice_init2 (p : string) (c1 c2 : ascii) :
  slice (p +:+ String c1 (String c2 EmptyString)) 0 (Some (-2)) = p.
Proof.
  unfold slice. rewrite length_append. cbn [String.length].
  change (0 <? 0) with false. change (-2 <? 0) with true. cbv iota.
  set (len := Z.of_nat (String.length p + 2)).
  assert (Hlen : len = Z.of_nat (String.length p) + 2) by (unfold len; lia).
  replace (Z.to_nat (Z.min 0 len)) with 0%nat by lia.
  replace (Z.to_nat (Z.max (Z.max (len + -2) 0 - Z.min 0 len) 0))
    with (String.length p) by lia.
  apply substring_take.
Qed.

(** [slice(2)] drops the [0x] of a hex string. *)
Lemma slice_from2 (c1 c2 : ascii) (body : string) :
  slice (String c1 (String c2 body)) 2 None = body.
Proof.
  unfold slice. cbn [String.length].
  change (2 <? 0) with false. cbv iota.
  set (len := Z.of_nat (S (S (String.length body)))).
  assert (Hlen : len = Z.of_nat (String.length body) + 2) by (unfold len; lia).
  replace (len <? 0) with false by (symmetry; apply Z.ltb_ge; lia).
  replace (Z.to_nat (Z.min 2 len)) with 2%nat by lia.
  replace (Z.to_nat (Z.max (Z.min len len - Z.min 2 len) 0))
    with (String.length body) by lia.
  simpl. apply substring_full.
Qed.

(** ** Hexadecimal digits *)

Lemma hexDigitValue_range (c : ascii) (d : Z) :
  hexDigitValue c = Some d -> 0 <= d < 16.
Proof.
  unfold hexDigitValue. set (n := code c).
  destruct ((48 <=? n) && (n <=? 57)) eqn:E1.
  { intros [= <-]. apply andb_prop in E1 as [? ?]. lia. }
  destruct ((97 <=? n) && (n <=? 102)) eqn:E2.
  { intros [= <-]. apply andb_prop in E2 as [? ?]. lia. }
  destruct ((65 <=? n) && (n <=? 70)) eqn:E3.
  { intros [= <-]. apply andb_prop in E3 as [? ?]. lia. }
  discriminate.
Qed.

(** A digit is neither white space, nor a sign, nor the [x] of a prefix. *)
Lemma hexDigit_plain (c : ascii) (d : Z) :
  hexDigitValue c = Some d ->
  isWhiteSpace c = false /\ c <> "-"%char /\ c <> "+"%char
  /\ c <> "x"%char /\ c <> "X"%char.
Proof.
  intros H.
  destruct c as [[] [] [] [] [] [] [] []];
    solve [ discriminate H | repeat split; discriminate ].
Qed.

Lemma parseInt16_two_digits (c1 c2 : ascii) (d1 d2 : Z) :
  hexDigitValue c1 = Some d1 -> hexDigitValue c2 = Some d2 ->
  parseInt16 (String c1 (String c2 EmptyString)) = Some (16 * d1 + d2).
Proof.
  intros H1 H2.
  destruct (hexDigit_plain c1 d1 H1) as (Hw & Hm & Hp & _ & _).
  destruct (hexDigit_plain c2 d2 H2) as (_ & _ & _ & Hx & HX).
  unfold parseInt16. cbn [trimStart]. rewrite Hw.
  assert (Hsign :
    (match String c1 (String c2 EmptyString) with
     | String "-" r => (-1, r)
     | String "+" r => (1, r)
     | _ => (1, String c1 (String c2 EmptyString))
     end) = (1, String c1 (String c2 EmptyString))).
  { destruct c1 as [[] [] [] [] [] [] [] []]; try reflexivity;
      [ now elim Hp | now elim Hm ]. }
  rewrite Hsign.
  assert (Hpre : stripHexPrefix (String c1 (String c2 EmptyString))
                 = String c1 (String c2 EmptyString)).
  { unfold stripHexPrefix.
    destruct c1 as [[] [] [] [] [] [] [] []]; try reflexivity.
    destruct c2 as [[] [] [] [] [] [] [] []]; try reflexivity;
      [ now elim Hx | now elim HX ]. }
  rewrite Hpre. cbn [parseDigits]. rewrite H1, H2.
  f_equal. lia.
Qed.

(** ** The signature normalizer *)

Lemma adjustVInSignature_final_byte (m : SigningMethod) (rest : string)
    (c1 c2 : ascii) (d1 d2 : Z) :
  hexDigitValue c1 = Some d1 -> hexDigitValue c2 = Some d2 ->
  adjustVInSignature m (rest +:+ String c1 (String c2 EmptyString))
  = let v := 16 * d1 + d2 in
    if negb (includes ETHEREUM_V_VALUES (Some v)) then inl (Error "Invalid signature")
    else
      inr (rest +:+ toString16
             (match m with
              | eth_sign => (if v <? 27 then v + 27 else v) + 4
              | eth_signTypedData => if v <? 27 then v + 27 else v
              end)).
Proof.
  intros H1 H2. unfold adjustVInSignature.
  rewrite slice_last2, slice_init2, (parseInt16_two_digits c1 c2 d1 d2 H1 H2).
  cbv zeta. destruct (negb (includes ETHEREUM_V_VALUES (Some (16 * d1 + d2)))).
  - reflexivity.
  - destruct m; reflexivity.
Qed.

(** C2.  A signature that ends in the byte [v], written as two hexadecimal
    digits [c1 c2] after the characters [rest]: signing a plain message turns
    [v] in {0, 1} into [v + 27 + 4] and [v] in {27, 28} into [v + 4]; signing
    typed data turns [v] below 27 into [v + 27] and keeps 27 and 28; any
    other [v] throws the [Error] "Invalid signature", the
    InvalidSignatureError of the specification; the characters before the
    final byte come back as they were. *)
Theorem adjustVInSignature_normalizes (rest : string) (c1 c2 : ascii)
    (d1 d2 : Z) :
  hexDigitValue c1 = Some d1 -> hexDigitValue c2 = Some d2 ->
  let signature := rest +:+ String c1 (String c2 EmptyString) in
  let v := 16 * d1 + d2 in
  (v = 0 \/ v = 1 ->
   adjustVInSignature eth_sign signature = inr (rest +:+ byteHex (v + 27 + 4)))
  /\ (v = 27 \/ v = 28 ->
      adjustVInSignature eth_sign signature = inr (rest +:+ byteHex (v + 4)))
  /\ (v < 27 -> In v ETHEREUM_V_VALUES ->
      adjustVInSignature eth_signTypedData signature
      = inr (rest +:+ byteHex (v + 27)))
  /\ (v = 27 \/ v = 28 ->
      adjustVInSignature eth_signTypedData signature = inr (rest +:+ byteHex v))
  /\ (~ In v ETHEREUM_V_VALUES ->
      forall m,
        adjustVInSignature m signature = inl (Error "Invalid signature")
        /\ errorClass (Error "Invalid signature") = InvalidSignatureError).
Proof.
  intros H1 H2 signature v. subst signature.
  assert (E : forall m,
    adjustVInSignature m (rest +:+ String c1 (String c2 EmptyString))
    = if negb (includes ETHEREUM_V_VALUES (Some v)) then inl (Error "Invalid signature")
      else inr (rest +:+ toString16
                  (match m with
                   | eth_sign => (if v <? 27 then v + 27 else v) + 4
                   | eth_signTypedData => if v <? 27 then v + 27 else v
                   end))).
  { intro m. apply (adjustVInSignature_final_byte m rest c1 c2 d1 d2 H1 H2). }
  clearbody v. split; [|split; [|split; [|split]]].
  - intros [-> | ->]; rewrite E; reflexivity.
  - intros [-> | ->]; rewrite E; reflexivity.
  - intros Hlt Hin. rewrite E. simpl in Hin.
    destruct Hin as [<- | [<- | [<- | [<- | []]]]]; try reflexivity; lia.
  - intros [-> | ->]; rewrite E; reflexivity.
  - intros Hnot m. split; [|reflexivity]. rewrite E.
    replace (includes ETHEREUM_V_VALUES (Some v)) with false; [reflexivity|].
    symmetry. unfold includes, ETHEREUM_V_VALUES. cbn [existsb].
    repeat (apply orb_false_intro; [apply Z.eqb_neq; intros ->; apply Hnot; simpl; tauto|]).
    reflexivity.
Qed.

Lemma adjustVInSignature_normalizes_witness :
  adjustVInSignature eth_sign "0xabcd01" = inr "0xabcd20"
  /\ adjustVInSignature eth_sign "0xabcd1b" = inr "0xabcd1f"
  /\ adjustVInSignature eth_signTypedData "0xabcd00" = inr "0xabcd1b"
  /\ adjustVInSignature eth_signTypedData "0xabcd1C" = inr "0xabcd1c"
  /\ adjustVInSignature eth_sign "0xabcd02" = inl (Error "Invalid signature").
Proof.
  pose proof (adjustVInSignature_normalizes "0xabcd" "0" "1" 0 1 eq_refl eq_refl)
    as (A & _).
  pose proof (adjustVInSignature_normalizes "0xabcd" "1" "b" 1 11 eq_refl eq_refl)
    as (_ & B & _).
  pose proof (adjustVInSignature_normalizes "0xabcd" "0" "0" 0 0 eq_refl eq_refl)
    as (_ & _ & C & _).
  pose proof (adjustVInSignature_normalizes "0xabcd" "1" "C" 1 12 eq_refl eq_refl)
    as (_ & _ & _ & D & _).
  pose proof (adjustVInSignature_normalizes "0xabcd" "0" "2" 0 2 eq_refl eq_refl)
    as (_ & _ & _ & _ & E).
  refine (conj (A _) (conj (B _) (conj (C _ _) (conj (D _) (proj1 (E _ _)))))).
  - right. reflexivity.
  - left. reflexivity.
  - reflexivity.
  - simpl. tauto.
  - right. reflexivity.
  - simpl. intuition discriminate.
Defined.

(** ** The request monad *)

Lemma bind_lift {A B} (r : Result A) (k : A -> M B) (env : Env)
    (h : list Request) :
  bind (lift r) k env h
  = match r with
    | inl e => (inl e, h)
    | inr a => k a env h
    end.
Proof. destruct r; reflexivity. Qed.

Lemma bind_request {A B} (r : Request)
    (answer : Env -> list Request -> Result A) (k : A -> M B) (env : Env)
    (h : list Request) :
  bind (request r answer) k env h
  = match answer env h with
    | inl e => (inl e, h ++ [r])
    | inr a => k a env (h ++ [r])
    end.
Proof. unfold bind, request. destruct (answer env h); reflexivity. Qed.

(** ** Unsupported operations *)

(** C5.  Whatever the account and the arguments, [undefined] included,
    [signTransaction] and [encodeDeployCallData] throw, the first a
    [SignTransactionNotSupportedBySafeSmartAccount] and the second the
    [Error] "Safe account doesn't support account deployment", both in the
    class UnsupportedOperationError of the specification; neither returns a
    value, and neither makes a request. *)
Theorem unsupported_operations_always_throw `{P : Primitives} (c : Closure)
    (a b : JsValue) (env : Env) (h : list Request) :
  (exists e,
     signTransaction (accountObject c) a b env h = (inl e, h)
     /\ e = newSignTransactionNotSupportedBySafeSmartAccount None
     /\ errorClass e = UnsupportedOperationError)
  /\ (exists e,
        encodeDeployCallData (accountObject c) a env h = (inl e, h)
        /\ e = Error "Safe account doesn't support account deployment"
        /\ errorClass e = UnsupportedOperationError)
  /\ (forall r : Hex,
        fst (signTransaction (accountObject c) a b env h) <> inr r
        /\ fst (encodeDeployCallData (accountObject c) a env h) <> inr r).
Proof.
  split; [|split].
  - eexists. split; [reflexivity|]. split; reflexivity.
  - eexists. split; [reflexivity|]. split; reflexivity.
  - intro r. split; discriminate.
Qed.

(** ** Signing *)

Lemma sortAndConcat_single `{P : Primitives} (s : SignerSignature) :
  sortAndConcat [ s ] = "0x" +:+ slice (data s) 2 None.
Proof. reflexivity. Qed.

Lemma signUserOperation_run `{P : Primitives} (c : Closure)
    (op : UserOperation) (env : Env) (h : list Request) :
  safe_signUserOperation c op env h
  = (rbind (signTypedDataOf env h (c_privateKey c) (safeOpTypedData c op))
       (fun signed => ok ("0x" +:+ slice signed 2 None)),
     h ++ [ SignTypedData (c_privateKey c) (safeOpTypedData c op) ]).
Proof.
  unfold safe_signUserOperation, account_signTypedData.
  rewrite bind_request.
  destruct (signTypedDataOf env h (c_privateKey c) (safeOpTypedData c op));
    reflexivity.
Qed.

Lemma signTypedData_run `{P : Primitives} (c : Closure)
    (input : SafeMessageInput) (inner : Hex) (env : Env) (h : list Request) :
  generateSafeMessageMessage input = inr inner ->
  safe_signTypedData c input env h
  = (rbind (signTypedDataOf env h (c_privateKey c) (safeMessageTypedData c inner))
       (adjustVInSignature eth_signTypedData),
     h ++ [ SignTypedData (c_privateKey c) (safeMessageTypedData c inner) ]).
Proof.
  intros Hinner. unfold safe_signTypedData, account_signTypedData.
  rewrite bind_lift, Hinner, bind_request.
  destruct (signTypedDataOf env h (c_privateKey c) (safeMessageTypedData c inner));
    [reflexivity|].
  unfold lift. reflexivity.
Qed.

Lemma signMessage_run `{P : Primitives} (c : Closure)
    (message : SignableMessage) (messageHash : Hex) (env : Env)
    (h : list Request) :
  hashTypedData (safeMessageTypedData c (hashMessage message)) = inr messageHash ->
  safe_signMessage c message env h
  = (rbind (signMessageOf env h (c_privateKey c) (toBytes messageHash))
       (adjustVInSignature eth_sign),
     h ++ [ SignMessage (c_privateKey c) (toBytes messageHash) ]).
Proof.
  intros Hhash. unfold safe_signMessage, account_signMessage.
  rewrite bind_lift. cbn [generateSafeMessageMessage ok].
  rewrite bind_lift, Hhash, bind_request.
  destruct (signMessageOf env h (c_privateKey c) (toBytes messageHash));
    [reflexivity|].
  unfold lift. reflexivity.
Qed.

(** C3.  [signUserOperation] makes exactly one request to the owner's signer:
    typed data of primary type SafeOp, whose type lists the nine fields safe,
    callData, nonce, preVerificationGas, verificationGasLimit, callGasLimit,
    maxFeePerGas, maxPriorityFeePerGas, entryPoint with their types in that
    order, whose message binds them to the account address, the fields of the
    user operation and the entry point, and whose domain is the chain id with
    the 4337 module address as verifying contract.  [signTypedData] and
    [signMessage] put the account address there instead. *)
Theorem signUserOperation_signs_SafeOp `{P : Primitives} (c : Closure)
    (op : UserOperation) (env : Env) (h : list Request) :
  snd (signUserOperation (accountObject c) op env h)
  = h ++ [ SignTypedData (c_privateKey c)
             (mkTypedData
                (mkDomain (c_chainId c) (c_safe4337ModuleAddress c))
                [ ("SafeOp",
                   [ mkField "address" "safe";
                     mkField "bytes" "callData";
                     mkField "uint256" "nonce";
                     mkField "uint256" "preVerificationGas";
                     mkField "uint256" "verificationGasLimit";
                     mkField "uint256" "callGasLimit";
                     mkField "uint256" "maxFeePerGas";
                     mkField "uint256" "maxPriorityFeePerGas";
                     mkField "address" "entryPoint" ]) ]
                "SafeOp"
                [ ("safe", V_address (c_accountAddress c));
                  ("callData", V_bytes (callData op));
                  ("nonce", V_uint (nonce op));
                  ("preVerificationGas", V_uint (preVerificationGas op));
                  ("verificationGasLimit", V_uint (verificationGasLimit op));
                  ("callGasLimit", V_uint (callGasLimit op));
                  ("maxFeePerGas", V_uint (maxFeePerGas op));
                  ("maxPriorityFeePerGas", V_uint (maxPriorityFeePerGas op));
                  ("entryPoint", V_address (c_entryPoint c)) ]) ]
  /\ (forall input inner,
        generateSafeMessageMessage input = inr inner ->
        snd (signTypedData (accountObject c) input env h)
        = h ++ [ SignTypedData (c_privateKey c)
                   (mkTypedData
                      (mkDomain (c_chainId c) (c_accountAddress c))
                      [ ("SafeMessage", [ mkField "bytes" "message" ]) ]
                      "SafeMessage"
                      [ ("message", V_bytes inner) ]) ])
  /\ (forall message messageHash,
        hashTypedData
          (mkTypedData
             (mkDomain (c_chainId c) (c_accountAddress c))
             [ ("SafeMessage", [ mkField "bytes" "message" ]) ]
             "SafeMessage"
             [ ("message", V_bytes (hashMessage message)) ])
        = inr messageHash ->
        snd (signMessage (accountObject c) message env h)
        = h ++ [ SignMessage (c_privateKey c) (toBytes messageHash) ]).
Proof.
  split; [|split].
  - cbn [signUserOperation accountObject]. rewrite signUserOperation_run.
    reflexivity.
  - intros input inner Hinner. cbn [signTypedData accountObject].
    rewrite (signTypedData_run c input inner env h Hinner). reflexivity.
  - intros message messageHash Hhash. cbn [signMessage accountObject].
    rewrite (signMessage_run c message messageHash env h Hhash). reflexivity.
Qed.

Lemma signUserOperation_signs_SafeOp_witness :
  snd (signTypedData (accountObject (P := examplePrimitives) exampleClosure)
         (In_message (M_string "hello")) (exampleEnv 11155111) [])
  = [ SignTypedData "0x01"
        (mkTypedData
           (mkDomain 11155111 "0x00000000000000000000000000000000000000bb")
           [ ("SafeMessage", [ mkField "bytes" "message" ]) ]
           "SafeMessage"
           [ ("message", V_bytes (exampleDigest "hello")) ]) ].
Proof.
  exact (proj1 (proj2 (signUserOperation_signs_SafeOp
                         (P := examplePrimitives) exampleClosure
                         exampleUserOperation (exampleEnv 11155111) []))
           (In_message (M_string "hello")) (exampleDigest "hello") eq_refl).
Defined.

(** C10.  [signUserOperation] returns the signature the owner's signer
    produced for the SafeOp typed data, as it is: no pass through
    [adjustVInSignature], so its final byte is the signer's [v].
    [signMessage] and [signTypedData] return what [adjustVInSignature] makes
    of the signer's answer, with the methods [eth_sign] and
    [eth_signTypedData]. *)
Theorem signUserOperation_returns_raw_signature `{P : Primitives}
    (c : Closure) (env : Env) (h : list Request) :
  (forall op body,
     signTypedDataOf env h (c_privateKey c) (safeOpTypedData c op)
     = inr ("0x" +:+ body) ->
     fst (signUserOperation (accountObject c) op env h) = inr ("0x" +:+ body))
  /\ (forall input inner raw,
        generateSafeMessageMessage input = inr inner ->
        signTypedDataOf env h (c_privateKey c) (safeMessageTypedData c inner)
        = inr raw ->
        fst (signTypedData (accountObject c) input env h)
        = adjustVInSignature eth_signTypedData raw)
  /\ (forall message messageHash raw,
        hashTypedData (safeMessageTypedData c (hashMessage message))
        = inr messageHash ->
        signMessageOf env h (c_privateKey c) (toBytes messageHash) = inr raw ->
        fst (signMessage (accountObject c) message env h)
        = adjustVInSignature eth_sign raw).
Proof.
  split; [|split].
  - intros op body Hsig. cbn [signUserOperation accountObject].
    rewrite signUserOperation_run, Hsig. cbn [fst rbind ok].
    change ("0x" +:+ body) with (String "0" (String "x" body)).
    rewrite slice_from2. reflexivity.
  - intros input inner raw Hinner Hsig. cbn [signTypedData accountObject].
    rewrite (signTypedData_run c input inner env h Hinner), Hsig. reflexivity.
  - intros message messageHash raw Hhash Hsig. cbn [signMessage accountObject].
    rewrite (signMessage_run c message messageHash env h Hhash), Hsig.
    reflexivity.
Qed.

(** On the example the signer answers with [v = 0]: the user-operation
    signature ends in [00], the typed-data signature in [1b], the message
    signature in [1f]. *)
Lemma signUserOperation_returns_raw_signature_witness :
  fst (signUserOperation (accountObject (P := examplePrimitives) exampleClosure)
         exampleUserOperation (exampleEnv 11155111) [])
  = inr exampleSignature
  /\ fst (signTypedData (accountObject (P := examplePrimitives) exampleClosure)
            (In_message (M_string "hello")) (exampleEnv 11155111) [])
     = inr (slice exampleSignature 0 (Some (-2)) +:+ "1b")
  /\ fst (signMessage (accountObject (P := examplePrimitives) exampleClosure)
            (M_string "hello") (exampleEnv 11155111) [])
     = inr (slice exampleSignature 0 (Some (-2)) +:+ "1f").
Proof.
  pose proof (signUserOperation_returns_raw_signature
                (P := examplePrimitives) exampleClosure (exampleEnv 11155111) [])
    as (A & B & C).
  refine (conj (A exampleUserOperation _ eq_refl) (conj _ _)).
  - exact (B (In_message (M_string "hello")) (exampleDigest "hello")
             exampleSignature eq_refl eq_refl).
  - exact (C (M_string "hello") (exampleDigest "SafeMessage")
             exampleSignature eq_refl eq_refl).
Defined.

(** ** Init code *)

Lemma isHex_shape (h : Hex) :
  isHex h = true -> exists body, h = String "0" (String "x" body).
Proof.
  destruct h as [|c1 [|c2 body]]; try discriminate.
  - destruct c1 as [[] [] [] [] [] [] [] []]; discriminate.
  - destruct c1 as [[] [] [] [] [] [] [] []]; try discriminate.
    destruct c2 as [[] [] [] [] [] [] [] []]; try discriminate.
    intros _. exists body. reflexivity.
Qed.

Lemma replace0x_hex (h : Hex) : isHex h = true -> replace0x h = hexBody h.
Proof. intro H. destruct (isHex_shape h H) as (body & ->). reflexivity. Qed.

Lemma concatHex_pair (a b : Hex) :
  isHex a = true -> isHex b = true -> concatHex [ a; b ] = concatBytes a b.
Proof.
  intros Ha Hb. unfold concatHex, concatBytes. cbn [fold_left].
  rewrite (replace0x_hex a Ha), (replace0x_hex b Hb). reflexivity.
Qed.

Lemma concatBytes_nonempty (a b : Hex) :
  (2 < String.length a)%nat -> concatBytes a b <> "0x".
Proof.
  destruct a as [|c1 [|c2 [|c3 body]]]; cbn [String.length]; try lia.
  intros _. unfold concatBytes. cbn. discriminate.
Qed.

Lemma getInitCode_deployed `{P : Primitives} (c : Closure) (env : Env)
    (h : list Request) (contractCode : option Hex) :
  bytecodeOf env h (c_accountAddress c) = inr contractCode ->
  2 < optionalLength contractCode ->
  safe_getInitCode c env h = (inr "0x", h ++ [ GetBytecode (c_accountAddress c) ]).
Proof.
  intros Hread Hlen. unfold safe_getInitCode, getBytecode.
  rewrite bind_request, Hread.
  replace (2 <? optionalLength contractCode) with true
    by (symmetry; apply Z.ltb_lt; exact Hlen).
  reflexivity.
Qed.

Lemma getInitCode_undeployed `{P : Primitives} (c : Closure) (env : Env)
    (h : list Request) (contractCode : option Hex) (initializer callData : Hex) :
  bytecodeOf env h (c_accountAddress c) = inr contractCode ->
  optionalLength contractCode <= 2 ->
  c_owner c <> EmptyString ->
  getInitializerCode (c_owner c) (c_addModuleLibAddress c)
    (c_safe4337ModuleAddress c) = inr initializer ->
  encodeFunctionData createProxyWithNonceAbi "createProxyWithNonce"
    [ V_address (c_safeSingletonAddress c); V_bytes initializer;
      V_uint (c_saltNonce c) ] = inr callData ->
  isHex (c_safeProxyFactoryAddress c) = true ->
  isHex callData = true ->
  safe_getInitCode c env h
  = (inr (concatBytes (c_safeProxyFactoryAddress c) callData),
     h ++ [ GetBytecode (c_accountAddress c) ]).
Proof.
  intros Hread Hlen Howner Hinit Hcall Hfactory Hdata.
  unfold safe_getInitCode, getBytecode.
  rewrite bind_request, Hread.
  replace (2 <? optionalLength contractCode) with false
    by (symmetry; apply Z.ltb_ge; exact Hlen).
  unfold lift, getAccountInitCode.
  replace (String.eqb (c_owner c) EmptyString) with false
    by (symmetry; apply String.eqb_neq; exact Howner).
  rewrite Hinit. cbn [rbind]. rewrite Hcall. cbn [rbind ok].
  unfold ok. do 2 f_equal. exact (concatHex_pair _ _ Hfactory Hdata).
Qed.

(** C4.  [getInitCode] reads the bytecode at the account address on every
    call.  When the code read is longer than the two characters of [0x] it
    returns [0x]; otherwise (nothing read, or a string of at most two
    characters) it returns the factory address followed by the ABI encoding
    of createProxyWithNonce(singleton, initializer, saltNonce), which is not
    the empty payload.  Two calls in a row, on a chain whose first read
    finds no code and whose second read finds some, return the init code and
    then [0x], and the history shows the two reads. *)
Theorem getInitCode_follows_deployment `{P : Primitives} (c : Closure)
    (env : Env) (h : list Request) :
  let read := GetBytecode (c_accountAddress c) in
  (forall contractCode,
     bytecodeOf env h (c_accountAddress c) = inr contractCode ->
     2 < optionalLength contractCode ->
     getInitCode (accountObject c) env h = (inr "0x", h ++ [ read ]))
  /\ (forall initializer callData,
        c_owner c <> EmptyString ->
        getInitializerCode (c_owner c) (c_addModuleLibAddress c)
          (c_safe4337ModuleAddress c) = inr initializer ->
        encodeFunctionData createProxyWithNonceAbi "createProxyWithNonce"
          [ V_address (c_safeSingletonAddress c); V_bytes initializer;
            V_uint (c_saltNonce c) ] = inr callData ->
        isAddress (c_safeProxyFactoryAddress c) = true ->
        let initCode := concatBytes (c_safeProxyFactoryAddress c) callData in
        initCode <> "0x"
        /\ (forall contractCode,
              bytecodeOf env h (c_accountAddress c) = inr contractCode ->
              optionalLength contractCode <= 2 ->
              getInitCode (accountObject c) env h = (inr initCode, h ++ [ read ]))
        /\ (forall first second,
              bytecodeOf env h (c_accountAddress c) = inr first ->
              optionalLength first <= 2 ->
              bytecodeOf env (h ++ [ read ]) (c_accountAddress c) = inr second ->
              2 < optionalLength second ->
              (a <- getInitCode (accountObject c) ;;
               b <- getInitCode (accountObject c) ;;
               ret (a, b)) env h
              = (inr (initCode, "0x"), h ++ [ read; read ]))).
Proof.
  intro read. split.
  - intros contractCode Hread Hlen. cbn [getInitCode accountObject].
    apply (getInitCode_deployed c env h contractCode Hread Hlen).
  - intros initializer callData Howner Hinit Hcall Hfactory initCode.
    pose proof (encodeFunctionData_hex _ _ _ _ Hcall) as Hdata.
    unfold isAddress in Hfactory.
    apply andb_prop in Hfactory as [Hfactory _].
    apply andb_prop in Hfactory as [Hhex Hlen42].
    apply Nat.eqb_eq in Hlen42.
    split; [|split].
    + apply concatBytes_nonempty. lia.
    + intros contractCode Hread Hlen. cbn [getInitCode accountObject].
      apply (getInitCode_undeployed c env h contractCode initializer callData);
        assumption.
    + intros first second Hread1 Hlen1 Hread2 Hlen2.
      cbn [getInitCode accountObject]. unfold bind at 1.
      rewrite (getInitCode_undeployed c env h first initializer callData)
        by assumption.
      unfold bind at 1.
      rewrite (getInitCode_deployed c env (h ++ [read]) second Hread2 Hlen2).
      unfold ret. rewrite <- app_assoc. reflexivity.
Qed.

Lemma getInitCode_follows_deployment_witness :
  (a <- getInitCode (accountObject (P := examplePrimitives) exampleClosure) ;;
   b <- getInitCode (accountObject (P := examplePrimitives) exampleClosure) ;;
   ret (a, b)) (exampleEnv 11155111) []
  = (inr ("0x4e1DCf7AD4e460CfD30791CCC4F9c8a4f820ec67" +:+ "0000001400000003",
          "0x"),
     [ GetBytecode "0x00000000000000000000000000000000000000bb";
       GetBytecode "0x00000000000000000000000000000000000000bb" ]).
Proof.
  exact (proj2 (proj2 (proj2 (getInitCode_follows_deployment
                                (P := examplePrimitives) exampleClosure
                                (exampleEnv 11155111) [])
                         "0x0000000500000008" "0x0000001400000003"
                         ltac:(discriminate) eq_refl eq_refl eq_refl))
           None (Some "0x6080") eq_refl ltac:(vm_compute; discriminate) eq_refl
           ltac:(reflexivity)).
Defined.

(** ** Unknown networks *)

(** C6, as stated, fails: on chain 1, which the table does not list, and
    without overrides, the constructor has already asked the chain for its id
    when it fails, and what it throws is the [TypeError] of reading a field
    of [undefined], which is in no class of the specification. *)
Lemma unknown_network_fails_after_chain_read :
  let run :=
    privateKeyToSafeSmartAccount (P := examplePrimitives) exampleParameters
      (exampleEnv 1) [] in
  lookup (numberToString 1) (SAFE_ADDRESSES_MAP v1_4_1) = None
  /\ snd run = [ GetChainId ]
  /\ existsb isChainIO (snd run) = true
  /\ fst run
     = inl (TypeError
              "Cannot read properties of undefined (reading 'ADD_MODULES_LIB_ADDRESS')")
  /\ ~ (exists e,
          run = (inl e, [])
          /\ errorClass e = UnknownNetworkConfigurationError).
Proof.
  cbv zeta. split; [reflexivity|]. split; [reflexivity|]. split; [reflexivity|].
  split; [reflexivity|].
  intros (e & Hrun & _). apply (f_equal snd) in Hrun.
  vm_compute in Hrun. discriminate Hrun.
Qed.

(** C6, amended.  When the owner's address is derived, the chain answers
    with an id the table of the given version does not list, and no address
    override is supplied, the constructor fails with the [TypeError] of
    reading [ADD_MODULES_LIB_ADDRESS] from the missing entry.  The only
    request made is the read of the chain id: no contract is read. *)
Theorem unknown_network_fails_before_contract_read `{P : Primitives}
    (params : SafeParameters) (env : Env) (h : list Request)
    (owner : Address) (id : Z) :
  privateKeyToAccount (p_privateKey params) = inr owner ->
  chainIdOf env h = inr id ->
  lookup (numberToString id) (SAFE_ADDRESSES_MAP (p_safeVersion params)) = None ->
  p_addModuleLibAddress params = None ->
  p_safe4337ModuleAddress params = None ->
  p_safeProxyFactoryAddress params = None ->
  p_safeSingletonAddress params = None ->
  privateKeyToSafeSmartAccount params env h
  = (inl (TypeError
            "Cannot read properties of undefined (reading 'ADD_MODULES_LIB_ADDRESS')"),
     h ++ [ GetChainId ]).
Proof.
  intros Howner Hid Hlookup Hlib _ _ _.
  unfold privateKeyToSafeSmartAccount, getChainId.
  rewrite bind_lift, Howner, bind_request, Hid, bind_lift.
  unfold overrideOrTable. rewrite Hlib, Hlookup. reflexivity.
Qed.

Lemma unknown_network_fails_before_contract_read_witness :
  privateKeyToSafeSmartAccount (P := examplePrimitives) exampleParameters
    (exampleEnv 1) []
  = (inl (TypeError
            "Cannot read properties of undefined (reading 'ADD_MODULES_LIB_ADDRESS')"),
     [ GetChainId ]).
Proof.
  exact (unknown_network_fails_before_contract_read (P := examplePrimitives)
           exampleParameters (exampleEnv 1) [] exampleAddress 1
           eq_refl eq_refl eq_refl eq_refl eq_refl eq_refl eq_refl).
Defined.

(** ** Ordering of signatures *)

Lemma string_compare_refl (s : string) : String.compare s s = Eq.
Proof.
  induction s as [|c s IH]; simpl; [reflexivity|].
  unfold Ascii.compare. rewrite N.compare_refl. exact IH.
Qed.

Lemma string_compare_trans (a b c : string) :
  String.compare a b <> Gt -> String.compare b c <> Gt ->
  String.compare a c <> Gt.
Proof.
  revert b c. induction a as [|x a IH]; intros [|y b] [|z c]; simpl;
    try congruence.
  unfold Ascii.compare.
  destruct (N.compare_spec (N_of_ascii x) (N_of_ascii y)) as [E1|L1|G1];
    destruct (N.compare_spec (N_of_ascii y) (N_of_ascii z)) as [E2|L2|G2];
    destruct (N.compare_spec (N_of_ascii x) (N_of_ascii z)) as [E3|L3|G3];
    intros H1 H2; try congruence; try lia.
  apply (IH b c); assumption.
Qed.

Lemma compareSigners_le `{P : Primitives} (a b : SignerSignature) :
  (compareSigners a b <=? 0) = String.leb (signerKey a) (signerKey b).
Proof.
  unfold compareSigners, localeCompare, String.leb, signerKey.
  destruct (String.compare (sortKey (toLowerCase (signer a)))
              (sortKey (toLowerCase (signer b))));
    reflexivity.
Qed.

Lemma signerLe_total `{P : Primitives} (a b : SignerSignature) : signerLe a b \/ signerLe b a.
Proof. apply String.leb_total. Qed.

Lemma signerLe_trans `{P : Primitives} (a b c : SignerSignature) :
  signerLe a b -> signerLe b c -> signerLe a c.
Proof.
  unfold signerLe, String.leb. intros H1 H2.
  pose proof (string_compare_trans (signerKey a) (signerKey b) (signerKey c)) as T.
  destruct (String.compare (signerKey a) (signerKey b)); try discriminate;
    destruct (String.compare (signerKey b) (signerKey c)); try discriminate;
    destruct (String.compare (signerKey a) (signerKey c)); try reflexivity;
    exfalso; apply T; congruence.
Qed.

Lemma signerLe_same_key `{P : Primitives} (a b : SignerSignature) :
  signerKey a = signerKey b -> signerLe a b.
Proof.
  unfold signerLe, String.leb. intros ->. now rewrite string_compare_refl.
Qed.

Lemma insertBy_perm `{P : Primitives} (x : SignerSignature) (l : list SignerSignature) :
  Permutation (x :: l) (insertBy compareSigners x l).
Proof.
  induction l as [|y l IH]; simpl; [apply Permutation_refl|].
  destruct (compareSigners x y <=? 0); [apply Permutation_refl|].
  eapply perm_trans; [apply perm_swap|]. apply perm_skip. exact IH.
Qed.

Lemma sort_perm `{P : Primitives} (l : list SignerSignature) :
  Permutation l (sort compareSigners l).
Proof.
  induction l as [|x l IH]; simpl; [constructor|].
  eapply perm_trans; [apply perm_skip; exact IH | apply insertBy_perm].
Qed.

Lemma insertBy_sorted `{P : Primitives} (x : SignerSignature) (l : list SignerSignature) :
  StronglySorted signerLe l ->
  StronglySorted signerLe (insertBy compareSigners x l).
Proof.
  induction l as [|y l IH]; intros Hs; simpl.
  - constructor; constructor.
  - inversion Hs as [|? ? Hl Hy]; subst.
    rewrite compareSigners_le.
    destruct (String.leb (signerKey x) (signerKey y)) eqn:E.
    + constructor; [exact Hs|].
      constructor; [exact E|].
      apply Forall_forall. intros z Hz.
      apply (signerLe_trans x y z E).
      apply (proj1 (Forall_forall _ _) Hy z Hz).
    + constructor; [apply IH; exact Hl|].
      assert (Hyx : signerLe y x).
      { destruct (signerLe_total x y) as [Hxy|Hyx]; [|exact Hyx].
        unfold signerLe in Hxy. congruence. }
      apply Forall_forall. intros z Hz.
      apply (Permutation_in z (Permutation_sym (insertBy_perm x l))) in Hz.
      destruct Hz as [<-|Hz]; [exact Hyx|].
      apply (proj1 (Forall_forall _ _) Hy z Hz).
Qed.

Lemma sort_sorted `{P : Primitives} (l : list SignerSignature) :
  StronglySorted signerLe (sort compareSigners l).
Proof.
  induction l as [|x l IH]; simpl; [constructor|].
  apply insertBy_sorted. exact IH.
Qed.



Lemma appendSignatures_from (l : list SignerSignature) (acc : string) :
  fold_left (fun signatureBytes sig => signatureBytes +:+ slice (data sig) 2 None)
    l acc
  = acc +:+ signatureBodies l.
Proof.
  revert acc. induction l as [|s l IH]; intro acc; cbn [fold_left signatureBodies].
  - now rewrite append_nil_r.
  - rewrite IH. apply append_assoc.
Qed.

Lemma appendSignatures_bodies (l : list SignerSignature) :
  appendSignatures l = "0x" +:+ signatureBodies l.
Proof. apply appendSignatures_from. Qed.





Example sortAndConcat_example :
  sortAndConcat (P := examplePrimitives)
    [ mkSignerSignature "0xFF01" "0xcc"; mkSignerSignature "0x0a02" "0xaa";
      mkSignerSignature "0xB003" "0xbb" ]
  = "0xaabbcc".
Proof. reflexivity. Qed.

(** ** The gas-estimation error *)

Lemma filter_truthy_In (m : string) (l : list string) :
  In m l -> m <> EmptyString -> In m (filter truthy l).
Proof.
  intros Hin Hne. apply filter_In. split; [exact Hin|].
  unfold truthy. apply negb_true_iff. apply String.eqb_neq. exact Hne.
Qed.

Lemma filter_truthy_no_empty (l : list string) :
  ~ In EmptyString (filter truthy l).
Proof. intros H. apply filter_In in H as [_ H]. discriminate H. Qed.

(** C8, as stated, fails: the cause of the example has the empty string among
    its meta messages, and the error built from it has not. *)
Lemma estimate_error_drops_empty_meta_message :
  let e :=
    Errors.EstimateUserOperationGasError Errors.fieldDump exampleCause
      exampleEstimateUserOperation
      "0x00000000000000000000000000000000000000ee" None in
  In EmptyString (metaMessageList exampleCause)
  /\ ~ In EmptyString (metaMessageList e)
  /\ ~ (forall m, In m (metaMessageList exampleCause) -> In m (metaMessageList e)).
Proof.
  cbv zeta. split; [left; reflexivity|].
  assert (Hno : ~ In EmptyString
                    (metaMessageList
                       (Errors.EstimateUserOperationGasError Errors.fieldDump
                          exampleCause exampleEstimateUserOperation
                          "0x00000000000000000000000000000000000000ee" None))).
  { unfold metaMessageList, Errors.EstimateUserOperationGasError.
    cbn [Errors.metaMessages Errors.newBaseError Errors.arg_metaMessages].
    apply filter_truthy_no_empty. }
  split; [exact Hno|].
  intros Hall. apply Hno. apply Hall. left. reflexivity.
Qed.

(** C8, amended.  The error built by [EstimateUserOperationGasError] has the
    short message of its cause and keeps the cause itself.  Its meta messages
    are the non-empty meta messages of the cause, in their order, then a
    blank separator when the cause has meta messages at all, then the
    heading "Estimate Gas Arguments:", then the dump [prettyPrint] makes of
    the twelve arguments (the eleven fields of the user operation and the
    entry point) unless that dump is empty.  [filter(Boolean)] removes the
    empty strings. *)
Theorem estimate_error_keeps_cause
    (prettyPrint : list (string * JsValue) -> string)
    (cause : Errors.BaseError) (op : Errors.EstimateUserOperation)
    (entryPoint : Address) (docsPath : option string) :
  let e := Errors.EstimateUserOperationGasError prettyPrint cause op entryPoint docsPath in
  let dump :=
    prettyPrint
      [ ("sender", Errors.jsString (Errors.sender op));
        ("nonce", Errors.jsBigint (Errors.nonce op));
        ("initCode", Errors.jsString (Errors.initCode op));
        ("callData", Errors.jsString (Errors.callData op));
        ("callGasLimit", Errors.jsBigint (Errors.callGasLimit op));
        ("verificationGasLimit", Errors.jsBigint (Errors.verificationGasLimit op));
        ("preVerificationGas", Errors.jsBigint (Errors.preVerificationGas op));
        ("maxFeePerGas", Errors.jsBigint (Errors.maxFeePerGas op));
        ("maxPriorityFeePerGas", Errors.jsBigint (Errors.maxPriorityFeePerGas op));
        ("paymasterAndData", Errors.jsString (Errors.paymasterAndData op));
        ("signature", Errors.jsString (Errors.signature op));
        ("entryPoint", J_string entryPoint) ] in
  Errors.name e = "EstimateUserOperationGasError"
  /\ Errors.shortMessage e = Errors.shortMessage cause
  /\ Errors.cause e = Some cause
  /\ Errors.metaMessages e
     = Some (filter truthy (metaMessageList cause)
             ++ match Errors.metaMessages cause with
                | Some _ => [ " " ]
                | None => []
                end
             ++ [ "Estimate Gas Arguments:" ]
             ++ filter truthy [ dump ])
  /\ (forall m,
        In m (metaMessageList cause) -> m <> EmptyString ->
        In m (metaMessageList e)).
Proof.
  intros e dump.
  assert (Hmeta : Errors.metaMessages e
     = Some (filter truthy (metaMessageList cause)
             ++ match Errors.metaMessages cause with
                | Some _ => [ " " ]
                | None => []
                end
             ++ [ "Estimate Gas Arguments:" ]
             ++ filter truthy [ dump ])).
  { subst e dump. unfold Errors.EstimateUserOperationGasError, metaMessageList.
    cbn [Errors.metaMessages Errors.newBaseError Errors.arg_metaMessages].
    f_equal. unfold Errors.estimateGasArguments.
    destruct (Errors.metaMessages cause) as [ms|].
    - rewrite !filter_app. rewrite <- app_assoc. reflexivity.
    - reflexivity. }
  split; [reflexivity|]. split; [reflexivity|]. split; [reflexivity|].
  split; [exact Hmeta|].
  intros m Hin Hne. unfold metaMessageList at 1. rewrite Hmeta.
  apply in_or_app. left. apply filter_truthy_In; assumption.
Qed.

Lemma estimate_error_keeps_cause_witness :
  In "URL: http://localhost"
    (metaMessageList
       (Errors.EstimateUserOperationGasError Errors.fieldDump exampleCause
          exampleEstimateUserOperation
          "0x00000000000000000000000000000000000000ee" None)).
Proof.
  apply (proj2 (proj2 (proj2 (proj2
           (estimate_error_keeps_cause Errors.fieldDump exampleCause
              exampleEstimateUserOperation
              "0x00000000000000000000000000000000000000ee" None))))).
  - right. left. reflexivity.
  - discriminate.
Defined.

Example estimate_error_example :
  metaMessageList
    (Errors.EstimateUserOperationGasError Errors.fieldDump exampleCause
       exampleEstimateUserOperation
       "0x00000000000000000000000000000000000000ee" None)
  = [ "URL: http://localhost"; " "; "Estimate Gas Arguments:";
      Errors.fieldDump
        (Errors.estimateGasArguments exampleEstimateUserOperation
           "0x00000000000000000000000000000000000000ee") ].
Proof. reflexivity. Qed.

(** ** The smart-account client *)

(** C9.  The configuration [createSmartAccountClient] hands to [createClient]
    carries, in place of the caller's transport, a function that calls it
    with the options it receives and [retryCount] set to 0, whatever retry
    count these options carried; the other options pass unchanged.  The
    client is built from that configuration alone. *)
Theorem createSmartAccountClient_forces_retryCount_0
    (TransportValue Middleware ViemClient Actions SmartAccountClient : Type)
    (createClient : Client.ClientConfig TransportValue Middleware -> ViemClient)
    (smartAccountActions : option Middleware -> Actions)
    (extend : ViemClient -> Actions -> SmartAccountClient)
    (parameters : Client.ClientConfig TransportValue Middleware)
    (opts : Client.TransportOptions) :
  Client.createSmartAccountClient _ _ _ _ _ createClient smartAccountActions
    extend parameters
  = extend (createClient (Client.clientConfig _ _ parameters))
      (smartAccountActions (Client.sponsorUserOperation _ _ parameters))
  /\ Client.transport _ _ (Client.clientConfig _ _ parameters) opts
     = Client.transport _ _ parameters
         (Client.mkTransportOptions (Client.opt_chain opts)
            (Client.opt_pollingInterval opts) (Some 0) (Client.opt_timeout opts))
  /\ Client.opt_retryCount (Client.withRetryCount0 opts) = Some 0.
Proof. split; [|split]; reflexivity. Qed.

(** A transport that returns the options it is called with shows what the
    underlying transport receives. *)
Example createSmartAccountClient_example :
  Client.transport _ _
    (Client.clientConfig Client.TransportOptions unit
       (Client.mkClientConfig _ _ None None None None None (fun opts => opts)
          None None None))
    (Client.mkTransportOptions None (Some 4000) (Some 3) None)
  = Client.mkTransportOptions None (Some 4000) (Some 0) None.
Proof. reflexivity. Qed.

(** ** Numbers as 256-bit words *)

Lemma fixedHex_length (k : nat) (n : Z) : String.length (fixedHex k n) = k.
Proof.
  revert n. induction k as [|k IH]; intro n; cbn [fixedHex]; [reflexivity|].
  rewrite length_append, IH. cbn [String.length]. lia.
Qed.

Lemma repeat0_snoc (d : nat) :
  repeat0 d +:+ String "0" EmptyString = String "0" (repeat0 d).
Proof. induction d as [|d IH]; cbn; [reflexivity | now rewrite IH]. Qed.

Lemma fixedHex_zero (d : nat) : fixedHex d 0 = repeat0 d.
Proof.
  induction d as [|d IH]; [reflexivity|].
  cbn [fixedHex]. change (0 / 16) with 0. rewrite IH.
  change (hexDigit (0 mod 16)) with "0"%char. apply repeat0_snoc.
Qed.

(** Leading zeros: a number below [16 ^ j] written on [d + j] digits. *)
Lemma fixedHex_pad (d j : nat) (n : Z) :
  0 <= n < 16 ^ Z.of_nat j ->
  fixedHex (d + j) n = repeat0 d +:+ fixedHex j n.
Proof.
  revert n. induction j as [|j IH]; intros n Hn.
  - assert (n = 0) by (change (16 ^ Z.of_nat 0) with 1 in Hn; lia). subst n.
    rewrite Nat.add_0_r, fixedHex_zero. cbn [fixedHex]. now rewrite append_nil_r.
  - rewrite Nat.add_succ_r. cbn [fixedHex].
    rewrite IH.
    + now rewrite append_assoc.
    + rewrite Nat2Z.inj_succ, Z.pow_succ_r in Hn by lia.
      split; [apply Z.div_pos; lia|].
      apply Z.div_lt_upper_bound; lia.
Qed.

(** The digits [toString(16)] produces are the significant part of the
    fixed-width writing. *)
Lemma hexDigitsAux_fixed (fuel : nat) :
  forall (n : Z) (acc : string),
    (0 < fuel)%nat -> 0 <= n < 2 ^ Z.of_nat fuel ->
    exists j : nat,
      hexDigitsAux fuel n acc = fixedHex j n +:+ acc
      /\ n < 16 ^ Z.of_nat j
      /\ (j = 1%nat \/ 16 ^ (Z.of_nat j - 1) <= n).
Proof.
  induction fuel as [|f IH]; intros n acc Hf Hn; [lia|].
  cbn [hexDigitsAux].
  destruct (n / 16 =? 0) eqn:E.
  - apply Z.eqb_eq in E. exists 1%nat. split; [reflexivity|].
    split; [|left; reflexivity].
    change (16 ^ Z.of_nat 1) with 16.
    pose proof (Z.div_mod n 16 ltac:(lia)) as D.
    pose proof (Z.mod_pos_bound n 16 ltac:(lia)). lia.
  - apply Z.eqb_neq in E.
    assert (Hq : 0 < n / 16).
    { pose proof (Z.div_pos n 16 ltac:(lia) ltac:(lia)). lia. }
    assert (Hn16 : 16 <= n).
    { destruct (Z_lt_le_dec n 16) as [Hlt|Hle]; [|exact Hle].
      rewrite (Z.div_small n 16) in Hq by lia. lia. }
    assert (Hpow : 2 ^ Z.of_nat (S f) = 2 * 2 ^ Z.of_nat f).
    { rewrite Nat2Z.inj_succ, Z.pow_succ_r by lia. reflexivity. }
    assert (Hf' : (0 < f)%nat).
    { destruct f; [|lia]. change (2 ^ Z.of_nat 1) with 2 in Hn. lia. }
    assert (Hn' : 0 <= n / 16 < 2 ^ Z.of_nat f).
    { split; [lia|]. apply Z.div_lt_upper_bound; lia. }
    destruct (IH (n / 16) (String (hexDigit (n mod 16)) acc) Hf' Hn')
      as (j & Heq & Hlt & Hge).
    exists (S j). split; [|split].
    + rewrite Heq. cbn [fixedHex]. now rewrite append_assoc.
    + rewrite Nat2Z.inj_succ, Z.pow_succ_r by lia.
      pose proof (Z.div_mod n 16 ltac:(lia)) as D.
      pose proof (Z.mod_pos_bound n 16 ltac:(lia)). lia.
    + right. replace (Z.of_nat (S j) - 1) with (Z.of_nat j) by lia.
      pose proof (Z.div_mod n 16 ltac:(lia)) as D.
      pose proof (Z.mod_pos_bound n 16 ltac:(lia)).
      destruct Hge as [-> | Hge].
      * change (16 ^ Z.of_nat 1) with 16. exact Hn16.
      * replace (Z.of_nat j) with (Z.succ (Z.of_nat j - 1)) by lia.
        rewrite Z.pow_succ_r.
        -- lia.
        -- destruct j; [|lia].
           change (16 ^ Z.of_nat 0) with 1 in Hlt. lia.
Qed.

Lemma padStart0_hexDigits (n : Z) :
  0 <= n < 16 ^ 64 -> padStart0 64 (hexDigits n) = fixedHex 64 n.
Proof.
  intros Hn. unfold hexDigits.
  assert (Hfuel : 0 <= n < 2 ^ Z.of_nat (S (Z.to_nat (Z.log2 n)))).
  { split; [lia|].
    rewrite Nat2Z.inj_succ, Z2Nat.id by apply Z.log2_nonneg.
    destruct (Z.eq_dec n 0) as [->|Hne]; [reflexivity|].
    apply Z.log2_spec. lia. }
  destruct (hexDigitsAux_fixed (S (Z.to_nat (Z.log2 n))) n EmptyString
              ltac:(lia) Hfuel) as (j & Heq & Hlt & Hge).
  rewrite Heq, append_nil_r. unfold padStart0. rewrite fixedHex_length.
  assert (Hj : (j <= 64)%nat).
  { destruct Hge as [-> | Hge]; [lia|].
    destruct (le_lt_dec j 64) as [Hle|Hgt]; [exact Hle|].
    exfalso.
    assert (16 ^ 64 <= 16 ^ (Z.of_nat j - 1)) by (apply Z.pow_le_mono_r; lia).
    lia. }
  replace 64%nat with ((64 - j) + j)%nat at 2 by lia.
  symmetry. apply fixedHex_pad. lia.
Qed.

Lemma numberToHex32_word (n : Z) :
  0 <= n <= maxUint256 -> numberToHex32 n = inr (uint256Word n).
Proof.
  intros Hn. unfold numberToHex32.
  replace ((maxUint256 <? n) || (n <? 0)) with false.
  2:{ symmetry. apply orb_false_intro; apply Z.ltb_ge; lia. }
  unfold ok, uint256Word.
  change (replace0x ("0x" +:+ toString16 n)) with (toString16 n).
  unfold toString16.
  replace (n <? 0) with false by (symmetry; apply Z.ltb_ge; lia).
  rewrite padStart0_hexDigits; [reflexivity|].
  unfold maxUint256 in Hn. change (16 ^ 64) with (2 ^ 256). lia.
Qed.

Lemma numberToHex32_returns (n : Z) (h : Hex) :
  numberToHex32 n = inr h -> 0 <= n <= maxUint256.
Proof.
  unfold numberToHex32.
  destruct ((maxUint256 <? n) || (n <? 0)) eqn:E; [discriminate|].
  intros _. apply orb_false_elim in E as [E1 E2].
  apply Z.ltb_ge in E1. apply Z.ltb_ge in E2. lia.
Qed.

Lemma numberToHex32_hex (n : Z) (h : Hex) :
  numberToHex32 n = inr h -> isHex h = true.
Proof.
  unfold numberToHex32. destruct ((maxUint256 <? n) || (n <? 0)); [discriminate|].
  intros [= <-]. reflexivity.
Qed.

Lemma hex_eta (h : Hex) : isHex h = true -> "0x" +:+ hexBody h = h.
Proof. intro H. destruct (isHex_shape h H) as (body & ->). reflexivity. Qed.

Lemma concatHex_single (h : Hex) : isHex h = true -> concatHex [ h ] = h.
Proof.
  intro Hh. unfold concatHex. cbn [fold_left String.append].
  rewrite (replace0x_hex h Hh). apply hex_eta. exact Hh.
Qed.

(** ** Addresses as numbers *)

Lemma parseDigits_all (s : string) :
  allHexDigits s = true ->
  forall acc, parseDigits s (Some acc) = Some (hexValue s acc).
Proof.
  induction s as [|c s IH]; intros Hall acc; [reflexivity|].
  cbn [allHexDigits parseDigits hexValue] in *.
  destruct (hexDigitValue c) as [d|]; [|discriminate].
  apply IH. exact Hall.
Qed.

Lemma parseDigits_nonempty (c : ascii) (s : string) :
  allHexDigits (String c s) = true ->
  parseDigits (String c s) None = Some (hexValue (String c s) 0).
Proof.
  intro Hall. cbn [allHexDigits parseDigits hexValue] in *.
  destruct (hexDigitValue c) as [d|]; [|discriminate].
  apply parseDigits_all. exact Hall.
Qed.

Lemma hexValue_bounds (s : string) :
  allHexDigits s = true ->
  forall acc, 0 <= acc ->
    acc * 16 ^ Z.of_nat (String.length s) <= hexValue s acc
    < (acc + 1) * 16 ^ Z.of_nat (String.length s).
Proof.
  induction s as [|c s IH]; intros Hall acc Hacc.
  - cbn [hexValue String.length]. change (16 ^ Z.of_nat 0) with 1. lia.
  - cbn [allHexDigits hexValue String.length] in *.
    destruct (hexDigitValue c) as [d|] eqn:Hd; [|discriminate].
    pose proof (hexDigitValue_range c d Hd) as Hr.
    specialize (IH Hall (16 * acc + d) ltac:(lia)).
    rewrite Nat2Z.inj_succ, Z.pow_succ_r by lia.
    set (p := 16 ^ Z.of_nat (String.length s)) in *.
    assert (0 < p) by (apply Z.pow_pos_nonneg; lia).
    nia.
Qed.

Lemma isAddress_shape (a : Address) :
  isAddress a = true ->
  exists c digits,
    a = String "0" (String "x" (String c digits))
    /\ String.length (String c digits) = 40%nat
    /\ allHexDigits (String c digits) = true.
Proof.
  unfold isAddress. intro H.
  apply andb_prop in H as [H Hall]. apply andb_prop in H as [Hhex Hlen].
  apply Nat.eqb_eq in Hlen.
  pose proof (hex_eta a Hhex) as Heta.
  destruct a as [|c1 [|c2 [|c digits]]]; cbn [String.length] in Hlen; try lia.
  cbn [hexBody] in *. injection Heta as <- <-.
  exists c, digits. split; [reflexivity|]. split; [cbn [String.length]; lia|].
  exact Hall.
Qed.

Lemma hexToBigInt_address (a : Address) :
  isAddress a = true ->
  hexToBigInt a = inr (addressNumber a) /\ 0 <= addressNumber a < 16 ^ 40.
Proof.
  intro Ha. destruct (isAddress_shape a Ha) as (c & digits & -> & Hlen & Hall).
  unfold addressNumber. cbn [hexBody]. split.
  - unfold hexToBigInt. cbn [Ascii.eqb Bool.eqb orb andb String.eqb negb].
    rewrite Hall. rewrite (parseDigits_nonempty c digits Hall). reflexivity.
  - pose proof (hexValue_bounds (String c digits) Hall 0 ltac:(lia)) as B.
    rewrite Hlen in B. change (Z.of_nat 40) with 40 in B. lia.
Qed.

(** ** The counterfactual address *)

Lemma getInitializerCode_hex `{P : Primitives}
    (owner addModuleLibAddress safe4337ModuleAddress : Address)
    (initializer : Hex) :
  getInitializerCode owner addModuleLibAddress safe4337ModuleAddress
  = inr initializer ->
  isHex initializer = true.
Proof.
  unfold getInitializerCode.
  destruct (encodeFunctionData enableModulesAbi "enableModules" _) as [e|d];
    [discriminate|].
  cbn [rbind]. apply encodeFunctionData_hex.
Qed.

(** What [getAccountAddress] computes once the factory has answered and the
    initializer is built: the two numbers are range-checked, then CREATE2 is
    taken of the factory, the salt and the deployment code. *)
Lemma getAccountAddress_run `{P : Primitives}
    (owner addModuleLibAddress safe4337ModuleAddress safeProxyFactoryAddress
       safeSingletonAddress : Address)
    (saltNonce : option Z) (env : Env) (h : list Request)
    (proxyCreationCode initializer : Hex) :
  readContractOf env h safeProxyFactoryAddress "proxyCreationCode"
  = inr proxyCreationCode ->
  isHex proxyCreationCode = true ->
  getInitializerCode owner addModuleLibAddress safe4337ModuleAddress
  = inr initializer ->
  getAccountAddress owner addModuleLibAddress safe4337ModuleAddress
    safeProxyFactoryAddress safeSingletonAddress saltNonce env h
  = (rbind (hexToBigInt safeSingletonAddress) (fun singleton =>
     rbind (numberToHex32 singleton) (fun singletonWord =>
     rbind (numberToHex32 (match saltNonce with Some n => n | None => 0 end))
       (fun nonceWord =>
     getContractAddress
       (mkCreate2 safeProxyFactoryAddress
          (keccak256 (concatBytes (keccak256 initializer) nonceWord))
          (concatBytes proxyCreationCode singletonWord)
          "CREATE2")))),
     h ++ [ ReadContract safeProxyFactoryAddress "proxyCreationCode" ]).
Proof.
  intros Hread Hcode Hinit.
  pose proof (getInitializerCode_hex _ _ _ _ Hinit) as Hhex.
  destruct (keccak256_bytes32 initializer) as [Hk Hklen].
  unfold getAccountAddress, readContract.
  rewrite bind_request, Hread. unfold lift. f_equal.
  destruct (hexToBigInt safeSingletonAddress) as [e|singleton]; [reflexivity|].
  cbn [rbind]. unfold encodePacked at 1.
  cbn [encodeAll encodePackedArg rbind ok].
  destruct (numberToHex32 singleton) as [e|singletonWord] eqn:Hword;
    [reflexivity|].
  cbn [rbind ok]. rewrite Hinit. cbn [rbind].
  unfold encodePacked at 1. cbn [encodeAll encodePackedArg rbind ok].
  rewrite (concatHex_single initializer Hhex).
  unfold encodePacked. cbn [encodeAll encodePackedArg rbind ok].
  rewrite Hklen. change (Z.of_nat 66 - 2 =? 64) with true. cbv iota.
  cbn [rbind ok].
  destruct (numberToHex32 (match saltNonce with Some n => n | None => 0 end))
    as [e|nonceWord] eqn:Hnonce; [reflexivity|].
  cbn [rbind ok].
  rewrite (concatHex_pair _ _ Hcode (numberToHex32_hex _ _ Hword)).
  rewrite (concatHex_pair _ _ Hk (numberToHex32_hex _ _ Hnonce)).
  reflexivity.
Qed.

Lemma hexDigit_lowerChar (c : ascii) (d : Z) :
  hexDigitValue c = Some d -> hexDigit d = lowerChar c.
Proof.
  destruct c as [[] [] [] [] [] [] [] []]; vm_compute;
    intro H; try discriminate H; injection H as <-; reflexivity.
Qed.

(** Writing back the number of a run of digits gives the digits, lower
    case, after those of the accumulator. *)
Lemma fixedHex_hexValue (digits : string) :
  allHexDigits digits = true ->
  forall (k : nat) (acc : Z), 0 <= acc ->
    fixedHex (k + String.length digits) (hexValue digits acc)
    = fixedHex k acc +:+ toLowerCase digits.
Proof.
  induction digits as [|c digits IH]; intros Hall k acc Hacc.
  - cbn [String.length hexValue toLowerCase].
    now rewrite Nat.add_0_r, append_nil_r.
  - cbn [allHexDigits String.length hexValue toLowerCase] in *.
    destruct (hexDigitValue c) as [d|] eqn:Hd; [|discriminate].
    pose proof (hexDigitValue_range c d Hd) as Hr.
    rewrite Nat.add_succ_r, <- Nat.add_succ_l.
    rewrite (IH Hall (S k) (16 * acc + d)) by lia.
    cbn [fixedHex].
    replace ((16 * acc + d) / 16) with acc
      by (apply (Z.div_unique (16 * acc + d) 16 acc d); lia).
    replace ((16 * acc + d) mod 16) with d
      by (apply (Z.mod_unique (16 * acc + d) 16 acc d); lia).
    rewrite (hexDigit_lowerChar c d Hd), append_assoc. reflexivity.
Qed.

Lemma address_word (a : Address) :
  isAddress a = true ->
  uint256Word (addressNumber a)
  = "0x" +:+ repeat0 24 +:+ toLowerCase (hexBody a).
Proof.
  intro Ha. destruct (isAddress_shape a Ha) as (c & digits & -> & Hlen & Hall).
  unfold uint256Word, addressNumber. cbn [hexBody]. f_equal.
  change 64%nat with (24 + 40)%nat. rewrite <- Hlen.
  rewrite (fixedHex_hexValue _ Hall 24 0) by lia.
  now rewrite fixedHex_zero.
Qed.

(** C1.  Let the factory answer the read of [proxyCreationCode] with a byte
    string and let the initializer builder give [initializer].  The address
    [getAccountAddress] returns is CREATE2 from the factory address, with
    bytecode the creation code followed by the singleton address as a
    256-bit word, and salt the digest of the digest of the initializer
    followed by the salt nonce as a 256-bit word.  It returns exactly when
    CREATE2 does, for a singleton that is an address and a nonce that fits
    256 bits; whenever it returns, both fit.  The word of an address is 24
    zeros and its 40 digits in lower case. *)
Theorem getAccountAddress_is_create2 `{P : Primitives}
    (owner addModuleLibAddress safe4337ModuleAddress safeProxyFactoryAddress
       safeSingletonAddress : Address)
    (saltNonce : option Z) (env : Env) (h : list Request)
    (proxyCreationCode initializer : Hex) :
  let nonce := match saltNonce with Some n => n | None => 0 end in
  let salt :=
    keccak256 (concatBytes (keccak256 initializer) (uint256Word nonce)) in
  let create2 (singleton : Z) :=
    getContractAddress
      (mkCreate2 safeProxyFactoryAddress salt
         (concatBytes proxyCreationCode (uint256Word singleton))
         "CREATE2") in
  readContractOf env h safeProxyFactoryAddress "proxyCreationCode"
  = inr proxyCreationCode ->
  isHex proxyCreationCode = true ->
  getInitializerCode owner addModuleLibAddress safe4337ModuleAddress
  = inr initializer ->
  (isAddress safeSingletonAddress = true -> 0 <= nonce <= maxUint256 ->
   getAccountAddress owner addModuleLibAddress safe4337ModuleAddress
     safeProxyFactoryAddress safeSingletonAddress saltNonce env h
   = (create2 (addressNumber safeSingletonAddress),
      h ++ [ ReadContract safeProxyFactoryAddress "proxyCreationCode" ]))
  /\ (forall account,
        fst (getAccountAddress owner addModuleLibAddress safe4337ModuleAddress
               safeProxyFactoryAddress safeSingletonAddress saltNonce env h)
        = inr account ->
        exists singleton,
          hexToBigInt safeSingletonAddress = inr singleton
          /\ 0 <= singleton <= maxUint256
          /\ 0 <= nonce <= maxUint256
          /\ create2 singleton = inr account)
  /\ (isAddress safeSingletonAddress = true ->
      uint256Word (addressNumber safeSingletonAddress)
      = "0x" +:+ repeat0 24 +:+ toLowerCase (hexBody safeSingletonAddress)).
Proof.
  intros nonce salt create2 Hread Hcode Hinit.
  pose proof (getAccountAddress_run owner addModuleLibAddress
                safe4337ModuleAddress safeProxyFactoryAddress
                safeSingletonAddress saltNonce env h proxyCreationCode
                initializer Hread Hcode Hinit) as Hrun.
  fold nonce in Hrun.
  split; [|split].
  - intros Haddr Hnonce. rewrite Hrun. f_equal.
    destruct (hexToBigInt_address _ Haddr) as [-> Hrange].
    cbn [rbind].
    rewrite (numberToHex32_word (addressNumber safeSingletonAddress)).
    + cbn [rbind]. rewrite (numberToHex32_word nonce Hnonce). reflexivity.
    + unfold maxUint256. change (2 ^ 256) with (16 ^ 40 * 16 ^ 24).
      assert (0 < 16 ^ 40) by reflexivity.
      assert (1 <= 16 ^ 24) by (vm_compute; discriminate). nia.
  - intros account Hret. rewrite Hrun in Hret. cbn [fst] in Hret.
    destruct (hexToBigInt safeSingletonAddress) as [e|singleton];
      [discriminate|].
    cbn [rbind] in Hret.
    destruct (numberToHex32 singleton) as [e|singletonWord] eqn:Hword;
      [discriminate|].
    cbn [rbind] in Hret.
    destruct (numberToHex32 nonce) as [e|nonceWord] eqn:Hnonce; [discriminate|].
    cbn [rbind] in Hret.
    pose proof (numberToHex32_returns _ _ Hword) as Hs.
    pose proof (numberToHex32_returns _ _ Hnonce) as Hn.
    rewrite (numberToHex32_word _ Hs) in Hword. injection Hword as <-.
    rewrite (numberToHex32_word _ Hn) in Hnonce. injection Hnonce as <-.
    exists singleton. repeat split; try lia. exact Hret.
  - apply address_word.
Qed.

Lemma getAccountAddress_is_create2_witness :
  getAccountAddress (P := examplePrimitives) exampleAddress
    "0x191EFDC03615B575922289DC339F4c70aC5C30Af"
    "0x39E54Bb2b3Aa444b4B39DEe15De3b7809c36Fc38"
    "0x4e1DCf7AD4e460CfD30791CCC4F9c8a4f820ec67"
    "0x41675C099F32341bf84BFc5382aF534df5C7461a" (Some 7)
    (exampleEnv 11155111) []
  = (getContractAddress (Primitives := examplePrimitives)
       (mkCreate2 "0x4e1DCf7AD4e460CfD30791CCC4F9c8a4f820ec67"
          (exampleDigest
             (concatBytes (exampleDigest "0x0000000500000008")
                "0x0000000000000000000000000000000000000000000000000000000000000007"))
          ("0x6080" +:+ "000000000000000000000000"
           +:+ "41675c099f32341bf84bfc5382af534df5c7461a")
          "CREATE2"),
     [ ReadContract "0x4e1DCf7AD4e460CfD30791CCC4F9c8a4f820ec67"
         "proxyCreationCode" ]).
Proof.
  exact (proj1 (getAccountAddress_is_create2 (P := examplePrimitives)
                  exampleAddress
                  "0x191EFDC03615B575922289DC339F4c70aC5C30Af"
                  "0x39E54Bb2b3Aa444b4B39DEe15De3b7809c36Fc38"
                  "0x4e1DCf7AD4e460CfD30791CCC4F9c8a4f820ec67"
                  "0x41675C099F32341bf84BFc5382aF534df5C7461a" (Some 7)
                  (exampleEnv 11155111) [] "0x6080" "0x0000000500000008"
                  eq_refl eq_refl eq_refl)
           eq_refl ltac:(vm_compute; split; discriminate)).
Defined.

(** ** The constructor on the two listed networks *)

Example privateKeyToSafeSmartAccount_sepolia :
  let run :=
    privateKeyToSafeSmartAccount (P := examplePrimitives) exampleParameters
      (exampleEnv 11155111) [] in
  snd run
  = [ GetChainId;
      ReadContract "0x4e1DCf7AD4e460CfD30791CCC4F9c8a4f820ec67" "proxyCreationCode" ]
  /\ exists account,
       fst run = inr account
       /\ source account = "privateKeySafeSmartAccount"
       /\ address account = publicKey account
       /\ getInitCode account (exampleEnv 11155111) (snd run)
          = (inr ("0x4e1DCf7AD4e460CfD30791CCC4F9c8a4f820ec67"
                  +:+ "0000001400000003"),
             snd run ++ [ GetBytecode (address account) ]).
Proof.
  cbv zeta. split; [reflexivity|]. eexists. split; [reflexivity|].
  split; [reflexivity|]. split; reflexivity.
Qed.

Example privateKeyToSafeSmartAccount_goerli :
  let run :=
    privateKeyToSafeSmartAccount (P := examplePrimitives) exampleParameters
      (exampleEnv 5) [] in
  snd run
  = [ GetChainId;
      ReadContract "0x4e1DCf7AD4e460CfD30791CCC4F9c8a4f820ec67" "proxyCreationCode" ]
  /\ exists account, fst run = inr account.
Proof. cbv zeta. split; [reflexivity|]. eexists. reflexivity. Qed.

(* ------------------------------------------------------------------ *)
(** * Further properties of the sources *)

(** ** The normalizer on any string *)

Lemma includes_V_VALUES (v : Z) :
  includes ETHEREUM_V_VALUES (Some v) = true ->
  v = 0 \/ v = 1 \/ v = 27 \/ v = 28.
Proof.
  unfold includes, ETHEREUM_V_VALUES. cbn [existsb].
  rewrite !orb_true_iff, !Z.eqb_eq. intuition discriminate.
Qed.

(** Every string is either shorter than two characters or ends in two. *)
Lemma string_last2 (s : string) :
  (String.length s < 2)%nat
  \/ exists p c1 c2, s = p +:+ String c1 (String c2 EmptyString).
Proof.
  induction s as [|c s IH]; [left; cbn; lia|].
  destruct IH as [Hshort | (p & c1 & c2 & ->)].
  - destruct s as [|c' s]; [left; cbn; lia|].
    destruct s as [|c'' s]; [|cbn in Hshort; lia].
    right. exists EmptyString, c, c'. reflexivity.
  - right. exists (String c p), c1, c2. reflexivity.
Qed.

Lemma slice_init2_short (s : string) :
  (String.length s < 2)%nat -> slice s 0 (Some (-2)) = EmptyString.
Proof.
  intro Hs. unfold slice.
  change (0 <? 0) with false. change (-2 <? 0) with true. cbv iota.
  replace (Z.to_nat (Z.max
             (Z.max (Z.of_nat (String.length s) + -2) 0
              - Z.min 0 (Z.of_nat (String.length s))) 0)) with 0%nat by lia.
  replace (Z.to_nat (Z.min 0 (Z.of_nat (String.length s)))) with 0%nat by lia.
  destruct s; reflexivity.
Qed.

(** X1.  On any string whatever, [adjustVInSignature] either throws the
    [Error] "Invalid signature" or returns the string without its last two
    characters followed by [1f] or [20] (plain message) or by [1b] or [1c]
    (typed data): a returned signature always ends in a [v] the Safe
    accepts for that signing method. *)
Theorem adjustVInSignature_result_range (m : SigningMethod) (signature : string) :
  (forall e, adjustVInSignature m signature = inl e -> e = Error "Invalid signature")
  /\ (forall out,
        adjustVInSignature m signature = inr out ->
        exists tail,
          out = slice signature 0 (Some (-2)) +:+ tail
          /\ match m with
             | eth_sign => tail = "1f" \/ tail = "20"
             | eth_signTypedData => tail = "1b" \/ tail = "1c"
             end).
Proof.
  unfold adjustVInSignature, throw, ok.
  destruct (parseInt16 (slice signature (-2) None)) as [v|].
  2:{ cbn [includes negb].
      split; [intros e H; inversion H; reflexivity | intros out H; discriminate H]. }
  destruct (includes ETHEREUM_V_VALUES (Some v)) eqn:E; cbn [negb].
  2:{ split; [intros e H; inversion H; reflexivity | intros out H; discriminate H]. }
  split; [intros e H; discriminate H|].
  intros out [= <-].
  apply includes_V_VALUES in E.
  destruct m; destruct E as [-> | [-> | [-> | ->]]]; eexists;
    (split; [reflexivity|]); cbn; tauto.
Qed.

Lemma adjustVInSignature_result_range_witness :
  exists tail,
    "0xabcd1f" = slice "0xabcd00" 0 (Some (-2)) +:+ tail
    /\ (tail = "1f" \/ tail = "20").
Proof.
  exact (proj2 (adjustVInSignature_result_range eth_sign "0xabcd00")
           "0xabcd1f" eq_refl).
Defined.

Lemma adjustVInSignature_returns (m : SigningMethod) (signature out : string) :
  adjustVInSignature m signature = inr out ->
  exists v,
    includes ETHEREUM_V_VALUES (Some v) = true
    /\ parseInt16 (slice signature (-2) None) = Some v
    /\ out = slice signature 0 (Some (-2))
             +:+ byteHex (match m with
                          | eth_sign => (if v <? 27 then v + 27 else v) + 4
                          | eth_signTypedData => if v <? 27 then v + 27 else v
                          end).
Proof.
  unfold adjustVInSignature, throw, ok.
  destruct (parseInt16 (slice signature (-2) None)) as [v|];
    [|cbn [includes negb]; discriminate].
  destruct (includes ETHEREUM_V_VALUES (Some v)) eqn:E; cbn [negb]; [|discriminate].
  intros [= <-]. exists v. split; [exact E|]. split; [reflexivity|].
  apply includes_V_VALUES in E.
  destruct m; destruct E as [-> | [-> | [-> | ->]]]; reflexivity.
Qed.

(** Replaces [byteHex n], for a closed [n], by its two characters. *)
Ltac byteHex_compute :=
  match goal with
  | |- context [ byteHex ?x ] =>
      let y := eval vm_compute in (byteHex x) in
      progress change (byteHex x) with y
  end.

(** Runs the normalizer on a string that visibly ends in two digits. *)
Ltac final_byte_rewrite :=
  match goal with
  | |- context [ adjustVInSignature ?m
                   (?p +:+ String ?c1 (String ?c2 EmptyString)) ] =>
      rewrite (adjustVInSignature_final_byte m p c1 c2 _ _ eq_refl eq_refl)
  end.

(** X2.  Normalizing twice: the typed-data normalization is idempotent; the
    plain-message normalization rejects its own output; and normalizing for
    a plain message after normalizing for typed data gives what the
    plain-message normalization gives at once. *)
Theorem adjustVInSignature_twice (signature out : string) :
  (adjustVInSignature eth_signTypedData signature = inr out ->
   adjustVInSignature eth_signTypedData out = inr out
   /\ adjustVInSignature eth_sign out = adjustVInSignature eth_sign signature)
  /\ (adjustVInSignature eth_sign signature = inr out ->
      forall m, adjustVInSignature m out = inl (Error "Invalid signature")).
Proof.
  split.
  - intro H. destruct (adjustVInSignature_returns _ _ _ H) as (v & Hin & Hparse & ->).
    apply includes_V_VALUES in Hin.
    assert (Hsame : adjustVInSignature eth_sign signature
                    = inr (slice signature 0 (Some (-2))
                           +:+ byteHex ((if v <? 27 then v + 27 else v) + 4))).
    { unfold adjustVInSignature. rewrite Hparse.
      destruct Hin as [-> | [-> | [-> | ->]]]; reflexivity. }
    rewrite Hsame.
    destruct Hin as [-> | [-> | [-> | ->]]];
      repeat byteHex_compute; split;
      final_byte_rewrite; reflexivity.
  - intros H m. destruct (adjustVInSignature_returns _ _ _ H) as (v & Hin & _ & ->).
    apply includes_V_VALUES in Hin.
    destruct Hin as [-> | [-> | [-> | ->]]];
      repeat byteHex_compute;
      final_byte_rewrite; reflexivity.
Qed.

Lemma adjustVInSignature_twice_witness :
  (adjustVInSignature eth_signTypedData "0xabcd1b" = inr "0xabcd1b"
   /\ adjustVInSignature eth_sign "0xabcd1b"
      = adjustVInSignature eth_sign "0xabcd00")
  /\ adjustVInSignature eth_signTypedData "0xabcd1f"
     = inl (Error "Invalid signature").
Proof.
  split.
  - exact (proj1 (adjustVInSignature_twice "0xabcd00" "0xabcd1b") eq_refl).
  - exact (proj2 (adjustVInSignature_twice "0xabcd00" "0xabcd1f") eq_refl
             eth_signTypedData).
Defined.

(** X3.  A returned signature is as long as the one given, unless that one
    had fewer than two characters, in which case it has two. *)
Theorem adjustVInSignature_length (m : SigningMethod) (signature out : string) :
  adjustVInSignature m signature = inr out ->
  String.length out = Nat.max 2 (String.length signature).
Proof.
  intro H. destruct (adjustVInSignature_returns _ _ _ H) as (v & Hin & _ & ->).
  rewrite length_append. cbn [byteHex String.length].
  destruct (string_last2 signature) as [Hshort | (p & c1 & c2 & ->)].
  - rewrite (slice_init2_short _ Hshort). cbn [String.length]. lia.
  - rewrite slice_init2, length_append. cbn [String.length]. lia.
Qed.

Lemma adjustVInSignature_length_witness :
  String.length "0xabcd1f" = Nat.max 2 (String.length "0xabcd00")
  /\ String.length "1c" = Nat.max 2 (String.length "1").
Proof.
  split.
  - exact (adjustVInSignature_length eth_sign "0xabcd00" "0xabcd1f" eq_refl).
  - exact (adjustVInSignature_length eth_signTypedData "1" "1c" eq_refl).
Defined.

Lemma adjustVInSignature_tail (m : SigningMethod) (rest : string) (c1 c2 : ascii) :
  adjustVInSignature m (rest +:+ String c1 (String c2 EmptyString))
  = match parseInt16 (String c1 (String c2 EmptyString)) with
    | Some v =>
        if includes ETHEREUM_V_VALUES (Some v) then
          inr (rest +:+ toString16
                 (match m with
                  | eth_sign => (if v <? 27 then v + 27 else v) + 4
                  | eth_signTypedData => if v <? 27 then v + 27 else v
                  end))
        else inl (Error "Invalid signature")
    | None => inl (Error "Invalid signature")
    end.
Proof.
  unfold adjustVInSignature. rewrite slice_last2, slice_init2.
  destruct (parseInt16 (String c1 (String c2 EmptyString))) as [v|];
    [|reflexivity].
  destruct (includes ETHEREUM_V_VALUES (Some v)); [|reflexivity].
  destruct m; reflexivity.
Qed.

(** X4.  The check on the last byte is the check [parseInt] makes, so tails
    that are not two hexadecimal digits pass it: a white-space character or
    a plus sign followed by [0] or [1], the tail [-0], and [0] or [1]
    followed by a character that is no digit (unless the two read as the
    prefix [0x]); each is taken as [v = 0] or [v = 1].  The tails [0x] and
    [0X] are rejected. *)
Theorem adjustVInSignature_lenient_tail (rest : string) (c1 c2 : ascii) (d : Z) :
  d = 0 \/ d = 1 ->
  (isWhiteSpace c1 = true \/ c1 = "+"%char -> hexDigitValue c2 = Some d ->
   adjustVInSignature eth_signTypedData
     (rest +:+ String c1 (String c2 EmptyString))
   = inr (rest +:+ byteHex (d + 27)))
  /\ (hexDigitValue c1 = Some d -> hexDigitValue c2 = None ->
      ~ (c1 = "0"%char /\ (c2 = "x"%char \/ c2 = "X"%char)) ->
      adjustVInSignature eth_signTypedData
        (rest +:+ String c1 (String c2 EmptyString))
      = inr (rest +:+ byteHex (d + 27)))
  /\ adjustVInSignature eth_signTypedData (rest +:+ "-0") = inr (rest +:+ "1b")
  /\ (forall m,
        adjustVInSignature m (rest +:+ "0x") = inl (Error "Invalid signature")
        /\ adjustVInSignature m (rest +:+ "0X") = inl (Error "Invalid signature")).
Proof.
  intro Hd. split; [|split; [|split]].
  - intros Hc1 Hc2. rewrite adjustVInSignature_tail.
    assert (H2 : (c2 = "0"%char /\ d = 0) \/ (c2 = "1"%char /\ d = 1)).
    { destruct c2 as [[] [] [] [] [] [] [] []]; vm_compute in Hc2;
        try discriminate Hc2; injection Hc2 as <-;
        solve [ left; split; reflexivity | right; split; reflexivity
              | destruct Hd; discriminate ]. }
    destruct Hc1 as [Hw | ->].
    + destruct c1 as [[] [] [] [] [] [] [] []]; try discriminate Hw;
        destruct H2 as [[-> ->] | [-> ->]]; reflexivity.
    + destruct H2 as [[-> ->] | [-> ->]]; reflexivity.
  - intros Hc1 Hc2 Hnot. rewrite adjustVInSignature_tail.
    assert (H1 : (c1 = "0"%char /\ d = 0) \/ (c1 = "1"%char /\ d = 1)).
    { destruct c1 as [[] [] [] [] [] [] [] []]; vm_compute in Hc1;
        try discriminate Hc1; injection Hc1 as <-;
        solve [ left; split; reflexivity | right; split; reflexivity
              | destruct Hd; discriminate ]. }
    destruct H1 as [[-> ->] | [-> ->]];
      destruct c2 as [[] [] [] [] [] [] [] []];
      try discriminate Hc2; try reflexivity;
      exfalso; apply Hnot; (split; [reflexivity | tauto]).
  - apply (adjustVInSignature_tail eth_signTypedData rest "-" "0").
  - intro m. split.
    + apply (adjustVInSignature_tail m rest "0" "x").
    + apply (adjustVInSignature_tail m rest "0" "X").
Qed.

Lemma adjustVInSignature_lenient_tail_witness :
  adjustVInSignature eth_signTypedData "0xabcd+1" = inr "0xabcd1c"
  /\ adjustVInSignature eth_signTypedData "0xabcd1g" = inr "0xabcd1c".
Proof.
  split.
  - exact (proj1 (adjustVInSignature_lenient_tail "0xabcd" "+" "1" 1
                    (or_intror eq_refl))
             (or_intror eq_refl) eq_refl).
  - refine (proj1 (proj2 (adjustVInSignature_lenient_tail "0xabcd" "1" "g" 1
                            (or_intror eq_refl)))
              eq_refl eq_refl _).
    intros [H _]. discriminate H.
Defined.

(** ** The methods of the account: what they ask, and of whom *)

Lemma safe_signTypedData_run `{P : Primitives} (c : Closure)
    (input : SafeMessageInput) (env : Env) (h : list Request) :
  safe_signTypedData c input env h
  = match generateSafeMessageMessage input with
    | inl e => (inl e, h)
    | inr inner =>
        (rbind (signTypedDataOf env h (c_privateKey c)
                  (safeMessageTypedData c inner))
           (adjustVInSignature eth_signTypedData),
         h ++ [ SignTypedData (c_privateKey c) (safeMessageTypedData c inner) ])
    end.
Proof.
  destruct (generateSafeMessageMessage input) as [e|inner] eqn:E.
  - unfold safe_signTypedData. rewrite bind_lift, E. reflexivity.
  - apply signTypedData_run. exact E.
Qed.

Lemma safe_signMessage_run `{P : Primitives} (c : Closure)
    (message : SignableMessage) (env : Env) (h : list Request) :
  safe_signMessage c message env h
  = match hashTypedData (safeMessageTypedData c (hashMessage message)) with
    | inl e => (inl e, h)
    | inr messageHash =>
        (rbind (signMessageOf env h (c_privateKey c) (toBytes messageHash))
           (adjustVInSignature eth_sign),
         h ++ [ SignMessage (c_privateKey c) (toBytes messageHash) ])
    end.
Proof.
  destruct (hashTypedData (safeMessageTypedData c (hashMessage message)))
    as [e|messageHash] eqn:E.
  - unfold safe_signMessage. rewrite bind_lift. cbn [generateSafeMessageMessage ok].
    rewrite bind_lift, E. reflexivity.
  - apply signMessage_run. exact E.
Qed.

Lemma safe_getInitCode_run `{P : Primitives} (c : Closure) (env : Env)
    (h : list Request) :
  safe_getInitCode c env h
  = (rbind (bytecodeOf env h (c_accountAddress c)) (fun contractCode =>
       if 2 <? optionalLength contractCode then ok "0x"
       else getAccountInitCode (c_owner c) (c_addModuleLibAddress c)
              (c_safe4337ModuleAddress c) (c_safeProxyFactoryAddress c)
              (c_safeSingletonAddress c) (Some (c_saltNonce c))),
     h ++ [ GetBytecode (c_accountAddress c) ]).
Proof.
  unfold safe_getInitCode, getBytecode. rewrite bind_request.
  destruct (bytecodeOf env h (c_accountAddress c)) as [e|contractCode];
    [reflexivity|].
  cbn [rbind]. destruct (2 <? optionalLength contractCode); reflexivity.
Qed.

(** X5.  Whenever [signMessage] returns, the signature ends in [1f] or [20];
    whenever [signTypedData] returns, it ends in [1b] or [1c]: the two kinds
    of signature can be told apart by their last byte, whatever the owner's
    signer answered. *)
Theorem signatures_end_in_safe_v `{P : Primitives} (c : Closure) (env : Env)
    (h : list Request) :
  (forall message out,
     fst (signMessage (accountObject c) message env h) = inr out ->
     exists p, out = p +:+ "1f" \/ out = p +:+ "20")
  /\ (forall input out,
        fst (signTypedData (accountObject c) input env h) = inr out ->
        exists p, out = p +:+ "1b" \/ out = p +:+ "1c").
Proof.
  split.
  - intros message out. cbn [signMessage accountObject].
    rewrite safe_signMessage_run.
    destruct (hashTypedData _) as [e|messageHash]; [discriminate|].
    cbn [fst]. destruct (signMessageOf _ _ _ _) as [e|raw]; [discriminate|].
    cbn [rbind]. intro H.
    destruct (adjustVInSignature_returns _ _ _ H) as (v & Hin & _ & ->).
    exists (slice raw 0 (Some (-2))).
    apply includes_V_VALUES in Hin.
    destruct Hin as [-> | [-> | [-> | ->]]]; cbn; tauto.
  - intros input out. cbn [signTypedData accountObject].
    rewrite safe_signTypedData_run.
    destruct (generateSafeMessageMessage input) as [e|inner]; [discriminate|].
    cbn [fst]. destruct (signTypedDataOf _ _ _ _) as [e|raw]; [discriminate|].
    cbn [rbind]. intro H.
    destruct (adjustVInSignature_returns _ _ _ H) as (v & Hin & _ & ->).
    exists (slice raw 0 (Some (-2))).
    apply includes_V_VALUES in Hin.
    destruct Hin as [-> | [-> | [-> | ->]]]; cbn; tauto.
Qed.

Lemma signatures_end_in_safe_v_witness :
  exists p,
    slice exampleSignature 0 (Some (-2)) +:+ "1f" = p +:+ "1f"
    \/ slice exampleSignature 0 (Some (-2)) +:+ "1f" = p +:+ "20".
Proof.
  exact (proj1 (signatures_end_in_safe_v (P := examplePrimitives)
                  exampleClosure (exampleEnv 11155111) [])
           (M_string "hello") _ eq_refl).
Defined.

(** X6.  The SafeOp message carries the call data, the nonce and the five
    gas and fee fields of the user operation, and nothing else of it: two
    user operations that agree on these seven fields are signed alike,
    whatever their sender, init code, paymaster data and signature; and two
    that are signed with the same request agree on the seven. *)
Theorem signUserOperation_binds_seven_fields `{P : Primitives} (c : Closure)
    (a b : UserOperation) (env : Env) (h : list Request) :
  (sameSignedFields a b ->
   signUserOperation (accountObject c) a env h
   = signUserOperation (accountObject c) b env h)
  /\ (snd (signUserOperation (accountObject c) a env h)
      = snd (signUserOperation (accountObject c) b env h) ->
      sameSignedFields a b).
Proof.
  cbn [signUserOperation accountObject]. rewrite !signUserOperation_run. split.
  - intros (H1 & H2 & H3 & H4 & H5 & H6 & H7).
    unfold safeOpTypedData. rewrite H1, H2, H3, H4, H5, H6, H7. reflexivity.
  - cbn [snd]. intro H. apply app_inv_head in H.
    unfold safeOpTypedData in H. injection H as H1 H2 H3 H4 H5 H6 H7.
    repeat split; assumption.
Qed.

Lemma signUserOperation_binds_seven_fields_witness :
  signUserOperation (accountObject (P := examplePrimitives) exampleClosure)
    exampleUserOperation (exampleEnv 11155111) []
  = signUserOperation (accountObject (P := examplePrimitives) exampleClosure)
      (mkUserOperation "0x00000000000000000000000000000000000000cc" 7
         "0x1234" "0xdeadbeef" 100000 200000 50000 30 2 "0xabcd" "0xff")
      (exampleEnv 11155111) [].
Proof.
  apply (proj1 (signUserOperation_binds_seven_fields (P := examplePrimitives)
                  exampleClosure exampleUserOperation
                  (mkUserOperation "0x00000000000000000000000000000000000000cc" 7
                     "0x1234" "0xdeadbeef" 100000 200000 50000 30 2 "0xabcd" "0xff")
                  (exampleEnv 11155111) [])).
  repeat split.
Defined.

(** X7.  A failure of the chain client or of the owner's signer reaches the
    caller as it is, after the one request that failed: from the bytecode
    read in [getInitCode], from the signer in [signUserOperation],
    [signTypedData] and [signMessage]; [getNonce] returns whatever the nonce
    lookup answers. *)
Theorem upstream_failures_propagate `{P : Primitives} (c : Closure) (env : Env)
    (h : list Request) (e : Exn) :
  (bytecodeOf env h (c_accountAddress c) = inl e ->
   getInitCode (accountObject c) env h
   = (inl e, h ++ [ GetBytecode (c_accountAddress c) ]))
  /\ (forall op,
        signTypedDataOf env h (c_privateKey c) (safeOpTypedData c op) = inl e ->
        signUserOperation (accountObject c) op env h
        = (inl e, h ++ [ SignTypedData (c_privateKey c) (safeOpTypedData c op) ]))
  /\ (forall input inner,
        generateSafeMessageMessage input = inr inner ->
        signTypedDataOf env h (c_privateKey c) (safeMessageTypedData c inner)
        = inl e ->
        signTypedData (accountObject c) input env h
        = (inl e,
           h ++ [ SignTypedData (c_privateKey c) (safeMessageTypedData c inner) ]))
  /\ (forall message messageHash,
        hashTypedData (safeMessageTypedData c (hashMessage message))
        = inr messageHash ->
        signMessageOf env h (c_privateKey c) (toBytes messageHash) = inl e ->
        signMessage (accountObject c) message env h
        = (inl e, h ++ [ SignMessage (c_privateKey c) (toBytes messageHash) ]))
  /\ getNonce (accountObject c) env h
     = (accountNonceOf env h (c_accountAddress c) (c_entryPoint c),
        h ++ [ GetAccountNonce (c_accountAddress c) (c_entryPoint c) ]).
Proof.
  split; [|split; [|split; [|split]]].
  - intro H. cbn [getInitCode accountObject].
    rewrite safe_getInitCode_run, H. reflexivity.
  - intros op H. cbn [signUserOperation accountObject].
    rewrite signUserOperation_run, H. reflexivity.
  - intros input inner Hinner H. cbn [signTypedData accountObject].
    rewrite safe_signTypedData_run, Hinner, H. reflexivity.
  - intros message messageHash Hhash H. cbn [signMessage accountObject].
    rewrite safe_signMessage_run, Hhash, H. reflexivity.
  - reflexivity.
Qed.

Lemma upstream_failures_propagate_witness :
  getInitCode (accountObject (P := examplePrimitives) exampleClosure)
    (failingEnv (LibraryError "timeout")) []
  = (inl (LibraryError "timeout"),
     [ GetBytecode "0x00000000000000000000000000000000000000bb" ])
  /\ signMessage (accountObject (P := examplePrimitives) exampleClosure)
       (M_string "hello") (failingEnv (LibraryError "timeout")) []
     = (inl (LibraryError "timeout"),
        [ SignMessage "0x01" (exampleDigest "SafeMessage") ]).
Proof.
  pose proof (upstream_failures_propagate (P := examplePrimitives)
                exampleClosure (failingEnv (LibraryError "timeout")) []
                (LibraryError "timeout")) as (A & _ & _ & D & _).
  split.
  - exact (A eq_refl).
  - exact (D (M_string "hello") (exampleDigest "SafeMessage") eq_refl eq_refl).
Defined.

(** X8.  What each method asks.  [getInitCode] and [getNonce] make exactly
    one request to the chain, whatever the outcome.  [signMessage] and
    [signTypedData] make at most one request, and never one to the chain:
    signing works without the chain client.  [signTransaction],
    [encodeDeployCallData], [encodeCallData] and [getDummySignature] make
    none. *)
Theorem method_requests `{P : Primitives} (c : Closure) (env : Env)
    (h : list Request) :
  snd (getInitCode (accountObject c) env h)
  = h ++ [ GetBytecode (c_accountAddress c) ]
  /\ snd (getNonce (accountObject c) env h)
     = h ++ [ GetAccountNonce (c_accountAddress c) (c_entryPoint c) ]
  /\ (forall message,
        exists l,
          snd (signMessage (accountObject c) message env h) = h ++ l
          /\ (List.length l <= 1)%nat /\ existsb isChainIO l = false)
  /\ (forall input,
        exists l,
          snd (signTypedData (accountObject c) input env h) = h ++ l
          /\ (List.length l <= 1)%nat /\ existsb isChainIO l = false)
  /\ (forall op,
        exists l,
          snd (signUserOperation (accountObject c) op env h) = h ++ l
          /\ List.length l = 1%nat /\ existsb isChainIO l = false)
  /\ (forall a b, snd (signTransaction (accountObject c) a b env h) = h)
  /\ (forall a, snd (encodeDeployCallData (accountObject c) a env h) = h)
  /\ (forall args, snd (encodeCallData (accountObject c) args env h) = h)
  /\ getDummySignature (accountObject c) env h = (inr dummySignature, h).
Proof.
  split; [|split; [|split; [|split; [|split; [|split; [|split; [|split]]]]]]].
  - cbn [getInitCode accountObject]. rewrite safe_getInitCode_run. reflexivity.
  - reflexivity.
  - intro message. cbn [signMessage accountObject]. rewrite safe_signMessage_run.
    destruct (hashTypedData _) as [e|messageHash].
    + exists []. rewrite app_nil_r. repeat split. cbn. lia.
    + eexists [ _ ]. repeat split. cbn. lia.
  - intro input. cbn [signTypedData accountObject].
    rewrite safe_signTypedData_run.
    destruct (generateSafeMessageMessage input) as [e|inner].
    + exists []. rewrite app_nil_r. repeat split. cbn. lia.
    + eexists [ _ ]. repeat split. cbn. lia.
  - intro op. cbn [signUserOperation accountObject].
    rewrite signUserOperation_run. eexists [ _ ]. repeat split.
  - reflexivity.
  - reflexivity.
  - reflexivity.
  - reflexivity.
Qed.

(** X9.  Without an owner there is no init code: for an empty owner address
    [getAccountInitCode] throws the [Error] "Owner account not found"
    (MissingOwnerError) whatever its other arguments, before anything is
    encoded.  [getInitCode] reaches that check only for an account that is
    not deployed: on a deployed one it returns [0x] all the same. *)
Theorem missing_owner `{P : Primitives} (c : Closure) (env : Env)
    (h : list Request) (contractCode : option Hex) :
  (forall lib module factory singleton saltNonce,
     getAccountInitCode EmptyString lib module factory singleton saltNonce
     = inl (Error "Owner account not found"))
  /\ errorClass (Error "Owner account not found") = MissingOwnerError
  /\ (c_owner c = EmptyString ->
      bytecodeOf env h (c_accountAddress c) = inr contractCode ->
      getInitCode (accountObject c) env h
      = (if 2 <? optionalLength contractCode then inr "0x"
         else inl (Error "Owner account not found"),
         h ++ [ GetBytecode (c_accountAddress c) ])).
Proof.
  split; [reflexivity|]. split; [reflexivity|].
  intros Howner Hread. cbn [getInitCode accountObject].
  rewrite safe_getInitCode_run, Hread, Howner. cbn [rbind].
  destruct (2 <? optionalLength contractCode); reflexivity.
Qed.

Lemma missing_owner_witness :
  getInitCode
    (accountObject (P := examplePrimitives)
       (mkClosure "0x01" EmptyString 5 exampleAddress exampleAddress
          exampleAddress exampleAddress exampleAddress exampleAddress 0))
    (exampleEnv 5) []
  = (inl (Error "Owner account not found"), [ GetBytecode exampleAddress ]).
Proof.
  exact (proj2 (proj2 (missing_owner (P := examplePrimitives)
                         (mkClosure "0x01" EmptyString 5 exampleAddress
                            exampleAddress exampleAddress exampleAddress
                            exampleAddress exampleAddress 0)
                         (exampleEnv 5) [] None))
           eq_refl eq_refl).
Defined.

(** ** The constructor *)

Lemma getAccountAddress_history `{P : Primitives}
    (owner lib module factory singleton : Address) (saltNonce : option Z)
    (env : Env) (h : list Request) :
  snd (getAccountAddress owner lib module factory singleton saltNonce env h)
  = h ++ [ ReadContract factory "proxyCreationCode" ].
Proof.
  unfold getAccountAddress, readContract. rewrite bind_request.
  destruct (readContractOf env h factory "proxyCreationCode"); reflexivity.
Qed.

Lemma getAccountAddress_read_fails `{P : Primitives}
    (owner lib module factory singleton : Address) (saltNonce : option Z)
    (env : Env) (h : list Request) (e : Exn) :
  readContractOf env h factory "proxyCreationCode" = inl e ->
  getAccountAddress owner lib module factory singleton saltNonce env h
  = (inl e, h ++ [ ReadContract factory "proxyCreationCode" ]).
Proof.
  intro H. unfold getAccountAddress, readContract.
  rewrite bind_request, H. reflexivity.
Qed.

(** The constructor, step by step. *)
Lemma privateKeyToSafeSmartAccount_run `{P : Primitives}
    (params : SafeParameters) (env : Env) (h : list Request) :
  privateKeyToSafeSmartAccount params env h
  = match privateKeyToAccount (p_privateKey params) with
    | inl e => (inl e, h)
    | inr owner =>
    match chainIdOf env h with
    | inl e => (inl e, h ++ [ GetChainId ])
    | inr id =>
    match resolveAddresses params (numberToString id) with
    | inl e => (inl e, h ++ [ GetChainId ])
    | inr (lib, module, factory, singleton) =>
        let r :=
          getAccountAddress owner lib module factory singleton
            (Some (match p_saltNonce params with Some n => n | None => 0 end))
            env (h ++ [ GetChainId ]) in
        match fst r with
        | inl e => (inl e, snd r)
        | inr accountAddress =>
            if String.eqb accountAddress EmptyString
            then (inl (Error "Account address not found"), snd r)
            else (inr (accountObject
                         (closureOf params owner id accountAddress
                            (lib, module, factory, singleton))),
                  snd r)
        end
    end end end.
Proof.
  unfold privateKeyToSafeSmartAccount, getChainId, resolveAddresses.
  rewrite bind_lift.
  destruct (privateKeyToAccount (p_privateKey params)) as [e|owner];
    [reflexivity|].
  rewrite bind_request. destruct (chainIdOf env h) as [e|id]; [reflexivity|].
  rewrite bind_lift.
  destruct (overrideOrTable (p_addModuleLibAddress params) _ _ _ _) as [e|lib];
    [reflexivity|].
  rewrite bind_lift. cbn [rbind].
  destruct (overrideOrTable (p_safe4337ModuleAddress params) _ _ _ _)
    as [e|module]; [reflexivity|].
  rewrite bind_lift. cbn [rbind].
  destruct (overrideOrTable (p_safeProxyFactoryAddress params) _ _ _ _)
    as [e|factory]; [reflexivity|].
  rewrite bind_lift. cbn [rbind].
  destruct (overrideOrTable (p_safeSingletonAddress params) _ _ _ _)
    as [e|singleton]; [reflexivity|].
  cbn [rbind ok]. unfold bind at 1. cbv zeta.
  destruct (getAccountAddress owner lib module factory singleton _ env _)
    as [[e|accountAddress] h']; [reflexivity|].
  cbn [fst snd]. destruct (String.eqb accountAddress EmptyString); reflexivity.
Qed.

Lemma overrideOrTable_inr (override : option Address) (v : SafeVersion)
    (chainIdString : string) (field : NetworkAddresses -> Address)
    (fieldName : string) (a : Address) :
  overrideOrTable override v chainIdString field fieldName = inr a ->
  override = Some a
  \/ (override = None
      /\ exists entry,
           lookup chainIdString (SAFE_ADDRESSES_MAP v) = Some entry
           /\ a = field entry).
Proof.
  unfold overrideOrTable. destruct override as [o|].
  - intros [= <-]. left. reflexivity.
  - destruct (lookup chainIdString (SAFE_ADDRESSES_MAP v)) as [entry|];
      [|discriminate].
    intros [= <-]. right. split; [reflexivity|]. exists entry. split; reflexivity.
Qed.

(** X10.  The requests of the constructor.  It asks the chain for its id,
    then the factory for its creation code, and nothing else: never the
    signer, never the bytecode of the account.  A key the library rejects
    fails it before any request; a failure of either read reaches the caller
    as it is, after the requests made so far; and when it returns an
    account, both reads were made. *)
Theorem constructor_requests `{P : Primitives} (params : SafeParameters)
    (env : Env) (h : list Request) :
  (forall e,
     privateKeyToAccount (p_privateKey params) = inl e ->
     privateKeyToSafeSmartAccount params env h = (inl e, h))
  /\ (forall owner e,
        privateKeyToAccount (p_privateKey params) = inr owner ->
        chainIdOf env h = inl e ->
        privateKeyToSafeSmartAccount params env h = (inl e, h ++ [ GetChainId ]))
  /\ (forall owner id lib module factory singleton e,
        privateKeyToAccount (p_privateKey params) = inr owner ->
        chainIdOf env h = inr id ->
        resolveAddresses params (numberToString id)
        = inr (lib, module, factory, singleton) ->
        readContractOf env (h ++ [ GetChainId ]) factory "proxyCreationCode"
        = inl e ->
        privateKeyToSafeSmartAccount params env h
        = (inl e,
           h ++ [ GetChainId; ReadContract factory "proxyCreationCode" ]))
  /\ (exists l,
        snd (privateKeyToSafeSmartAccount params env h) = h ++ l
        /\ (List.length l <= 2)%nat /\ forallb isChainIO l = true)
  /\ (forall account,
        fst (privateKeyToSafeSmartAccount params env h) = inr account ->
        exists factory,
          snd (privateKeyToSafeSmartAccount params env h)
          = h ++ [ GetChainId; ReadContract factory "proxyCreationCode" ]).
Proof.
  rewrite privateKeyToSafeSmartAccount_run.
  split; [|split; [|split; [|split]]].
  - intros e ->. reflexivity.
  - intros owner e -> ->. reflexivity.
  - intros owner id lib module factory singleton e -> -> -> Hread. cbv zeta.
    rewrite (getAccountAddress_read_fails _ _ _ _ _ _ _ _ e Hread).
    cbn [fst snd]. now rewrite <- app_assoc.
  - destruct (privateKeyToAccount (p_privateKey params)) as [e|owner].
    { exists []. rewrite app_nil_r. repeat split. cbn. lia. }
    destruct (chainIdOf env h) as [e|id].
    { exists [ GetChainId ]. repeat split. cbn. lia. }
    destruct (resolveAddresses params (numberToString id))
      as [e|[[[lib module] factory] singleton]].
    { exists [ GetChainId ]. repeat split. cbn. lia. }
    cbv zeta. exists [ GetChainId; ReadContract factory "proxyCreationCode" ].
    split; [|split; [cbn; lia | reflexivity]].
    destruct (fst (getAccountAddress _ _ _ _ _ _ _ _)) as [e|a];
      [|destruct (String.eqb a EmptyString)];
      cbn [snd]; rewrite getAccountAddress_history, <- app_assoc; reflexivity.
  - intros account.
    destruct (privateKeyToAccount (p_privateKey params)) as [e|owner];
      [discriminate|].
    destruct (chainIdOf env h) as [e|id]; [discriminate|].
    destruct (resolveAddresses params (numberToString id))
      as [e|[[[lib module] factory] singleton]]; [discriminate|].
    cbv zeta.
    destruct (fst (getAccountAddress _ _ _ _ _ _ _ _)) as [e|a];
      [discriminate|].
    destruct (String.eqb a EmptyString); [discriminate|].
    intros _. exists factory. cbn [snd].
    rewrite getAccountAddress_history, <- app_assoc. reflexivity.
Qed.

Lemma constructor_requests_witness :
  privateKeyToSafeSmartAccount (P := examplePrimitives) exampleParameters
    (failingEnv (LibraryError "timeout")) []
  = (inl (LibraryError "timeout"), [ GetChainId ])
  /\ exists factory,
       snd (privateKeyToSafeSmartAccount (P := examplePrimitives)
              exampleParameters (exampleEnv 5) [])
       = [ GetChainId; ReadContract factory "proxyCreationCode" ].
Proof.
  split.
  - exact (proj1 (proj2 (constructor_requests (P := examplePrimitives)
                           exampleParameters
                           (failingEnv (LibraryError "timeout")) []))
             exampleAddress (LibraryError "timeout") eq_refl eq_refl).
  - exact (proj2 (proj2 (proj2 (proj2
             (constructor_requests (P := examplePrimitives) exampleParameters
                (exampleEnv 5) []))))
             _ eq_refl).
Defined.

Lemma resolveAddresses_inr (params : SafeParameters) (chainIdString : string)
    (lib module factory singleton : Address) :
  resolveAddresses params chainIdString = inr (lib, module, factory, singleton) ->
  overrideOrTable (p_addModuleLibAddress params) (p_safeVersion params)
    chainIdString ADD_MODULES_LIB_ADDRESS "ADD_MODULES_LIB_ADDRESS" = inr lib
  /\ overrideOrTable (p_safe4337ModuleAddress params) (p_safeVersion params)
       chainIdString SAFE_4337_MODULE_ADDRESS "SAFE_4337_MODULE_ADDRESS"
     = inr module
  /\ overrideOrTable (p_safeProxyFactoryAddress params) (p_safeVersion params)
       chainIdString SAFE_PROXY_FACTORY_ADDRESS "SAFE_PROXY_FACTORY_ADDRESS"
     = inr factory
  /\ overrideOrTable (p_safeSingletonAddress params) (p_safeVersion params)
       chainIdString SAFE_SINGLETON_ADDRESS "SAFE_SINGLETON_ADDRESS"
     = inr singleton.
Proof.
  unfold resolveAddresses.
  destruct (overrideOrTable (p_addModuleLibAddress params) _ _ _ _) as [e|a1];
    [discriminate|]. cbn [rbind].
  destruct (overrideOrTable (p_safe4337ModuleAddress params) _ _ _ _) as [e|a2];
    [discriminate|]. cbn [rbind].
  destruct (overrideOrTable (p_safeProxyFactoryAddress params) _ _ _ _) as [e|a3];
    [discriminate|]. cbn [rbind].
  destruct (overrideOrTable (p_safeSingletonAddress params) _ _ _ _) as [e|a4];
    [discriminate|]. cbn [rbind ok].
  intros [= <- <- <- <-]. repeat split.
Qed.

(** X11.  What a returned account is made of.  When the constructor returns
    an account, the owner is the address of the private key, the chain
    answered with an id, each of the four contract addresses is the override
    given for it, or else the entry of the table for the version and that
    chain id, and the address of the account, which is also its public key
    and is not empty, is what [getAccountAddress] returned for them and the
    salt nonce (0 when none is given).  The entry point is the one given and
    the source tag is "privateKeySafeSmartAccount". *)
Theorem constructor_returns `{P : Primitives} (params : SafeParameters)
    (env : Env) (h : list Request) (account : SmartAccount) :
  fst (privateKeyToSafeSmartAccount params env h) = inr account ->
  exists owner id lib module factory singleton,
    let resolved (override : option Address)
                 (field : NetworkAddresses -> Address) (a : Address) :=
      override = Some a
      \/ (override = None
          /\ exists entry,
               lookup (numberToString id)
                 (SAFE_ADDRESSES_MAP (p_safeVersion params)) = Some entry
               /\ a = field entry) in
    privateKeyToAccount (p_privateKey params) = inr owner
    /\ chainIdOf env h = inr id
    /\ resolved (p_addModuleLibAddress params) ADD_MODULES_LIB_ADDRESS lib
    /\ resolved (p_safe4337ModuleAddress params) SAFE_4337_MODULE_ADDRESS module
    /\ resolved (p_safeProxyFactoryAddress params) SAFE_PROXY_FACTORY_ADDRESS factory
    /\ resolved (p_safeSingletonAddress params) SAFE_SINGLETON_ADDRESS singleton
    /\ fst (getAccountAddress owner lib module factory singleton
              (Some (match p_saltNonce params with Some n => n | None => 0 end))
              env (h ++ [ GetChainId ]))
       = inr (address account)
    /\ address account <> EmptyString
    /\ publicKey account = address account
    /\ entryPoint account = p_entryPoint params
    /\ source account = "privateKeySafeSmartAccount"
    /\ account
       = accountObject
           (mkClosure (p_privateKey params) owner id (address account)
              (p_entryPoint params) lib module factory singleton
              (match p_saltNonce params with Some n => n | None => 0 end)).
Proof.
  rewrite privateKeyToSafeSmartAccount_run.
  destruct (privateKeyToAccount (p_privateKey params)) as [e|owner];
    [discriminate|].
  destruct (chainIdOf env h) as [e|id]; [discriminate|].
  destruct (resolveAddresses params (numberToString id))
    as [e|[[[lib module] factory] singleton]] eqn:Hres; [discriminate|].
  cbv zeta.
  destruct (fst (getAccountAddress _ _ _ _ _ _ _ _)) as [e|a] eqn:Haddr;
    [discriminate|].
  destruct (String.eqb a EmptyString) eqn:Hne; [discriminate|].
  cbn [fst]. intros [= <-].
  apply String.eqb_neq in Hne.
  destruct (resolveAddresses_inr _ _ _ _ _ _ Hres) as (H1 & H2 & H3 & H4).
  exists owner, id, lib, module, factory, singleton.
  cbn [address publicKey entryPoint source accountObject closureOf
       c_accountAddress c_entryPoint].
  split; [reflexivity|]. split; [reflexivity|].
  split; [exact (overrideOrTable_inr _ _ _ _ _ _ H1)|].
  split; [exact (overrideOrTable_inr _ _ _ _ _ _ H2)|].
  split; [exact (overrideOrTable_inr _ _ _ _ _ _ H3)|].
  split; [exact (overrideOrTable_inr _ _ _ _ _ _ H4)|].
  split; [exact Haddr|]. split; [exact Hne|].
  repeat split.
Qed.

Lemma constructor_returns_witness :
  exists account,
    fst (privateKeyToSafeSmartAccount (P := examplePrimitives)
           exampleParameters (exampleEnv 5) []) = inr account
    /\ entryPoint account = "0x00000000000000000000000000000000000000ee"
    /\ publicKey account = address account.
Proof.
  eexists. split; [reflexivity|].
  destruct (constructor_returns (P := examplePrimitives) exampleParameters
              (exampleEnv 5) [] _ eq_refl)
    as (owner & id & lib & module & factory & singleton & H).
  cbv zeta in H.
  destruct H as (_ & _ & _ & _ & _ & _ & _ & _ & Hpk & Hep & _).
  split; [exact Hep | exact Hpk].
Defined.

(** X12.  Overrides and the table.  On a chain the table does not list, the
    constructor fails as soon as it needs an address without override: the
    [TypeError] names the first such address in the order lib, module,
    factory, singleton, and only the chain id has been read.  With all four
    overrides the table is not consulted: on any chain at all the
    constructor goes on to read the creation code from the factory given. *)
Theorem overrides_before_table `{P : Primitives} (params : SafeParameters)
    (env : Env) (h : list Request) (owner : Address) (id : Z) :
  privateKeyToAccount (p_privateKey params) = inr owner ->
  chainIdOf env h = inr id ->
  (forall fieldName,
     lookup (numberToString id) (SAFE_ADDRESSES_MAP (p_safeVersion params)) = None ->
     firstMissingOverride params = Some fieldName ->
     privateKeyToSafeSmartAccount params env h
     = (inl (TypeError ("Cannot read properties of undefined (reading '"
                        +:+ fieldName +:+ "')")),
        h ++ [ GetChainId ]))
  /\ (forall lib module factory singleton,
        p_addModuleLibAddress params = Some lib ->
        p_safe4337ModuleAddress params = Some module ->
        p_safeProxyFactoryAddress params = Some factory ->
        p_safeSingletonAddress params = Some singleton ->
        snd (privateKeyToSafeSmartAccount params env h)
        = h ++ [ GetChainId; ReadContract factory "proxyCreationCode" ]
        /\ forall account,
             fst (privateKeyToSafeSmartAccount params env h) = inr account ->
             account
             = accountObject
                 (mkClosure (p_privateKey params) owner id (address account)
                    (p_entryPoint params) lib module factory singleton
                    (match p_saltNonce params with Some n => n | None => 0 end))).
Proof.
  intros Howner Hid. rewrite privateKeyToSafeSmartAccount_run, Howner, Hid.
  split.
  - intros fieldName Hlookup Hfirst.
    unfold resolveAddresses, overrideOrTable, firstMissingOverride in *.
    rewrite Hlookup.
    destruct (p_addModuleLibAddress params);
      [|injection Hfirst as <-; reflexivity].
    destruct (p_safe4337ModuleAddress params);
      [|injection Hfirst as <-; reflexivity].
    destruct (p_safeProxyFactoryAddress params);
      [|injection Hfirst as <-; reflexivity].
    destruct (p_safeSingletonAddress params);
      [discriminate Hfirst | injection Hfirst as <-; reflexivity].
  - intros lib module factory singleton H1 H2 H3 H4.
    unfold resolveAddresses, overrideOrTable. rewrite H1, H2, H3, H4.
    cbn [rbind ok]. cbv zeta.
    destruct (fst (getAccountAddress _ _ _ _ _ _ _ _)) as [e|a] eqn:Haddr.
    + cbn [fst snd]. rewrite getAccountAddress_history, <- app_assoc.
      split; [reflexivity | discriminate].
    + destruct (String.eqb a EmptyString); cbn [fst snd];
        rewrite getAccountAddress_history, <- app_assoc;
        (split; [reflexivity|]); [discriminate|].
      intros account [= <-]. reflexivity.
Qed.

Lemma overrides_before_table_witness :
  privateKeyToSafeSmartAccount (P := examplePrimitives)
    (mkSafeParameters "0x01" v1_4_1 exampleAddress
       (Some exampleAddress) (Some exampleAddress) None (Some exampleAddress)
       None)
    (exampleEnv 1) []
  = (inl (TypeError
            "Cannot read properties of undefined (reading 'SAFE_PROXY_FACTORY_ADDRESS')"),
     [ GetChainId ])
  /\ snd (privateKeyToSafeSmartAccount (P := examplePrimitives)
            (mkSafeParameters "0x01" v1_4_1 exampleAddress
               (Some exampleAddress) (Some exampleAddress)
               (Some "0x00000000000000000000000000000000000000fa")
               (Some exampleAddress) None)
            (exampleEnv 1) [])
     = [ GetChainId;
         ReadContract "0x00000000000000000000000000000000000000fa"
           "proxyCreationCode" ].
Proof.
  split.
  - exact (proj1 (overrides_before_table (P := examplePrimitives)
                    (mkSafeParameters "0x01" v1_4_1 exampleAddress
                       (Some exampleAddress) (Some exampleAddress) None
                       (Some exampleAddress) None)
                    (exampleEnv 1) [] exampleAddress 1 eq_refl eq_refl)
             "SAFE_PROXY_FACTORY_ADDRESS" eq_refl eq_refl).
  - exact (proj1 (proj2 (overrides_before_table (P := examplePrimitives)
                           (mkSafeParameters "0x01" v1_4_1 exampleAddress
                              (Some exampleAddress) (Some exampleAddress)
                              (Some "0x00000000000000000000000000000000000000fa")
                              (Some exampleAddress) None)
                           (exampleEnv 1) [] exampleAddress 1 eq_refl eq_refl)
                    exampleAddress exampleAddress
                    "0x00000000000000000000000000000000000000fa" exampleAddress
                    eq_refl eq_refl eq_refl eq_refl)).
Defined.

Lemma getAccountAddress_stages `{P : Primitives}
    (owner lib module factory singleton : Address) (saltNonce : option Z)
    (env : Env) (h : list Request) (account : Address) :
  fst (getAccountAddress owner lib module factory singleton saltNonce env h)
  = inr account ->
  exists proxyCreationCode s initializer,
    readContractOf env h factory "proxyCreationCode" = inr proxyCreationCode
    /\ hexToBigInt singleton = inr s
    /\ getInitializerCode owner lib module = inr initializer.
Proof.
  unfold getAccountAddress, readContract. rewrite bind_request.
  destruct (readContractOf env h factory "proxyCreationCode") as [e|code];
    [discriminate|].
  unfold lift. cbn [fst].
  destruct (hexToBigInt singleton) as [e|s]; [discriminate|]. cbn [rbind].
  destruct (encodePacked [ P_bytes code; P_uint256 s ]) as [e|d]; [discriminate|].
  cbn [rbind].
  destruct (getInitializerCode owner lib module) as [e|initializer];
    [discriminate|].
  intros _. exists code, s, initializer. repeat split.
Qed.

Lemma getAccountAddress_inr `{P : Primitives}
    (owner lib module factory singleton : Address) (saltNonce : option Z)
    (env : Env) (h : list Request) (proxyCreationCode initializer : Hex)
    (s : Z) (account : Address) :
  readContractOf env h factory "proxyCreationCode" = inr proxyCreationCode ->
  isHex proxyCreationCode = true ->
  getInitializerCode owner lib module = inr initializer ->
  hexToBigInt singleton = inr s ->
  fst (getAccountAddress owner lib module factory singleton saltNonce env h)
  = inr account ->
  getContractAddress
    (mkCreate2 factory
       (keccak256
          (concatBytes (keccak256 initializer)
             (uint256Word (match saltNonce with Some n => n | None => 0 end))))
       (concatBytes proxyCreationCode (uint256Word s))
       "CREATE2")
  = inr account.
Proof.
  intros Hread Hcode Hinit Hs Hret.
  rewrite (getAccountAddress_run _ _ _ _ _ _ _ _ _ _ Hread Hcode Hinit) in Hret.
  cbn [fst] in Hret. rewrite Hs in Hret. cbn [rbind] in Hret.
  destruct (numberToHex32 s) as [e|w] eqn:Hw; [discriminate|].
  cbn [rbind] in Hret.
  destruct (numberToHex32 (match saltNonce with Some n => n | None => 0 end))
    as [e|w'] eqn:Hw'; [discriminate|].
  cbn [rbind] in Hret.
  rewrite (numberToHex32_word _ (numberToHex32_returns _ _ Hw)) in Hw.
  rewrite (numberToHex32_word _ (numberToHex32_returns _ _ Hw')) in Hw'.
  injection Hw as <-. injection Hw' as <-. exact Hret.
Qed.

(** X13.  The init code deploys the account whose address is reported.  For
    an account the constructor returned: the initializer builder succeeded
    on the owner and the resolved addresses; the reported address is CREATE2
    from the resolved factory with the salt made of that initializer and the
    salt nonce and the bytecode made of the factory's creation code and the
    resolved singleton; and, as long as the account is not deployed,
    [getInitCode] returns that same factory address followed by the call
    createProxyWithNonce(that singleton, that initializer, that nonce), so
    it fails only if that last encoding does. *)
Theorem init_code_matches_address `{P : Primitives} (params : SafeParameters)
    (env : Env) (h : list Request) (account : SmartAccount) :
  fst (privateKeyToSafeSmartAccount params env h) = inr account ->
  exists owner id lib module factory singleton initializer proxyCreationCode s,
    let nonce := match p_saltNonce params with Some n => n | None => 0 end in
    privateKeyToAccount (p_privateKey params) = inr owner
    /\ resolveAddresses params (numberToString id)
       = inr (lib, module, factory, singleton)
    /\ getInitializerCode owner lib module = inr initializer
    /\ readContractOf env (h ++ [ GetChainId ]) factory "proxyCreationCode"
       = inr proxyCreationCode
    /\ hexToBigInt singleton = inr s
    /\ (isHex proxyCreationCode = true ->
        getContractAddress
          (mkCreate2 factory
             (keccak256 (concatBytes (keccak256 initializer) (uint256Word nonce)))
             (concatBytes proxyCreationCode (uint256Word s))
             "CREATE2")
        = inr (address account))
    /\ (forall env2 h2 contractCode,
          owner <> EmptyString ->
          bytecodeOf env2 h2 (address account) = inr contractCode ->
          optionalLength contractCode <= 2 ->
          getInitCode account env2 h2
          = (rbind
               (encodeFunctionData createProxyWithNonceAbi "createProxyWithNonce"
                  [ V_address singleton; V_bytes initializer; V_uint nonce ])
               (fun callData => ok (concatHex [ factory; callData ])),
             h2 ++ [ GetBytecode (address account) ])).
Proof.
  rewrite privateKeyToSafeSmartAccount_run.
  destruct (privateKeyToAccount (p_privateKey params)) as [e|owner];
    [discriminate|].
  destruct (chainIdOf env h) as [e|id]; [discriminate|].
  destruct (resolveAddresses params (numberToString id))
    as [e|[[[lib module] factory] singleton]] eqn:Hres; [discriminate|].
  cbv zeta.
  destruct (fst (getAccountAddress _ _ _ _ _ _ _ _)) as [e|a] eqn:Haddr;
    [discriminate|].
  destruct (String.eqb a EmptyString) eqn:Hne; [discriminate|].
  cbn [fst]. intros [= <-].
  destruct (getAccountAddress_stages _ _ _ _ _ _ _ _ _ Haddr)
    as (code & s & initializer & Hread & Hs & Hinit).
  exists owner, id, lib, module, factory, singleton, initializer, code, s.
  cbn [address accountObject closureOf c_accountAddress].
  split; [reflexivity|]. split; [exact Hres|]. split; [exact Hinit|].
  split; [exact Hread|]. split; [exact Hs|]. split.
  - intro Hcode.
    exact (getAccountAddress_inr _ _ _ _ _ _ _ _ _ _ _ _ Hread Hcode Hinit Hs Haddr).
  - intros env2 h2 contractCode Howner Hcode Hlen.
    cbn [getInitCode accountObject]. rewrite safe_getInitCode_run.
    cbn [closureOf c_accountAddress c_owner c_addModuleLibAddress
         c_safe4337ModuleAddress c_safeProxyFactoryAddress
         c_safeSingletonAddress c_saltNonce].
    rewrite Hcode. cbn [rbind].
    replace (2 <? optionalLength contractCode) with false
      by (symmetry; apply Z.ltb_ge; exact Hlen).
    unfold getAccountInitCode.
    replace (String.eqb owner EmptyString) with false
      by (symmetry; apply String.eqb_neq; exact Howner).
    rewrite Hinit. reflexivity.
Qed.

Lemma init_code_matches_address_witness :
  exists account,
    fst (privateKeyToSafeSmartAccount (P := examplePrimitives)
           exampleParameters (exampleEnv 5) []) = inr account
    /\ exists initCode,
         fst (getInitCode account (exampleEnv 5) []) = inr initCode.
Proof.
  eexists. split; [reflexivity|].
  destruct (init_code_matches_address (P := examplePrimitives)
              exampleParameters (exampleEnv 5) [] _ eq_refl)
    as (owner & id & lib & module & factory & singleton & initializer & code
        & s & H).
  cbv zeta in H.
  destruct H as (Howner & _ & _ & _ & _ & _ & Hinit).
  injection Howner as <-.
  eexists.
  rewrite (Hinit (exampleEnv 5) [] None ltac:(discriminate) eq_refl
             ltac:(cbn; lia)).
  reflexivity.
Defined.

(** X14.  The entry point has no part in the address: two constructions that
    differ in the entry point only make the same requests and either fail
    alike or return accounts with the same address, each with its own entry
    point. *)
Theorem address_independent_of_entry_point `{P : Primitives}
    (privateKey : Hex) (v : SafeVersion) (entryPoint1 entryPoint2 : Address)
    (lib module factory singleton : option Address) (saltNonce : option Z)
    (env : Env) (h : list Request) :
  let run (ep : Address) :=
    privateKeyToSafeSmartAccount
      (mkSafeParameters privateKey v ep lib module factory singleton saltNonce)
      env h in
  snd (run entryPoint1) = snd (run entryPoint2)
  /\ match fst (run entryPoint1), fst (run entryPoint2) with
     | inr a1, inr a2 =>
         address a1 = address a2
         /\ entryPoint a1 = entryPoint1 /\ entryPoint a2 = entryPoint2
     | inl e1, inl e2 => e1 = e2
     | _, _ => False
     end.
Proof.
  cbv beta zeta. rewrite !privateKeyToSafeSmartAccount_run.
  cbn [p_privateKey p_saltNonce].
  destruct (privateKeyToAccount privateKey) as [e|owner];
    [split; reflexivity|].
  destruct (chainIdOf env h) as [e|id]; [split; reflexivity|].
  change (resolveAddresses
            (mkSafeParameters privateKey v entryPoint2 lib module factory
               singleton saltNonce) (numberToString id))
    with (resolveAddresses
            (mkSafeParameters privateKey v entryPoint1 lib module factory
               singleton saltNonce) (numberToString id)).
  destruct (resolveAddresses _ (numberToString id))
    as [e|[[[lib' module'] factory'] singleton']]; [split; reflexivity|].
  cbv zeta.
  destruct (fst (getAccountAddress _ _ _ _ _ _ _ _)) as [e|a];
    [split; reflexivity|].
  destruct (String.eqb a EmptyString); split; try reflexivity.
  cbn. repeat split.
Qed.

(** X15.  A salt nonce that does not fit 256 bits, negative or too large,
    makes [getAccountAddress] fail with [IntegerOutOfRangeError] once the
    creation code is read and the initializer built, for a singleton that is
    an address; and no construction with such a nonce returns an account
    (here for a creation code that is a [Hex]). *)
Theorem saltNonce_out_of_range `{P : Primitives}
    (owner lib module factory singleton : Address) (n : Z) (env : Env)
    (h : list Request) (proxyCreationCode initializer : Hex) :
  n < 0 \/ maxUint256 < n ->
  readContractOf env h factory "proxyCreationCode" = inr proxyCreationCode ->
  isHex proxyCreationCode = true ->
  getInitializerCode owner lib module = inr initializer ->
  (isAddress singleton = true ->
   getAccountAddress owner lib module factory singleton (Some n) env h
   = (inl (IntegerOutOfRangeError n),
      h ++ [ ReadContract factory "proxyCreationCode" ]))
  /\ (forall account,
        fst (getAccountAddress owner lib module factory singleton (Some n) env h)
        <> inr account).
Proof.
  intros Hn Hread Hcode Hinit.
  rewrite (getAccountAddress_run _ _ _ _ _ _ _ _ _ _ Hread Hcode Hinit).
  assert (Hthrow : numberToHex32 n = inl (IntegerOutOfRangeError n)).
  { unfold numberToHex32.
    replace ((maxUint256 <? n) || (n <? 0)) with true; [reflexivity|].
    symmetry. apply orb_true_iff.
    destruct Hn; [right; apply Z.ltb_lt | left; apply Z.ltb_lt]; assumption. }
  split.
  - intro Haddr. destruct (hexToBigInt_address _ Haddr) as [-> Hrange].
    cbn [rbind]. rewrite numberToHex32_word.
    + cbn [rbind]. rewrite Hthrow. reflexivity.
    + unfold maxUint256. change (2 ^ 256) with (16 ^ 40 * 16 ^ 24).
      assert (0 < 16 ^ 40) by reflexivity.
      assert (1 <= 16 ^ 24) by (vm_compute; discriminate). nia.
  - intro account. cbn [fst].
    destruct (hexToBigInt singleton) as [e|s]; [discriminate|]. cbn [rbind].
    destruct (numberToHex32 s) as [e|w]; [discriminate|]. cbn [rbind].
    rewrite Hthrow. discriminate.
Qed.

Lemma saltNonce_out_of_range_witness :
  getAccountAddress (P := examplePrimitives) exampleAddress
    "0x191EFDC03615B575922289DC339F4c70aC5C30Af"
    "0x39E54Bb2b3Aa444b4B39DEe15De3b7809c36Fc38"
    "0x4e1DCf7AD4e460CfD30791CCC4F9c8a4f820ec67"
    "0x41675C099F32341bf84BFc5382aF534df5C7461a" (Some (-1))
    (exampleEnv 11155111) []
  = (inl (IntegerOutOfRangeError (-1)),
     [ ReadContract "0x4e1DCf7AD4e460CfD30791CCC4F9c8a4f820ec67"
         "proxyCreationCode" ]).
Proof.
  exact (proj1 (saltNonce_out_of_range (P := examplePrimitives) exampleAddress
                  "0x191EFDC03615B575922289DC339F4c70aC5C30Af"
                  "0x39E54Bb2b3Aa444b4B39DEe15De3b7809c36Fc38"
                  "0x4e1DCf7AD4e460CfD30791CCC4F9c8a4f820ec67"
                  "0x41675C099F32341bf84BFc5382aF534df5C7461a" (-1)
                  (exampleEnv 11155111) [] "0x6080" "0x0000000500000008"
                  (or_introl eq_refl) eq_refl eq_refl eq_refl)
           eq_refl).
Defined.

(** ** More on the ordering of signatures *)

Lemma sort_of_sorted `{P : Primitives} (l : list SignerSignature) :
  StronglySorted signerLe l -> sort compareSigners l = l.
Proof.
  induction l as [|x l IH]; intro Hs; [reflexivity|].
  inversion Hs as [|? ? Hl Hx]; subst.
  cbn [sort]. rewrite (IH Hl).
  destruct l as [|y l]; [reflexivity|].
  cbn [insertBy]. rewrite compareSigners_le.
  inversion Hx as [|? ? Hxy _]; subst.
  unfold signerLe in Hxy. now rewrite Hxy.
Qed.

Lemma same_key_same_pair `{P : Primitives} (l : list SignerSignature) (a b : SignerSignature) :
  NoDup (map signerKey l) -> In a l -> In b l -> signerKey a = signerKey b ->
  a = b.
Proof.
  induction l as [|x l IH]; intros Hnd Ha Hb Hkey; [contradiction|].
  cbn [map] in Hnd. inversion Hnd as [|? ? Hnot Hnd']; subst.
  destruct Ha as [<-|Ha], Hb as [<-|Hb].
  - reflexivity.
  - exfalso. apply Hnot. rewrite Hkey. apply in_map. exact Hb.
  - exfalso. apply Hnot. rewrite <- Hkey. apply in_map. exact Ha.
  - apply IH; assumption.
Qed.

(** Two sorted arrangements of pairs with distinct keys are the same. *)
Lemma sorted_unique `{P : Primitives} (l1 : list SignerSignature) :
  forall l2,
    StronglySorted signerLe l1 -> StronglySorted signerLe l2 ->
    Permutation l1 l2 -> NoDup (map signerKey l1) -> l1 = l2.
Proof.
  induction l1 as [|x l1 IH]; intros l2 Hs1 Hs2 Hperm Hnd.
  - apply Permutation_nil in Hperm. now subst.
  - destruct l2 as [|y l2].
    { apply Permutation_sym, Permutation_nil in Hperm. discriminate. }
    inversion Hs1 as [|? ? Hs1' Hx]; subst.
    inversion Hs2 as [|? ? Hs2' Hy]; subst.
    assert (Hxy : signerLe x y).
    { assert (Hin : In y (x :: l1))
        by (apply (Permutation_in y (Permutation_sym Hperm)); left; reflexivity).
      destruct Hin as [<-|Hin]; [apply signerLe_same_key; reflexivity|].
      apply (proj1 (Forall_forall _ _) Hx y Hin). }
    assert (Hyx : signerLe y x).
    { assert (Hin : In x (y :: l2))
        by (apply (Permutation_in x Hperm); left; reflexivity).
      destruct Hin as [<-|Hin]; [apply signerLe_same_key; reflexivity|].
      apply (proj1 (Forall_forall _ _) Hy x Hin). }
    assert (Heq : x = y).
    { apply (same_key_same_pair (x :: l1)); try assumption.
      - left. reflexivity.
      - apply (Permutation_in y (Permutation_sym Hperm)). left. reflexivity.
      - apply String.leb_antisym; assumption. }
    subst y. f_equal.
    apply IH; try assumption.
    + apply (Permutation_cons_inv Hperm).
    + cbn [map] in Hnd. inversion Hnd; assumption.
Qed.

(** X16.  When no two signers are tied by the comparison, that is when the
    sort keys of their lower-cased addresses are pairwise different, the
    bytes do not depend on the order in which the pairs are given: any
    rearrangement of the array gives the same concatenation, in every
    collation. *)
Theorem sortAndConcat_order_independent `{P : Primitives} (l1 l2 : list SignerSignature) :
  Permutation l1 l2 -> NoDup (map signerKey l1) ->
  sortAndConcat l1 = sortAndConcat l2.
Proof.
  intros Hperm Hnd. unfold sortAndConcat. f_equal.
  apply sorted_unique.
  - apply sort_sorted.
  - apply sort_sorted.
  - eapply perm_trans; [apply Permutation_sym, sort_perm|].
    eapply perm_trans; [exact Hperm | apply sort_perm].
  - apply (Permutation_NoDup (l := map signerKey l1)); [|exact Hnd].
    apply Permutation_map, sort_perm.
Qed.

Lemma sortAndConcat_order_independent_witness :
  sortAndConcat (P := welshPrimitives)
    [ mkSignerSignature "0xFF01" "0xcc"; mkSignerSignature "0x0a02" "0xaa";
      mkSignerSignature "0xB003" "0xbb" ]
  = sortAndConcat (P := welshPrimitives)
      [ mkSignerSignature "0xB003" "0xbb"; mkSignerSignature "0xFF01" "0xcc";
        mkSignerSignature "0x0a02" "0xaa" ].
Proof.
  apply (sortAndConcat_order_independent (P := welshPrimitives)).
  - apply Permutation_sym.
    apply (Permutation_cons_app
             [ mkSignerSignature "0xFF01" "0xcc";
               mkSignerSignature "0x0a02" "0xaa" ] []).
    rewrite app_nil_r. apply Permutation_refl.
  - cbn. repeat constructor; cbn; intuition discriminate.
Defined.

(** X17.  Sorting is idempotent, and an array that is already in ascending
    order for the comparison the sort uses ([localeCompare] of the
    lower-cased signers, in the collation of the runtime) is concatenated as
    it stands. *)
Theorem sortAndConcat_of_sorted `{P : Primitives} (l : list SignerSignature) :
  sort compareSigners (sort compareSigners l) = sort compareSigners l
  /\ sortAndConcat (sort compareSigners l) = sortAndConcat l
  /\ (StronglySorted signerLe l ->
      sortAndConcat l = "0x" +:+ signatureBodies l).
Proof.
  assert (H : sort compareSigners (sort compareSigners l) = sort compareSigners l)
    by (apply sort_of_sorted, sort_sorted).
  split; [exact H|]. split.
  - unfold sortAndConcat. now rewrite H.
  - intro Hs. unfold sortAndConcat. rewrite (sort_of_sorted l Hs).
    apply appendSignatures_bodies.
Qed.

Lemma sortAndConcat_of_sorted_witness :
  sortAndConcat (P := welshPrimitives)
    [ mkSignerSignature "0xde02" "0xaa"; mkSignerSignature "0xDD03" "0xbb" ]
  = "0xaabb".
Proof.
  apply (proj2 (proj2 (sortAndConcat_of_sorted (P := welshPrimitives)
                         [ mkSignerSignature "0xde02" "0xaa";
                           mkSignerSignature "0xDD03" "0xbb" ]))).
  repeat constructor.
Defined.

(** ** More on the gas-estimation error *)

Lemma filter_truthy_id (l : list string) :
  ~ In EmptyString l -> filter truthy l = l.
Proof.
  induction l as [|x l IH]; intro Hno; [reflexivity|].
  cbn [filter]. destruct x as [|c x].
  - exfalso. apply Hno. left. reflexivity.
  - cbn. f_equal. apply IH. intro Hin. apply Hno. right. exact Hin.
Qed.

Lemma estimate_error_metaMessages
    (prettyPrint : list (string * JsValue) -> string)
    (cause : Errors.BaseError) (op : Errors.EstimateUserOperation)
    (entryPoint : Address) (docsPath : option string) :
  metaMessageList
    (Errors.EstimateUserOperationGasError prettyPrint cause op entryPoint docsPath)
  = filter truthy
      (match Errors.metaMessages cause with
       | Some ms => ms ++ [ " " ]
       | None => []
       end
       ++ [ "Estimate Gas Arguments:";
            prettyPrint (Errors.estimateGasArguments op entryPoint) ]).
Proof. reflexivity. Qed.

(** X18.  The meta messages of the error are never missing and never empty:
    the heading "Estimate Gas Arguments:" is always among them and the empty
    string never is.  Wrapping an error that is itself such a wrapper loses
    nothing: the outer error keeps the short message of the original cause,
    has the inner error as cause, and its meta messages start with all those
    of the inner error, followed by a blank separator and the heading. *)
Theorem estimate_error_accumulates
    (prettyPrint : list (string * JsValue) -> string)
    (cause : Errors.BaseError)
    (op1 op2 : Errors.EstimateUserOperation) (entryPoint1 entryPoint2 : Address)
    (docsPath1 docsPath2 : option string) :
  let inner :=
    Errors.EstimateUserOperationGasError prettyPrint cause op1 entryPoint1
      docsPath1 in
  let outer :=
    Errors.EstimateUserOperationGasError prettyPrint inner op2 entryPoint2
      docsPath2 in
  (exists ms, Errors.metaMessages inner = Some ms /\ ms <> [])
  /\ In "Estimate Gas Arguments:" (metaMessageList inner)
  /\ ~ In EmptyString (metaMessageList inner)
  /\ Errors.shortMessage outer = Errors.shortMessage cause
  /\ Errors.cause outer = Some inner
  /\ exists rest,
       metaMessageList outer
       = metaMessageList inner ++ " " :: "Estimate Gas Arguments:" :: rest.
Proof.
  intros inner outer.
  assert (Hno : ~ In EmptyString (metaMessageList inner)).
  { unfold inner. rewrite estimate_error_metaMessages.
    apply filter_truthy_no_empty. }
  assert (Hin : In "Estimate Gas Arguments:" (metaMessageList inner)).
  { unfold inner. rewrite estimate_error_metaMessages.
    apply filter_truthy_In; [|discriminate].
    apply in_or_app. right. left. reflexivity. }
  split; [|split; [exact Hin | split; [exact Hno|]]].
  - exists (metaMessageList inner). split; [reflexivity|].
    intro Hnil. rewrite Hnil in Hin. exact Hin.
  - split; [reflexivity|]. split; [reflexivity|].
    unfold outer. rewrite estimate_error_metaMessages.
    change (Errors.metaMessages inner) with (Some (metaMessageList inner)).
    cbv beta iota. rewrite <- app_assoc, filter_app, (filter_truthy_id _ Hno).
    eexists. reflexivity.
Qed.

(** ** More on the client *)

(** X19.  The configuration handed to [createClient]: the caller's key and
    name are kept and only a missing one is replaced by "Account" or "Smart
    Account Client"; the type is "smartAccountClient" whatever the caller
    put there; chain, cache time, polling interval and account pass
    through.  Configuring twice changes nothing more: the second wrapping of
    the transport again sets [retryCount] to 0 and nothing else. *)
Theorem clientConfig_normalizes
    (TransportValue Middleware : Type)
    (parameters : Client.ClientConfig TransportValue Middleware) :
  let config := Client.clientConfig _ _ parameters in
  (forall k, Client.key _ _ parameters = Some k -> Client.key _ _ config = Some k)
  /\ (Client.key _ _ parameters = None -> Client.key _ _ config = Some "Account")
  /\ (forall n,
        Client.name _ _ parameters = Some n -> Client.name _ _ config = Some n)
  /\ (Client.name _ _ parameters = None ->
      Client.name _ _ config = Some "Smart Account Client")
  /\ Client.type _ _ config = Some "smartAccountClient"
  /\ Client.chain _ _ config = Client.chain _ _ parameters
  /\ Client.cacheTime _ _ config = Client.cacheTime _ _ parameters
  /\ Client.pollingInterval _ _ config = Client.pollingInterval _ _ parameters
  /\ Client.account _ _ config = Client.account _ _ parameters
  /\ Client.clientConfig _ _ config = config.
Proof.
  cbv zeta. unfold Client.clientConfig.
  cbn [Client.key Client.name Client.type Client.chain Client.cacheTime
       Client.pollingInterval Client.account Client.transport
       Client.sponsorUserOperation].
  split; [intros k ->; reflexivity|].
  split; [intros ->; reflexivity|].
  split; [intros n ->; reflexivity|].
  split; [intros ->; reflexivity|].
  repeat split.
Qed.

Lemma clientConfig_normalizes_witness :
  Client.key _ _
    (Client.clientConfig Client.TransportOptions unit
       (Client.mkClientConfig _ _ None None (Some "bundler") None None
          (fun opts => opts) None None (Some "walletClient")))
  = Some "bundler".
Proof.
  exact (proj1 (clientConfig_normalizes Client.TransportOptions unit
                  (Client.mkClientConfig _ _ None None (Some "bundler") None
                     None (fun opts => opts) None None (Some "walletClient")))
           "bundler" eq_refl).
Defined.

(** ** The init code, taken apart *)

Lemma substring_skip_all (p s : string) :
  substring (String.length p) (String.length s) (p +:+ s) = s.
Proof. rewrite substring_skip. apply substring_full. Qed.

(** X20.  The init code of an account that is not deployed splits back into
    its two parts: its first 42 characters are the factory address, as
    given, and [0x] followed by the rest is the encoded
    createProxyWithNonce call. *)
Theorem initCode_splits `{P : Primitives} (c : Closure) (env : Env)
    (h : list Request) (contractCode : option Hex) (initCode : Hex) :
  isAddress (c_safeProxyFactoryAddress c) = true ->
  bytecodeOf env h (c_accountAddress c) = inr contractCode ->
  optionalLength contractCode <= 2 ->
  fst (getInitCode (accountObject c) env h) = inr initCode ->
  exists initializer,
    getInitializerCode (c_owner c) (c_addModuleLibAddress c)
      (c_safe4337ModuleAddress c) = inr initializer
    /\ substring 0 42 initCode = c_safeProxyFactoryAddress c
    /\ encodeFunctionData createProxyWithNonceAbi "createProxyWithNonce"
         [ V_address (c_safeSingletonAddress c); V_bytes initializer;
           V_uint (c_saltNonce c) ]
       = inr ("0x" +:+ substring 42 (String.length initCode - 42) initCode).
Proof.
  intros Hfactory Hread Hlen. cbn [getInitCode accountObject].
  rewrite safe_getInitCode_run, Hread. cbn [fst rbind].
  replace (2 <? optionalLength contractCode) with false
    by (symmetry; apply Z.ltb_ge; exact Hlen).
  unfold getAccountInitCode.
  destruct (String.eqb (c_owner c) EmptyString); [discriminate|].
  destruct (getInitializerCode _ _ _) as [e|initializer]; [discriminate|].
  cbn [rbind].
  destruct (encodeFunctionData createProxyWithNonceAbi _ _) as [e|callData] eqn:Hcall;
    [discriminate|].
  cbn [rbind ok]. intros [= Hic].
  pose proof (encodeFunctionData_hex _ _ _ _ Hcall) as Hdata.
  assert (Hhex : isHex (c_safeProxyFactoryAddress c) = true).
  { unfold isAddress in Hfactory. apply andb_prop in Hfactory as [Hf _].
    apply andb_prop in Hf as [Hf _]. exact Hf. }
  assert (Hlen42 : String.length (c_safeProxyFactoryAddress c) = 42%nat).
  { unfold isAddress in Hfactory. apply andb_prop in Hfactory as [Hf _].
    apply andb_prop in Hf as [_ Hf]. apply Nat.eqb_eq. exact Hf. }
  assert (Hic' : initCode = concatBytes (c_safeProxyFactoryAddress c) callData)
    by (rewrite <- Hic; exact (concatHex_pair _ _ Hhex Hdata)).
  clear Hic. subst initCode.
  assert (Hshape : concatBytes (c_safeProxyFactoryAddress c) callData
                   = c_safeProxyFactoryAddress c +:+ hexBody callData).
  { unfold concatBytes. rewrite <- (hex_eta _ Hhex) at 2. reflexivity. }
  exists initializer. split; [reflexivity|].
  rewrite Hshape. split.
  - rewrite <- Hlen42. apply substring_take.
  - rewrite length_append, Hlen42.
    replace (42 + String.length (hexBody callData) - 42)%nat
      with (String.length (hexBody callData)) by lia.
    rewrite <- Hlen42 at 1. rewrite substring_skip_all.
    now rewrite (hex_eta _ Hdata).
Qed.

Lemma initCode_splits_witness :
  exists initializer,
    getInitializerCode (P := examplePrimitives) exampleAddress
      "0x191EFDC03615B575922289DC339F4c70aC5C30Af"
      "0x39E54Bb2b3Aa444b4B39DEe15De3b7809c36Fc38" = inr initializer
    /\ substring 0 42
         ("0x4e1DCf7AD4e460CfD30791CCC4F9c8a4f820ec67" +:+ "0000001400000003")
       = "0x4e1DCf7AD4e460CfD30791CCC4F9c8a4f820ec67"
    /\ encodeFunctionData (Primitives := examplePrimitives)
         createProxyWithNonceAbi "createProxyWithNonce"
         [ V_address "0x41675C099F32341bf84BFc5382aF534df5C7461a";
           V_bytes initializer; V_uint 0 ]
       = inr ("0x" +:+ substring 42
                (String.length
                   ("0x4e1DCf7AD4e460CfD30791CCC4F9c8a4f820ec67"
                    +:+ "0000001400000003") - 42)
                ("0x4e1DCf7AD4e460CfD30791CCC4F9c8a4f820ec67"
                 +:+ "0000001400000003")).
Proof.
  exact (initCode_splits (P := examplePrimitives) exampleClosure
           (exampleEnv 5) [] None _ eq_refl eq_refl
           ltac:(cbn; lia) eq_refl).
Defined.

(** ** The two listed networks *)

(** The answer of the factory is all [getAccountAddress] takes from the
    chain. *)
Lemma getAccountAddress_after_read `{P : Primitives}
    (owner lib module factory singleton : Address) (saltNonce : option Z) :
  exists f : Hex -> Result Address,
    forall env h,
      getAccountAddress owner lib module factory singleton saltNonce env h
      = (rbind (readContractOf env h factory "proxyCreationCode") f,
         h ++ [ ReadContract factory "proxyCreationCode" ]).
Proof.
  exists (fun code =>
            fst (getAccountAddress owner lib module factory singleton saltNonce
                   (mkEnv (fun _ => inl (LibraryError EmptyString))
                      (fun _ _ _ => inr code)
                      (fun _ _ => inl (LibraryError EmptyString))
                      (fun _ _ _ => inl (LibraryError EmptyString))
                      (fun _ _ _ => inl (LibraryError EmptyString))
                      (fun _ _ _ => inl (LibraryError EmptyString)))
                   [])).
  intros env h. unfold getAccountAddress, readContract.
  rewrite !bind_request. cbn [readContractOf].
  destruct (readContractOf env h factory "proxyCreationCode") as [e|code];
    reflexivity.
Qed.

(** X21.  The table gives Sepolia (11155111) and Goerli (5) the same four
    addresses.  So, whatever the overrides, a construction resolves the same
    addresses on both, and when the two factories answer with the same
    creation code the same key and salt nonce give the same account address
    on both chains (or the same failure). *)
Theorem listed_networks_agree `{P : Primitives} (params : SafeParameters)
    (env1 env2 : Env) (h : list Request) :
  resolveAddresses params (numberToString 11155111)
  = resolveAddresses params (numberToString 5)
  /\ (chainIdOf env1 h = inr 11155111 ->
      chainIdOf env2 h = inr 5 ->
      (forall factory,
         readContractOf env1 (h ++ [ GetChainId ]) factory "proxyCreationCode"
         = readContractOf env2 (h ++ [ GetChainId ]) factory "proxyCreationCode") ->
      snd (privateKeyToSafeSmartAccount params env1 h)
      = snd (privateKeyToSafeSmartAccount params env2 h)
      /\ match fst (privateKeyToSafeSmartAccount params env1 h),
               fst (privateKeyToSafeSmartAccount params env2 h) with
         | inr a1, inr a2 => address a1 = address a2
         | inl e1, inl e2 => e1 = e2
         | _, _ => False
         end).
Proof.
  assert (Hsame : resolveAddresses params (numberToString 11155111)
                  = resolveAddresses params (numberToString 5)).
  { unfold resolveAddresses, overrideOrTable.
    destruct (p_safeVersion params). reflexivity. }
  split; [exact Hsame|].
  intros Hid1 Hid2 Hread.
  rewrite !privateKeyToSafeSmartAccount_run, Hid1, Hid2, Hsame.
  destruct (privateKeyToAccount (p_privateKey params)) as [e|owner];
    [split; reflexivity|].
  destruct (resolveAddresses params (numberToString 5))
    as [e|[[[lib module] factory] singleton]]; [split; reflexivity|].
  cbv zeta.
  destruct (getAccountAddress_after_read owner lib module factory singleton
              (Some (match p_saltNonce params with Some n => n | None => 0 end)))
    as (f & Hrun).
  rewrite (Hrun env1), (Hrun env2), (Hread factory). cbn [fst snd].
  destruct (rbind _ f) as [e|a]; [split; reflexivity|].
  destruct (String.eqb a EmptyString); split; reflexivity.
Qed.

Lemma listed_networks_agree_witness :
  match fst (privateKeyToSafeSmartAccount (P := examplePrimitives)
               exampleParameters (exampleEnv 11155111) []),
        fst (privateKeyToSafeSmartAccount (P := examplePrimitives)
               exampleParameters (exampleEnv 5) []) with
  | inr a1, inr a2 => address a1 = address a2
  | inl e1, inl e2 => e1 = e2
  | _, _ => False
  end.
Proof.
  exact (proj2 (proj2 (listed_networks_agree (P := examplePrimitives)
                         exampleParameters (exampleEnv 11155111)
                         (exampleEnv 5) [])
                  eq_refl eq_refl (fun _ => eq_refl))).
Defined.
